(** * JDRfastAPI: authorization, token rotation and board engine

    A shallow embedding of the service layer of the JDR session manager
    (FastAPI + SQLAlchemy).  Tables are lists of rows in primary-key
    order, JSON columns are finite maps from strings to JSON values,
    and a service function that raises returns [Raise e] and leaves the
    database as it was (the session is closed without a commit). *)

From Stdlib Require Import ZArith Bool Lia Floats.SpecFloat.
From stdpp Require Import base option list strings pretty gmap.

Local Open Scope Z_scope.

(** ** Exceptions and results *)

(** [HTTPException] is what the services raise on purpose; the other
    constructors are the Python and SQLAlchemy errors that the modelled
    paths can run into. *)
Inductive exn :=
| HTTPException (status_code : Z) (detail : string)
| IntegrityError
| StaleDataError
| TypeError
| AttributeError.

Inductive result (A : Type) :=
| Ok (a : A)
| Raise (e : exn).
Arguments Ok {A} a.
Arguments Raise {A} e.

#[global] Instance result_ret : MRet result := fun _ a => Ok a.
#[global] Instance result_bind : MBind result := fun _ _ f r =>
  match r with
  | Ok a => f a
  | Raise e => Raise e
  end.

#[global] Instance result_fmap : FMap result := fun _ _ f r =>
  match r with
  | Ok a => Ok (f a)
  | Raise e => Raise e
  end.

#[global] Instance exn_eq_dec : EqDecision exn.
Proof. solve_decision. Defined.

(** HTTP status codes used by the services. *)
Definition HTTP_400_BAD_REQUEST : Z := 400.
Definition HTTP_401_UNAUTHORIZED : Z := 401.
Definition HTTP_403_FORBIDDEN : Z := 403.
Definition HTTP_404_NOT_FOUND : Z := 404.

(** ** models/organization.py *)

Module OrganizationRoleType.
Inductive t := owner | admin | mj | member | guest.
#[global] Instance eq_dec : EqDecision t.
Proof. solve_decision. Defined.
End OrganizationRoleType.

Module MembershipStatus.
Inductive t := active | pending | invited | suspended | banned.
#[global] Instance eq_dec : EqDecision t.
Proof. solve_decision. Defined.
End MembershipStatus.

Module OrganizationJoinMode.
Inductive t := open | approval | invite_only | closed.
#[global] Instance eq_dec : EqDecision t.
Proof. solve_decision. Defined.
End OrganizationJoinMode.

Module OrganizationVisibility.
Inductive t := public | private.
#[global] Instance eq_dec : EqDecision t.
Proof. solve_decision. Defined.
End OrganizationVisibility.

Module Organization.
Record t := mk {
    id : Z;
    name : string;
    slug : string;
    description : option string;
    visibility : OrganizationVisibility.t;
    join_mode : OrganizationJoinMode.t;
    is_active : bool;
    updated_at : Z
  }.
End Organization.

Module OrganizationMembership.
Record t := mk {
    id : Z;
    user_id : Z;
    organization_id : Z;
    role : OrganizationRoleType.t;
    status : MembershipStatus.t;
    approved_by_id : option Z;
    approved_at : option Z
  }.

Definition set_role (r : OrganizationRoleType.t) (m : t) : t :=
    mk (id m) (user_id m) (organization_id m) r (status m)
       (approved_by_id m) (approved_at m).

Definition approve (by_id now : Z) (m : t) : t :=
    mk (id m) (user_id m) (organization_id m) (role m)
       MembershipStatus.active (Some by_id) (Some now).
End OrganizationMembership.

(** ** models/user.py *)

Module GlobalUserRole.
Inductive t := admin | user.
#[global] Instance eq_dec : EqDecision t.
Proof. solve_decision. Defined.
End GlobalUserRole.

(** The [role_hierarchy] dict of [has_permission_in_org], as the list
    of its items, and [dict.get(key, default)] on such a list. *)
Definition role_hierarchy : list (OrganizationRoleType.t * Z) :=
  [ (OrganizationRoleType.guest, 0);
    (OrganizationRoleType.member, 1);
    (OrganizationRoleType.mj, 2);
    (OrganizationRoleType.admin, 3);
    (OrganizationRoleType.owner, 4) ].

Fixpoint dict_get {K V : Type} `{EqDecision K}
    (d : list (K * V)) (k : K) (default : V) : V :=
  match d with
  | [] => default
  | (k', v) :: d' => if decide (k' = k) then v else dict_get d' k default
  end.

Module User.
Record t := mk {
  id : Z;
  email : string;
  global_role : GlobalUserRole.t;
  is_active : bool
}.

(** The methods below read [self.organization_memberships], the
    relationship collection of the user: the membership rows whose
    [user_id] is this user, in table order.  It is their first
    argument here. *)
Definition get_organization_role
    (organization_memberships : list OrganizationMembership.t)
    (organization_id : Z) : option OrganizationRoleType.t :=
  OrganizationMembership.role <$>
    List.find
      (fun m =>
         bool_decide (OrganizationMembership.organization_id m = organization_id)
         && bool_decide (OrganizationMembership.status m = MembershipStatus.active))
      organization_memberships.

Definition is_member_of
    (organization_memberships : list OrganizationMembership.t)
    (organization_id : Z) : bool :=
  existsb
    (fun m =>
       bool_decide (OrganizationMembership.organization_id m = organization_id)
       && bool_decide (OrganizationMembership.status m = MembershipStatus.active))
    organization_memberships.

(** Every member of the role enum is a non-empty string, so
    [not user_role] is true only for [None]. *)
Definition has_permission_in_org
    (organization_memberships : list OrganizationMembership.t)
    (organization_id : Z) (min_role : OrganizationRoleType.t) : bool :=
  match get_organization_role organization_memberships organization_id with
  | None => false
  | Some user_role =>
      bool_decide (dict_get role_hierarchy user_role 0
                   >= dict_get role_hierarchy min_role 0)
  end.
End User.

(** ** JSON columns and Python truth values *)

(** A JSON value as Python holds it after decoding.  Floats are IEEE
    binary64 values in the representation of [SpecFloat]. *)
#[local] Unset Elimination Schemes.
Inductive json :=
| JNull
| JBool (b : bool)
| JInt (n : Z)
| JFloat (f : spec_float)
| JStr (s : string)
| JList (l : list json)
| JDict (d : list (string * json)).
#[local] Set Elimination Schemes.

(** A JSON object column (a Python [dict] with string keys). *)
Abbreviation dict := (gmap string json).

(** [bool(v)]: the truth value Python gives a decoded JSON value. *)
Definition py_truthy (v : json) : bool :=
  match v with
  | JNull => false
  | JBool b => b
  | JInt n => negb (n =? 0)
  | JFloat (S754_zero _) => false
  | JFloat _ => true
  | JStr s => negb (bool_decide (s = EmptyString))
  | JList l => match l with [] => false | _ => true end
  | JDict d => match d with [] => false | _ => true end
  end.

(** [bool(d)] for a dict: false exactly when it is empty. *)
Definition dict_truthy (d : dict) : bool := negb (bool_decide (size d = 0%nat)).

(** [bool(x)] for an optional integer such as a nullable foreign key:
    [None] and [0] are false. *)
Definition id_truthy (x : option Z) : bool :=
  match x with
  | None => false
  | Some n => negb (n =? 0)
  end.

(** [n == f] for a Python int and a float: the comparison is exact. *)
Definition int_eq_float (n : Z) (f : spec_float) : bool :=
  match f with
  | S754_zero _ => n =? 0
  | S754_finite s m e =>
      let sm := cond_Zopp s (Zpos m) in
      if 0 <=? e then n =? sm * 2 ^ e else n * 2 ^ (- e) =? sm
  | _ => false
  end.

(** [n == v] for a Python int and a decoded JSON value ([True == 1]). *)
Definition int_eq_json (n : Z) (v : json) : bool :=
  match v with
  | JInt k => n =? k
  | JBool b => n =? (if b then 1 else 0)
  | JFloat f => int_eq_float n f
  | _ => false
  end.

(** [n in v]: membership of an int in a decoded JSON value.  A list is
    searched with [==], a dict is searched among its (string) keys, a
    string or a scalar raises [TypeError]. *)
Definition int_in_json (n : Z) (v : json) : result bool :=
  match v with
  | JList l => Ok (existsb (int_eq_json n) l)
  | JDict _ => Ok false
  | _ => Raise TypeError
  end.

(** [{**a, **b}]: the keys of [b] win. *)
Definition dict_merge (a b : dict) : dict := b ∪ a.

(** [d or {}] for a dict column. *)
Definition dict_or_empty (d : dict) : dict := if dict_truthy d then d else ∅.

(** ** models/image.py *)

Module ImageAsset.
Record t := mk {
  id : Z;
  url : string;
  filename : string
}.
End ImageAsset.

(** ** models/jdr.py *)

Module JDRStatus.
Inductive t := draft | open | in_progress | paused | completed | cancelled.
#[global] Instance eq_dec : EqDecision t.
Proof. solve_decision. Defined.
End JDRStatus.

Module MembershipJDRStatus.
Inductive t := pending | active | rejected | kicked | left.
#[global] Instance eq_dec : EqDecision t.
Proof. solve_decision. Defined.
End MembershipJDRStatus.

Module BoardElementType.
Inductive t := character | monster | item | map | note | image.
End BoardElementType.

(** Columns that no modelled function reads or writes are left out of
    the records below. *)
Module JDR.
Record t := mk {
  id : Z;
  organization_id : Z;
  mj_id : option Z;
  name : string;
  status : JDRStatus.t;
  max_players : Z
}.
End JDR.

Module JDRMembership.
Record t := mk {
  id : Z;
  jdr_id : Z;
  user_id : Z;
  status : MembershipJDRStatus.t;
  join_message : option string;
  approved_by_id : option Z;
  approved_at : option Z
}.
End JDRMembership.

Module Character.
Record t := mk {
  id : Z;
  jdr_id : Z;
  owner_id : Z;
  name : string;
  avatar_image_id : option Z;
  gold : spec_float
}.
Definition set_gold (g : spec_float) (c : t) : t :=
  mk (id c) (jdr_id c) (owner_id c) (name c) (avatar_image_id c) g.
End Character.

Module ItemTemplate.
Record t := mk {
  id : Z;
  name : string;
  image_id : option Z
}.
End ItemTemplate.

Module GameItem.
Record t := mk {
  id : Z;
  jdr_id : Z;
  template_id : option Z;
  custom_name : option string;
  custom_image_id : option Z;
  quantity : Z
}.
End GameItem.

Module CharacterInventory.
Record t := mk {
  id : Z;
  character_id : Z;
  game_item_id : Z;
  quantity : Z;
  mj_notes : option string
}.
End CharacterInventory.

Module Board.
Record t := mk {
  id : Z;
  jdr_id : Z;
  name : string;
  background_image_id : option Z;
  dimensions : dict;
  updated_at : Z
}.
End Board.

Module BoardElement.
(** [visible_to] is a JSON column written from an optional dict: it
    holds a dict or the JSON null ([None]). *)
Record t := mk {
  id : Z;
  board_id : Z;
  element_type : BoardElementType.t;
  character_id : option Z;
  game_item_id : option Z;
  image_id : option Z;
  content : dict;
  position : dict;
  is_visible : bool;
  visible_to : option dict;
  updated_at : Z
}.
End BoardElement.

Module RefreshToken.
Record t := mk {
  id : Z;
  token : string;
  user_id : Z;
  expires_at : Z;
  revoked : bool;
  revoked_at : option Z
}.
Definition revoke (now : Z) (r : t) : t :=
  mk (id r) (token r) (user_id r) (expires_at r) true (Some now).
End RefreshToken.

Module OrganizationInvitation.
Record t := mk {
  id : Z;
  organization_id : Z;
  email : string;
  invited_by_id : Z;
  role : OrganizationRoleType.t;
  token : string;
  expires_at : Z
}.
End OrganizationInvitation.

(** ** The database *)

(** One list of rows per table, in primary-key order. *)
Record DB := mkDB {
  users : list User.t;
  refresh_tokens : list RefreshToken.t;
  organizations : list Organization.t;
  organization_memberships : list OrganizationMembership.t;
  organization_invitations : list OrganizationInvitation.t;
  jdrs : list JDR.t;
  jdr_memberships : list JDRMembership.t;
  characters : list Character.t;
  item_templates : list ItemTemplate.t;
  game_items : list GameItem.t;
  character_inventory : list CharacterInventory.t;
  boards : list Board.t;
  board_elements : list BoardElement.t;
  image_assets : list ImageAsset.t
}.

Definition empty_db : DB := mkDB [] [] [] [] [] [] [] [] [] [] [] [] [] [].

Definition with_refresh_tokens (db : DB) (v : list RefreshToken.t) : DB :=
  mkDB (users db) v (organizations db) (organization_memberships db)
    (organization_invitations db) (jdrs db) (jdr_memberships db) (characters db)
    (item_templates db) (game_items db) (character_inventory db) (boards db)
    (board_elements db) (image_assets db).

Definition with_organizations (db : DB) (v : list Organization.t) : DB :=
  mkDB (users db) (refresh_tokens db) v (organization_memberships db)
    (organization_invitations db) (jdrs db) (jdr_memberships db) (characters db)
    (item_templates db) (game_items db) (character_inventory db) (boards db)
    (board_elements db) (image_assets db).

Definition with_organization_memberships (db : DB)
    (v : list OrganizationMembership.t) : DB :=
  mkDB (users db) (refresh_tokens db) (organizations db) v
    (organization_invitations db) (jdrs db) (jdr_memberships db) (characters db)
    (item_templates db) (game_items db) (character_inventory db) (boards db)
    (board_elements db) (image_assets db).

Definition with_jdr_memberships (db : DB) (v : list JDRMembership.t) : DB :=
  mkDB (users db) (refresh_tokens db) (organizations db)
    (organization_memberships db) (organization_invitations db) (jdrs db) v
    (characters db) (item_templates db) (game_items db) (character_inventory db)
    (boards db) (board_elements db) (image_assets db).

Definition with_characters (db : DB) (v : list Character.t) : DB :=
  mkDB (users db) (refresh_tokens db) (organizations db)
    (organization_memberships db) (organization_invitations db) (jdrs db)
    (jdr_memberships db) v (item_templates db) (game_items db)
    (character_inventory db) (boards db) (board_elements db) (image_assets db).

Definition with_character_inventory (db : DB)
    (v : list CharacterInventory.t) : DB :=
  mkDB (users db) (refresh_tokens db) (organizations db)
    (organization_memberships db) (organization_invitations db) (jdrs db)
    (jdr_memberships db) (characters db) (item_templates db) (game_items db) v
    (boards db) (board_elements db) (image_assets db).

Definition with_boards (db : DB) (v : list Board.t) : DB :=
  mkDB (users db) (refresh_tokens db) (organizations db)
    (organization_memberships db) (organization_invitations db) (jdrs db)
    (jdr_memberships db) (characters db) (item_templates db) (game_items db)
    (character_inventory db) v (board_elements db) (image_assets db).

Definition with_board_elements (db : DB) (v : list BoardElement.t) : DB :=
  mkDB (users db) (refresh_tokens db) (organizations db)
    (organization_memberships db) (organization_invitations db) (jdrs db)
    (jdr_memberships db) (characters db) (item_templates db) (game_items db)
    (character_inventory db) (boards db) v (image_assets db).

(** The key an autoincrement column gives the next inserted row. *)
Definition next_id (ids : list Z) : Z := 1 + foldr Z.max 0 ids.

(** [user.organization_memberships]: the relationship, loaded from the
    membership table through the foreign key. *)
Definition user_organization_memberships (db : DB) (user : User.t)
    : list OrganizationMembership.t :=
  List.filter
    (fun m => bool_decide (OrganizationMembership.user_id m = User.id user))
    (organization_memberships db).

(** ** services/organization_service.py *)

(** The module defines [join_organization], [update_member_role] and
    [approve_membership] twice.  A later [def] rebinds the name, so the
    functions the router imports are the later ones.  The two
    definitions of [join_organization] and of [approve_membership]
    differ in comments and messages only; the earlier
    [update_member_role] has one check more and is kept in
    [FirstDefinition]. *)

Definition create_organization (db : DB) (user : User.t) (name slug : string)
    (description : option string) (visibility : OrganizationVisibility.t)
    (join_mode : OrganizationJoinMode.t) (now : Z) : result (DB * Organization.t) :=
  match List.find (fun o => bool_decide (Organization.slug o = slug))
          (organizations db) with
  | Some _ =>
      Raise (HTTPException HTTP_400_BAD_REQUEST "Organization slug already exists")
  | None =>
      let org :=
        Organization.mk (next_id (Organization.id <$> organizations db))
          name slug description visibility join_mode true now in
      (* the creator becomes owner, directly active *)
      let membership :=
        OrganizationMembership.mk
          (next_id (OrganizationMembership.id <$> organization_memberships db))
          (User.id user) (Organization.id org)
          OrganizationRoleType.owner MembershipStatus.active None None in
      Ok (with_organization_memberships
            (with_organizations db (organizations db ++ [org]))
            (organization_memberships db ++ [membership]),
          org)
  end.

Definition join_organization (db : DB) (user : User.t) (organization_id : Z)
    (message : option string) : result (DB * OrganizationMembership.t) :=
  match List.find (fun o => bool_decide (Organization.id o = organization_id))
          (organizations db) with
  | None => Raise (HTTPException HTTP_404_NOT_FOUND "Organization not found")
  | Some org =>
      if negb (Organization.is_active org) then
        Raise (HTTPException HTTP_400_BAD_REQUEST "Organization is not active")
      else
        match List.find
                (fun m =>
                   bool_decide (OrganizationMembership.user_id m = User.id user)
                   && bool_decide (OrganizationMembership.organization_id m = organization_id)
                   && bool_decide (OrganizationMembership.status m ∈
                                     [MembershipStatus.active; MembershipStatus.pending]))
                (organization_memberships db) with
        | Some _ =>
            Raise (HTTPException HTTP_400_BAD_REQUEST "Already a member or pending approval")
        | None =>
            if bool_decide (Organization.join_mode org = OrganizationJoinMode.closed) then
              Raise (HTTPException HTTP_403_FORBIDDEN "This organization is closed")
            else if bool_decide (Organization.join_mode org = OrganizationJoinMode.invite_only) then
              Raise (HTTPException HTTP_403_FORBIDDEN "This organization is invite-only")
            else
              let initial_status :=
                if bool_decide (Organization.join_mode org = OrganizationJoinMode.open)
                then MembershipStatus.active
                else MembershipStatus.pending in
              let membership :=
                OrganizationMembership.mk
                  (next_id (OrganizationMembership.id <$> organization_memberships db))
                  (User.id user) organization_id
                  OrganizationRoleType.member initial_status None None in
              Ok (with_organization_memberships db
                    (organization_memberships db ++ [membership]),
                  membership)
        end
  end.

(** The query of [update_member_role] for the target membership: the
    first row of the pair (user, organization), whatever its status,
    with its position in the table. *)
Definition target_membership (db : DB) (organization_id target_user_id : Z)
    : option (nat * OrganizationMembership.t) :=
  list_find
    (fun m => OrganizationMembership.user_id m = target_user_id
              ∧ OrganizationMembership.organization_id m = organization_id)
    (organization_memberships db).

Module FirstDefinition.
(** Lines 142-191: the definition that a later one replaces. *)
Definition update_member_role (db : DB) (requester : User.t)
    (organization_id target_user_id : Z) (new_role : OrganizationRoleType.t)
    : result (DB * OrganizationMembership.t) :=
  if negb (User.has_permission_in_org (user_organization_memberships db requester)
             organization_id OrganizationRoleType.admin) then
    Raise (HTTPException HTTP_403_FORBIDDEN
             "Insufficient permissions - Admin role required")
  else
    match target_membership db organization_id target_user_id with
    | None => Raise (HTTPException HTTP_404_NOT_FOUND "Membership not found")
    | Some (i, membership) =>
        (* the role of an owner cannot be modified *)
        if bool_decide (OrganizationMembership.role membership = OrganizationRoleType.owner) then
          Raise (HTTPException HTTP_400_BAD_REQUEST "Cannot change owner role")
        (* only an owner can promote somebody to owner *)
        else if bool_decide (new_role = OrganizationRoleType.owner)
                && negb (User.has_permission_in_org
                           (user_organization_memberships db requester)
                           organization_id OrganizationRoleType.owner) then
          Raise (HTTPException HTTP_403_FORBIDDEN "Only owners can promote to owner role")
        else
          let membership' := OrganizationMembership.set_role new_role membership in
          Ok (with_organization_memberships db
                (<[i := membership']> (organization_memberships db)),
              membership')
    end.
End FirstDefinition.

(** Lines 362-403: the definition in force. *)
Definition update_member_role (db : DB) (requester : User.t)
    (organization_id target_user_id : Z) (new_role : OrganizationRoleType.t)
    : result (DB * OrganizationMembership.t) :=
  if negb (User.has_permission_in_org (user_organization_memberships db requester)
             organization_id OrganizationRoleType.admin) then
    Raise (HTTPException HTTP_403_FORBIDDEN "Insufficient permissions")
  else
    match target_membership db organization_id target_user_id with
    | None => Raise (HTTPException HTTP_404_NOT_FOUND "Membership not found")
    | Some (i, membership) =>
        (* the role of the owner cannot be changed *)
        if bool_decide (OrganizationMembership.role membership = OrganizationRoleType.owner) then
          Raise (HTTPException HTTP_400_BAD_REQUEST "Cannot change owner role")
        else
          let membership' := OrganizationMembership.set_role new_role membership in
          Ok (with_organization_memberships db
                (<[i := membership']> (organization_memberships db)),
              membership')
    end.

Definition approve_membership (db : DB) (requester : User.t)
    (organization_id membership_id now : Z)
    : result (DB * OrganizationMembership.t) :=
  if negb (User.has_permission_in_org (user_organization_memberships db requester)
             organization_id OrganizationRoleType.admin) then
    Raise (HTTPException HTTP_403_FORBIDDEN "Insufficient permissions")
  else
    match list_find
            (fun m => OrganizationMembership.id m = membership_id
                      ∧ OrganizationMembership.organization_id m = organization_id
                      ∧ OrganizationMembership.status m = MembershipStatus.pending)
            (organization_memberships db) with
    | None => Raise (HTTPException HTTP_404_NOT_FOUND "Pending membership not found")
    | Some (i, membership) =>
        let membership' :=
          OrganizationMembership.approve (User.id requester) now membership in
        Ok (with_organization_memberships db
              (<[i := membership']> (organization_memberships db)),
            membership')
    end.

(** The service calls that write the membership table, and their
    effect on the database. *)
Inductive membership_call :=
| CreateOrganization (user : User.t) (name slug : string)
    (description : option string) (visibility : OrganizationVisibility.t)
    (join_mode : OrganizationJoinMode.t) (now : Z)
| JoinOrganization (user : User.t) (organization_id : Z) (message : option string)
| UpdateMemberRole (requester : User.t) (organization_id target_user_id : Z)
    (new_role : OrganizationRoleType.t)
| ApproveMembership (requester : User.t) (organization_id membership_id now : Z).

Definition run_membership_call (db : DB) (c : membership_call) : result DB :=
  match c with
  | CreateOrganization u n s d v j now =>
      fst <$> create_organization db u n s d v j now
  | JoinOrganization u o msg => fst <$> join_organization db u o msg
  | UpdateMemberRole r o t nr => fst <$> update_member_role db r o t nr
  | ApproveMembership r o m now => fst <$> approve_membership db r o m now
  end.

(** ** services/auth_service.py *)

(** Times are microseconds since the epoch; [timedelta_days d] is
    [timedelta(days=d)]. *)
Definition timedelta_days (d : Z) : Z := d * 86400000000.

Definition REFRESH_TOKEN_EXPIRE_DAYS : Z := 7.

(** The dict returned by [authenticate_user] and [renew_token]. *)
Record Tokens := mkTokens {
  access_token : string;
  refresh_token : string;
  token_type : string
}.

(** The filter of [_cleanup_expired_tokens]: the rows of the user that
    are expired, or were revoked before the cutoff.  A null
    [revoked_at] makes the second comparison unknown, which selects
    nothing. *)
Definition cleanup_selects (user_id cutoff_date now : Z) (r : RefreshToken.t) : bool :=
  bool_decide (RefreshToken.user_id r = user_id)
  && ((RefreshToken.expires_at r <? now)
      || match RefreshToken.revoked_at r with
         | Some t => t <? cutoff_date
         | None => false
         end).

(** [_cleanup_expired_tokens]: [utcnow_cutoff] and [utcnow_filter] are
    its two readings of the clock.  The session does not autoflush, so
    the bulk delete acts on the committed rows. *)
Definition _cleanup_expired_tokens (rows : list RefreshToken.t)
    (user_id utcnow_cutoff utcnow_filter : Z) : list RefreshToken.t :=
  let cutoff_date := utcnow_cutoff - timedelta_days 7 in
  List.filter (fun r => negb (cleanup_selects user_id cutoff_date utcnow_filter r)) rows.

(** The successive readings of [datetime.utcnow()] in one call of
    [renew_token]. *)
Record RenewClock := mkRenewClock {
  utcnow_expiry_check : Z;
  utcnow_revoked_at : Z;
  utcnow_new_expiry : Z;
  utcnow_cutoff : Z;
  utcnow_cleanup : Z
}.

(** [renew_token].  [new_refresh] and [new_access] are what
    [create_random_refresh_token] and [create_access_token] return.
    The revocation and the new row are pending until the commit inside
    the cleanup, which first issued its bulk delete: the flush then
    updates the presented row by primary key (an error if the delete
    took it) and inserts the new one (an error if its token is already
    in the table, the column being unique).  An error leaves the
    transaction uncommitted. *)
Definition renew_token (db : DB) (refresh_token : string) (clock : RenewClock)
    (new_refresh new_access : string) : result (DB * Tokens) :=
  match List.find
          (fun r => bool_decide (RefreshToken.token r = refresh_token)
                    && bool_decide (RefreshToken.revoked r = false))
          (refresh_tokens db) with
  | None => Raise (HTTPException HTTP_401_UNAUTHORIZED "Invalid refresh token")
  | Some token_db =>
      if RefreshToken.expires_at token_db <? utcnow_expiry_check clock then
        Raise (HTTPException HTTP_401_UNAUTHORIZED "Refresh token expired")
      else
        match List.find (fun u => bool_decide (User.id u = RefreshToken.user_id token_db))
                (users db) with
        | None => Raise AttributeError
        | Some user =>
            if negb (User.is_active user) then
              Raise (HTTPException HTTP_403_FORBIDDEN "Account is disabled")
            else
              let new_refresh_db :=
                RefreshToken.mk
                  (next_id (RefreshToken.id <$> refresh_tokens db))
                  new_refresh (User.id user)
                  (utcnow_new_expiry clock + timedelta_days REFRESH_TOKEN_EXPIRE_DAYS)
                  false None in
              let kept :=
                _cleanup_expired_tokens (refresh_tokens db) (User.id user)
                  (utcnow_cutoff clock) (utcnow_cleanup clock) in
              if negb (existsb (fun r => bool_decide (RefreshToken.id r = RefreshToken.id token_db))
                         kept) then
                Raise StaleDataError
              else if existsb (fun r => bool_decide (RefreshToken.token r = new_refresh)) kept then
                Raise IntegrityError
              else
                let updated :=
                  (fun r => if bool_decide (RefreshToken.id r = RefreshToken.id token_db)
                            then RefreshToken.revoke (utcnow_revoked_at clock) r
                            else r) <$> kept in
                Ok (with_refresh_tokens db (updated ++ [new_refresh_db]),
                    mkTokens new_access new_refresh "bearer")
        end
  end.

(** [revoke_token] (logout). *)
Definition revoke_token (db : DB) (refresh_token : string) (now : Z) : result DB :=
  match list_find (fun r => RefreshToken.token r = refresh_token) (refresh_tokens db) with
  | None => Raise (HTTPException HTTP_404_NOT_FOUND "Refresh token not found")
  | Some (i, token_db) =>
      if RefreshToken.revoked token_db then
        Raise (HTTPException HTTP_400_BAD_REQUEST "Token already revoked")
      else
        Ok (with_refresh_tokens db
              (<[i := RefreshToken.revoke now token_db]> (refresh_tokens db)))
  end.

(** [revoke_all_user_tokens] (logout of all devices); the count of
    revoked tokens is returned with the database. *)
Definition revoke_all_user_tokens (db : DB) (refresh_token : string)
    (utcnow_check now : Z) : result (DB * nat) :=
  match List.find (fun r => bool_decide (RefreshToken.token r = refresh_token))
          (refresh_tokens db) with
  | None => Raise (HTTPException HTTP_404_NOT_FOUND "Refresh token not found")
  | Some token_db =>
      if RefreshToken.revoked token_db then
        Raise (HTTPException HTTP_400_BAD_REQUEST "Token already revoked")
      else if RefreshToken.expires_at token_db <? utcnow_check then
        Raise (HTTPException HTTP_401_UNAUTHORIZED "Refresh token expired")
      else
        let user_id := RefreshToken.user_id token_db in
        let selected (r : RefreshToken.t) :=
          bool_decide (RefreshToken.user_id r = user_id)
          && bool_decide (RefreshToken.revoked r = false) in
        let tokens_to_revoke := length (List.filter selected (refresh_tokens db)) in
        Ok (with_refresh_tokens db
              ((fun r => if selected r then RefreshToken.revoke now r else r)
                 <$> refresh_tokens db),
            tokens_to_revoke)
  end.

(** The successive readings of the clock in [authenticate_user]. *)
Record LoginClock := mkLoginClock {
  login_utcnow_cutoff : Z;
  login_utcnow_cleanup : Z;
  login_utcnow_expiry : Z
}.

(** [authenticate_user].  [email] is the address after
    [lower().strip()], [password_ok] what [verify_password] answers for
    the user's hash.  The cleanup commits on its own, so its deletions
    stay even when the insertion of the new token fails afterwards: the
    function returns the database together with its result. *)
Definition authenticate_user (db : DB) (email : string) (password_ok : bool)
    (clock : LoginClock) (new_refresh new_access : string) : DB * result Tokens :=
  match List.find (fun u => bool_decide (User.email u = email)) (users db) with
  | None => (db, Raise (HTTPException HTTP_401_UNAUTHORIZED "Invalid credentials"))
  | Some user =>
      if negb (User.is_active user) then
        (db, Raise (HTTPException HTTP_403_FORBIDDEN "Account is disabled"))
      else if negb password_ok then
        (db, Raise (HTTPException HTTP_401_UNAUTHORIZED "Invalid credentials"))
      else
        let kept :=
          _cleanup_expired_tokens (refresh_tokens db) (User.id user)
            (login_utcnow_cutoff clock) (login_utcnow_cleanup clock) in
        let db1 := with_refresh_tokens db kept in
        if existsb (fun r => bool_decide (RefreshToken.token r = new_refresh)) kept then
          (db1, Raise IntegrityError)
        else
          let refresh_db :=
            RefreshToken.mk
              (next_id (RefreshToken.id <$> refresh_tokens db))
              new_refresh (User.id user)
              (login_utcnow_expiry clock + timedelta_days REFRESH_TOKEN_EXPIRE_DAYS)
              false None in
          (with_refresh_tokens db1 (kept ++ [refresh_db]),
           Ok (mkTokens new_access new_refresh "bearer"))
  end.

(** The calls of the authentication service that write the token
    table, and the database each leaves behind, whether it returns or
    raises. *)
Inductive token_call :=
| Login (email : string) (password_ok : bool) (clock : LoginClock)
    (new_refresh new_access : string)
| Renew (refresh_token : string) (clock : RenewClock) (new_refresh new_access : string)
| Logout (refresh_token : string) (now : Z)
| LogoutAll (refresh_token : string) (utcnow_check now : Z).

Definition db_after {A} (db : DB) (r : result (DB * A)) : DB :=
  match r with
  | Ok (db', _) => db'
  | Raise _ => db
  end.

Definition run_token_call (db : DB) (c : token_call) : DB :=
  match c with
  | Login e ok clock nr na => fst (authenticate_user db e ok clock nr na)
  | Renew t clock nr na => db_after db (renew_token db t clock nr na)
  | Logout t now => db_after db ((fun d => (d, tt)) <$> revoke_token db t now)
  | LogoutAll t chk now => db_after db (revoke_all_user_tokens db t chk now)
  end.

(** The refresh token a call asks the generator for, if any. *)
Definition generated_token (c : token_call) : option string :=
  match c with
  | Login _ _ _ nr _ => Some nr
  | Renew _ _ nr _ => Some nr
  | _ => None
  end.

(** ** models/jdr.py: relationships and computed properties *)

(** A relationship through a nullable foreign key: the row of the
    target table with that key, if any. *)
Definition image_by_id (db : DB) (image_id : option Z) : option ImageAsset.t :=
  i ← image_id;
  List.find (fun img => bool_decide (ImageAsset.id img = i)) (image_assets db).

Definition character_by_id (db : DB) (character_id : option Z) : option Character.t :=
  i ← character_id;
  List.find (fun c => bool_decide (Character.id c = i)) (characters db).

Definition template_by_id (db : DB) (template_id : option Z) : option ItemTemplate.t :=
  i ← template_id;
  List.find (fun t => bool_decide (ItemTemplate.id t = i)) (item_templates db).

Definition game_item_by_id (db : DB) (game_item_id : option Z) : option GameItem.t :=
  i ← game_item_id;
  List.find (fun g => bool_decide (GameItem.id g = i)) (game_items db).

(** [bool(s)] for an optional string: [None] and the empty string are
    false. *)
Definition str_truthy (s : option string) : bool :=
  match s with
  | None => false
  | Some s => negb (bool_decide (s = EmptyString))
  end.

(** [GameItem.image_url]: custom image, else image of the template,
    else [None].  A mapped object is always true, so [if self.x] tests
    that the relationship is not [None]. *)
Definition GameItem_image_url (db : DB) (self : GameItem.t) : option string :=
  match image_by_id db (GameItem.custom_image_id self) with
  | Some custom_image => Some (ImageAsset.url custom_image)
  | None =>
      match template_by_id db (GameItem.template_id self) with
      | Some template =>
          match image_by_id db (ItemTemplate.image_id template) with
          | Some image => Some (ImageAsset.url image)
          | None => None
          end
      | None => None
      end
  end.

(** [BoardElement.image_url]. *)
Definition BoardElement_image_url (db : DB) (self : BoardElement.t) : option string :=
  match image_by_id db (BoardElement.image_id self) with
  | Some image => Some (ImageAsset.url image)
  | None =>
      match character_by_id db (BoardElement.character_id self)
              ≫= (fun c => image_by_id db (Character.avatar_image_id c)) with
      | Some avatar_image => Some (ImageAsset.url avatar_image)
      | None =>
          match game_item_by_id db (BoardElement.game_item_id self) with
          | Some game_item =>
              if str_truthy (GameItem_image_url db game_item)
              then GameItem_image_url db game_item
              else None
          | None => None
          end
      end
  end.

(** ** services/jdr_service.py *)

Definition _check_org_membership (db : DB) (user_id organization_id : Z)
    : result OrganizationMembership.t :=
  match List.find
          (fun m => bool_decide (OrganizationMembership.user_id m = user_id)
                    && bool_decide (OrganizationMembership.organization_id m = organization_id)
                    && bool_decide (OrganizationMembership.status m = MembershipStatus.active))
          (organization_memberships db) with
  | None =>
      Raise (HTTPException HTTP_403_FORBIDDEN "You must be a member of this organization")
  | Some membership => Ok membership
  end.

Definition jdr_by_id (db : DB) (jdr_id : Z) : option JDR.t :=
  List.find (fun j => bool_decide (JDR.id j = jdr_id)) (jdrs db).

Definition _check_is_mj (db : DB) (user : User.t) (jdr_id : Z) : result JDR.t :=
  match jdr_by_id db jdr_id with
  | None => Raise (HTTPException 404 "JDR not found")
  | Some jdr =>
      if negb (bool_decide (JDR.mj_id jdr = Some (User.id user))) then
        Raise (HTTPException HTTP_403_FORBIDDEN "Only the MJ can perform this action")
      else Ok jdr
  end.

Definition _check_is_player (db : DB) (user_id jdr_id : Z) : result JDRMembership.t :=
  match List.find
          (fun m => bool_decide (JDRMembership.user_id m = user_id)
                    && bool_decide (JDRMembership.jdr_id m = jdr_id)
                    && bool_decide (JDRMembership.status m = MembershipJDRStatus.active))
          (jdr_memberships db) with
  | None =>
      Raise (HTTPException HTTP_403_FORBIDDEN "You must be an active player in this JDR")
  | Some membership => Ok membership
  end.

Definition _check_image_exists (db : DB) (image_id : Z) : result ImageAsset.t :=
  match image_by_id db (Some image_id) with
  | None =>
      Raise (HTTPException HTTP_404_NOT_FOUND
               ("Image with id " +:+ pretty image_id +:+ " not found"))
  | Some image => Ok image
  end.

(** The number of active memberships of a JDR. *)
Definition active_count (db : DB) (jdr_id : Z) : Z :=
  Z.of_nat (length (List.filter
    (fun m => bool_decide (JDRMembership.jdr_id m = jdr_id)
              && bool_decide (JDRMembership.status m = MembershipJDRStatus.active))
    (jdr_memberships db))).

Definition join_jdr (db : DB) (user : User.t) (jdr_id : Z)
    (join_message : option string) : result (DB * JDRMembership.t) :=
  match jdr_by_id db jdr_id with
  | None => Raise (HTTPException 404 "JDR not found")
  | Some jdr =>
      if negb (bool_decide (JDR.status jdr ∈ [JDRStatus.open; JDRStatus.in_progress])) then
        Raise (HTTPException 400 "This JDR is not accepting new players")
      else
        _ ← _check_org_membership db (User.id user) (JDR.organization_id jdr);
        match List.find
                (fun m => bool_decide (JDRMembership.user_id m = User.id user)
                          && bool_decide (JDRMembership.jdr_id m = jdr_id)
                          && bool_decide (JDRMembership.status m ∈
                               [MembershipJDRStatus.active; MembershipJDRStatus.pending]))
                (jdr_memberships db) with
        | Some _ => Raise (HTTPException 400 "Already a member or pending approval")
        | None =>
            if active_count db jdr_id >=? JDR.max_players jdr then
              Raise (HTTPException 400 "JDR is full")
            else
              let membership :=
                JDRMembership.mk (next_id (JDRMembership.id <$> jdr_memberships db))
                  jdr_id (User.id user) MembershipJDRStatus.pending join_message
                  None None in
              Ok (with_jdr_memberships db (jdr_memberships db ++ [membership]),
                  membership)
        end
  end.

Definition approve_player (db : DB) (mj : User.t) (jdr_id membership_id now : Z)
    : result (DB * JDRMembership.t) :=
  _ ← _check_is_mj db mj jdr_id;
  match list_find
          (fun m => JDRMembership.id m = membership_id
                    ∧ JDRMembership.jdr_id m = jdr_id
                    ∧ JDRMembership.status m = MembershipJDRStatus.pending)
          (jdr_memberships db) with
  | None => Raise (HTTPException 404 "Pending membership not found")
  | Some (i, m) =>
      let m' :=
        JDRMembership.mk (JDRMembership.id m) (JDRMembership.jdr_id m)
          (JDRMembership.user_id m) MembershipJDRStatus.active
          (JDRMembership.join_message m) (Some (User.id mj)) (Some now) in
      Ok (with_jdr_memberships db (<[i := m']> (jdr_memberships db)), m')
  end.

(** [GiveItemRequest]. *)
Record GiveItemRequest := mkGiveItemRequest {
  give_game_item_id : Z;
  give_character_id : Z;
  give_quantity : Z;
  give_mj_notes : option string
}.

(** The inventory row of a (character, item) pair that the stacking
    query finds, with its position in the table. *)
Definition inventory_entry (db : DB) (character_id game_item_id : Z)
    : option (nat * CharacterInventory.t) :=
  list_find
    (fun e => CharacterInventory.character_id e = character_id
              ∧ CharacterInventory.game_item_id e = game_item_id)
    (character_inventory db).

Definition give_item_to_character (db : DB) (mj : User.t) (jdr_id : Z)
    (data : GiveItemRequest) : result (DB * CharacterInventory.t) :=
  _ ← _check_is_mj db mj jdr_id;
  match List.find
          (fun c => bool_decide (Character.id c = give_character_id data)
                    && bool_decide (Character.jdr_id c = jdr_id))
          (characters db) with
  | None => Raise (HTTPException 404 "Character not found in this JDR")
  | Some character =>
      match List.find
              (fun g => bool_decide (GameItem.id g = give_game_item_id data)
                        && bool_decide (GameItem.jdr_id g = jdr_id))
              (game_items db) with
      | None => Raise (HTTPException 404 "Item not found in this JDR")
      | Some game_item =>
          (* stack when already in the inventory *)
          match inventory_entry db (give_character_id data) (give_game_item_id data) with
          | Some (i, existing) =>
              let existing' :=
                CharacterInventory.mk (CharacterInventory.id existing)
                  (CharacterInventory.character_id existing)
                  (CharacterInventory.game_item_id existing)
                  (CharacterInventory.quantity existing + give_quantity data)
                  (if str_truthy (give_mj_notes data) then give_mj_notes data
                   else CharacterInventory.mj_notes existing) in
              Ok (with_character_inventory db
                    (<[i := existing']> (character_inventory db)),
                  existing')
          | None =>
              let inventory :=
                CharacterInventory.mk
                  (next_id (CharacterInventory.id <$> character_inventory db))
                  (give_character_id data) (give_game_item_id data)
                  (give_quantity data) (give_mj_notes data) in
              Ok (with_character_inventory db (character_inventory db ++ [inventory]),
                  inventory)
          end
      end
  end.

(** Python floats are IEEE binary64. *)
Definition float_add : spec_float -> spec_float -> spec_float := SFadd 53 1024.
Definition float_zero : spec_float := S754_zero false.

(** [max(a, b)] on two floats: the second argument replaces the first
    only when it compares greater. *)
Definition py_max (a b : spec_float) : spec_float :=
  if SFltb a b then b else a.

(** The query for a character of a session by its id, with the
    position of the row in the table. *)
Definition character_entry (db : DB) (jdr_id character_id : Z)
    : option (nat * Character.t) :=
  list_find
    (fun c => Character.id c = character_id ∧ Character.jdr_id c = jdr_id)
    (characters db).

Definition update_character_gold (db : DB) (mj : User.t)
    (jdr_id character_id : Z) (amount : spec_float) : result (DB * Character.t) :=
  _ ← _check_is_mj db mj jdr_id;
  match character_entry db jdr_id character_id with
  | None => Raise (HTTPException 404 "Character not found")
  | Some (i, character) =>
      let character' :=
        Character.set_gold
          (py_max float_zero (float_add (Character.gold character) amount))
          character in
      Ok (with_characters db (<[i := character']> (characters db)), character')
  end.

(** [_is_visible_to_user].  [element.character] is the relationship
    through [character_id]. *)
Definition _is_visible_to_user (db : DB) (element : BoardElement.t) (user_id : Z)
    : result bool :=
  match BoardElement.visible_to element with
  | None => Ok true
  | Some visible_to =>
      if negb (dict_truthy visible_to) then Ok true
      (* visible by all *)
      else if from_option py_truthy false (visible_to !! "all") then Ok true
      else
        (* visible by some players *)
        match visible_to !! "player_ids" with
        | Some player_ids => int_in_json user_id player_ids
        | None =>
            (* visible by some characters *)
            match visible_to !! "character_ids" with
            | Some _ =>
                if id_truthy (BoardElement.character_id element) then
                  match character_by_id db (BoardElement.character_id element) with
                  | Some character => Ok (bool_decide (Character.owner_id character = user_id))
                  | None => Ok false
                  end
                else Ok false
            | None => Ok false
            end
        end
  end.

(** The list comprehension of [get_board]: the elements that are
    visible and visible to the user, in order; an exception in the
    condition ends the comprehension. *)
Fixpoint visible_elements (db : DB) (user_id : Z) (elements : list BoardElement.t)
    : result (list BoardElement.t) :=
  match elements with
  | [] => Ok []
  | el :: rest =>
      shown ← (if BoardElement.is_visible el
               then _is_visible_to_user db el user_id
               else Ok false);
      rest' ← visible_elements db user_id rest;
      Ok (if (shown : bool) then el :: rest' else rest')
  end.

Definition board_by_jdr (db : DB) (jdr_id : Z) : option (nat * Board.t) :=
  list_find (fun b => Board.jdr_id b = jdr_id) (boards db).

(** [board.elements]: the elements whose [board_id] is the board. *)
Definition board_elements_of (db : DB) (board : Board.t) : list BoardElement.t :=
  List.filter (fun el => bool_decide (BoardElement.board_id el = Board.id board))
    (board_elements db).

(** [get_board] returns the board object; the pair below is the board
    row and its [elements] collection as the response shows them. *)
Definition get_board (db : DB) (user : User.t) (jdr_id : Z)
    : result (Board.t * list BoardElement.t) :=
  match jdr_by_id db jdr_id with
  | None => Raise (HTTPException 404 "JDR not found")
  | Some jdr =>
      let is_mj := bool_decide (JDR.mj_id jdr = Some (User.id user)) in
      _ ← (if negb is_mj then _check_is_player db (User.id user) jdr_id ≫= (fun _ => Ok tt)
           else Ok tt);
      match board_by_jdr db jdr_id with
      | None => Raise (HTTPException 404 "Board not found")
      | Some (_, board) =>
          (* hide the invisible elements from the players *)
          if negb is_mj then
            elements ← visible_elements db (User.id user) (board_elements_of db board);
            Ok (board, elements)
          else Ok (board, board_elements_of db board)
      end
  end.

(** [data.model_dump(exclude_unset=True)] of a [BoardUpdate]: a field
    is absent ([None]), or present with a value that may be null. *)
Record BoardUpdate := mkBoardUpdate {
  bu_name : option (option string);
  bu_background_image_id : option (option Z);
  bu_dimensions : option (option dict)
}.

(** [update_board].  A null [dimensions] cannot be unpacked with [**];
    a null [name] breaks the NOT NULL constraint at the commit. *)
Definition update_board (db : DB) (mj : User.t) (jdr_id : Z) (data : BoardUpdate)
    (now : Z) : result (DB * Board.t) :=
  _ ← _check_is_mj db mj jdr_id;
  match board_by_jdr db jdr_id with
  | None => Raise (HTTPException 404 "Board not found")
  | Some (i, board) =>
      (* check the background image when it changes *)
      _ ← match bu_background_image_id data with
          | Some (Some image_id) =>
              if id_truthy (Some image_id)
              then _check_image_exists db image_id ≫= (fun _ => Ok tt)
              else Ok tt
          | _ => Ok tt
          end;
      (* merge of the dimensions (no wholesale overwrite) *)
      dimensions ← match bu_dimensions data with
                   | Some (Some patch) =>
                       Ok (dict_merge (dict_or_empty (Board.dimensions board)) patch)
                   | Some None => Raise TypeError
                   | None => Ok (Board.dimensions board)
                   end;
      name ← match bu_name data with
             | Some (Some n) => Ok n
             | Some None => Raise IntegrityError
             | None => Ok (Board.name board)
             end;
      let background_image_id :=
        match bu_background_image_id data with
        | Some v => v
        | None => Board.background_image_id board
        end in
      let board' :=
        Board.mk (Board.id board) (Board.jdr_id board) name background_image_id
          dimensions now in
      Ok (with_boards db (<[i := board']> (boards db)), board')
  end.

(** The query for an element of a board by its id, with the position
    of the row in the table. *)
Definition board_element_entry (db : DB) (board : Board.t) (element_id : Z)
    : option (nat * BoardElement.t) :=
  list_find
    (fun el => BoardElement.id el = element_id
               ∧ BoardElement.board_id el = Board.id board)
    (board_elements db).

(** [model_dump(exclude_unset=True)] of a [BoardElementUpdate]. *)
Record BoardElementUpdate := mkBoardElementUpdate {
  eu_image_id : option (option Z);
  eu_content : option (option dict);
  eu_position : option (option dict);
  eu_is_visible : option (option bool);
  eu_visible_to : option (option dict)
}.

(** [update_board_element]; [now_element] and [now_board] are the two
    readings of the clock. *)
Definition update_board_element (db : DB) (mj : User.t) (jdr_id element_id : Z)
    (data : BoardElementUpdate) (now_element now_board : Z)
    : result (DB * BoardElement.t) :=
  _ ← _check_is_mj db mj jdr_id;
  match board_by_jdr db jdr_id with
  | None => Raise (HTTPException 404 "Board not found")
  | Some (bi, board) =>
      match board_element_entry db board element_id with
      | None => Raise (HTTPException 404 "Board element not found")
      | Some (i, element) =>
          _ ← match eu_image_id data with
              | Some (Some image_id) =>
                  if id_truthy (Some image_id)
                  then _check_image_exists db image_id ≫= (fun _ => Ok tt)
                  else Ok tt
              | _ => Ok tt
              end;
          (* merge of position (no wholesale overwrite) *)
          position ← match eu_position data with
                     | Some (Some patch) =>
                         Ok (dict_merge (dict_or_empty (BoardElement.position element)) patch)
                     | Some None => Raise TypeError
                     | None => Ok (BoardElement.position element)
                     end;
          (* merge of content (no wholesale overwrite) *)
          content ← match eu_content data with
                    | Some (Some patch) =>
                        Ok (dict_merge (dict_or_empty (BoardElement.content element)) patch)
                    | Some None => Raise TypeError
                    | None => Ok (BoardElement.content element)
                    end;
          is_visible ← match eu_is_visible data with
                       | Some (Some b) => Ok b
                       | Some None => Raise IntegrityError
                       | None => Ok (BoardElement.is_visible element)
                       end;
          let image_id :=
            match eu_image_id data with
            | Some v => v
            | None => BoardElement.image_id element
            end in
          let visible_to :=
            match eu_visible_to data with
            | Some v => v
            | None => BoardElement.visible_to element
            end in
          let element' :=
            BoardElement.mk (BoardElement.id element) (BoardElement.board_id element)
              (BoardElement.element_type element) (BoardElement.character_id element)
              (BoardElement.game_item_id element) image_id content position
              is_visible visible_to now_element in
          let board' :=
            Board.mk (Board.id board) (Board.jdr_id board) (Board.name board)
              (Board.background_image_id board) (Board.dimensions board) now_board in
          Ok (with_board_elements
                (with_boards db (<[bi := board']> (boards db)))
                (<[i := element']> (board_elements db)),
              element')
      end
  end.

(** ** Further functions of the services

    The functions below complete the three services; they read and
    write the same tables. *)

Definition with_users (db : DB) (v : list User.t) : DB :=
  mkDB v (refresh_tokens db) (organizations db) (organization_memberships db)
    (organization_invitations db) (jdrs db) (jdr_memberships db) (characters db)
    (item_templates db) (game_items db) (character_inventory db) (boards db)
    (board_elements db) (image_assets db).

Definition with_jdrs (db : DB) (v : list JDR.t) : DB :=
  mkDB (users db) (refresh_tokens db) (organizations db)
    (organization_memberships db) (organization_invitations db) v
    (jdr_memberships db) (characters db) (item_templates db) (game_items db)
    (character_inventory db) (boards db) (board_elements db) (image_assets db).

Definition with_game_items (db : DB) (v : list GameItem.t) : DB :=
  mkDB (users db) (refresh_tokens db) (organizations db)
    (organization_memberships db) (organization_invitations db) (jdrs db)
    (jdr_memberships db) (characters db) (item_templates db) v
    (character_inventory db) (boards db) (board_elements db) (image_assets db).

(** *** services/auth_service.py *)

(** [register_user].  [email] is the address after [lower().strip()]
    and [password] the sequence of the characters of the password, so
    that [String.length] is [len]; [hash_password] is taken to return,
    and the hash goes to a column that no modelled function reads.  A
    new user is active by the default of the column. *)
Definition register_user (db : DB) (email password : string)
    : result (DB * User.t) :=
  match List.find (fun u => bool_decide (User.email u = email)) (users db) with
  | Some _ => Raise (HTTPException HTTP_400_BAD_REQUEST "Email already registered")
  | None =>
      if Z.of_nat (String.length password) <? 8 then
        Raise (HTTPException HTTP_400_BAD_REQUEST
                 "Password must be at least 8 characters long")
      else
        let user :=
          User.mk (next_id (User.id <$> users db)) email GlobalUserRole.user true in
        Ok (with_users db (users db ++ [user]), user)
  end.


(** *** dependencies.py *)

(** [require_global_admin], on the user that [get_current_user]
    resolved. *)
Definition require_global_admin (current_user : User.t) : result User.t :=
  if negb (bool_decide (User.global_role current_user = GlobalUserRole.admin)) then
    Raise (HTTPException HTTP_403_FORBIDDEN "Admin privileges required")
  else Ok current_user.

(** [RequireOrgRole(min_role).__call__]; the detail of the exception
    names the role. *)
Definition role_value (r : OrganizationRoleType.t) : string :=
  match r with
  | OrganizationRoleType.owner => "owner"
  | OrganizationRoleType.admin => "admin"
  | OrganizationRoleType.mj => "mj"
  | OrganizationRoleType.member => "member"
  | OrganizationRoleType.guest => "guest"
  end.

Definition RequireOrgRole (min_role : OrganizationRoleType.t) (db : DB)
    (organization_id : Z) (current_user : User.t) : result User.t :=
  if negb (User.has_permission_in_org (user_organization_memberships db current_user)
             organization_id min_role) then
    Raise (HTTPException HTTP_403_FORBIDDEN
             ("Requires at least " +:+ role_value min_role
              +:+ " role in this organization"))
  else Ok current_user.

(** [RequireOrgMember.__call__]. *)
Definition RequireOrgMember (db : DB) (organization_id : Z) (current_user : User.t)
    : result User.t :=
  if negb (User.is_member_of (user_organization_memberships db current_user)
             organization_id) then
    Raise (HTTPException HTTP_403_FORBIDDEN "You are not a member of this organization")
  else Ok current_user.

Definition require_org_owner := RequireOrgRole OrganizationRoleType.owner.
Definition require_org_admin := RequireOrgRole OrganizationRoleType.admin.
Definition require_org_mj := RequireOrgRole OrganizationRoleType.mj.
Definition require_org_member := RequireOrgMember.

(** *** services/organization_service.py *)

(** [data.model_dump(exclude_unset=True)] of an [OrganizationUpdate]. *)
Record OrganizationUpdate := mkOrganizationUpdate {
  ou_name : option (option string);
  ou_slug : option (option string);
  ou_description : option (option string);
  ou_visibility : option (option OrganizationVisibility.t);
  ou_join_mode : option (option OrganizationJoinMode.t);
  ou_is_active : option (option bool)
}.

(** The value a patch gives a column that cannot be null: the old one
    when the field is absent, an error at the commit when it is null. *)
Definition patch_required {A} (field : option (option A)) (old : A) : result A :=
  match field with
  | None => Ok old
  | Some (Some v) => Ok v
  | Some None => Raise IntegrityError
  end.

(** The value a patch gives a nullable column. *)
Definition patch_nullable {A} (field : option (option A)) (old : option A)
    : option A :=
  match field with
  | None => old
  | Some v => v
  end.

(** [update_organization].  A null slug compares unequal to the slug
    of the row and matches no row of the table, so it passes the
    uniqueness check and fails at the commit. *)
Definition update_organization (db : DB) (user : User.t) (organization_id : Z)
    (data : OrganizationUpdate) (now : Z) : result (DB * Organization.t) :=
  if negb (User.has_permission_in_org (user_organization_memberships db user)
             organization_id OrganizationRoleType.admin) then
    Raise (HTTPException HTTP_403_FORBIDDEN
             "Insufficient permissions - Admin role required")
  else
    match list_find (fun o => Organization.id o = organization_id)
            (organizations db) with
    | None => Raise (HTTPException HTTP_404_NOT_FOUND "Organization not found")
    | Some (i, org) =>
        (* is the slug changing, and already in use? *)
        _ ← match ou_slug data with
            | Some (Some slug) =>
                if negb (bool_decide (slug = Organization.slug org))
                   && bool_decide
                        (is_Some (List.find
                           (fun o => bool_decide (Organization.slug o = slug)
                                     && negb (bool_decide
                                                (Organization.id o = organization_id)))
                           (organizations db)))
                then Raise (HTTPException HTTP_400_BAD_REQUEST "Slug already in use")
                else Ok tt
            | _ => Ok tt
            end;
        name ← patch_required (ou_name data) (Organization.name org);
        slug ← patch_required (ou_slug data) (Organization.slug org);
        visibility ← patch_required (ou_visibility data) (Organization.visibility org);
        join_mode ← patch_required (ou_join_mode data) (Organization.join_mode org);
        is_active ← patch_required (ou_is_active data) (Organization.is_active org);
        let org' :=
          Organization.mk (Organization.id org) name slug
            (patch_nullable (ou_description data) (Organization.description org))
            visibility join_mode is_active now in
        Ok (with_organizations db (<[i := org']> (organizations db)), org')
    end.

(** *** services/jdr_service.py *)

(** [JDRCreate]; [description], [universe], [is_public] and [settings]
    go to columns that no modelled function reads. *)
Record JDRCreate := mkJDRCreate {
  jc_name : string;
  jc_max_players : Z
}.

Definition float_one : spec_float := S754_finite false 4503599627370496 (-52).

(** The canvas configuration [create_jdr] gives a new board. *)
Definition default_dimensions : dict :=
  {[ "width" := JInt 1920;
     "height" := JInt 1080;
     "grid_size" := JInt 50;
     "scale" := JFloat float_one;
     "show_grid" := JBool true;
     "grid_color" := JStr "#CCCCCC";
     "background_color" := JStr "#1a1a2e" ]}.

(** [create_jdr]: the creator becomes MJ and the board is created with
    the session. *)
Definition create_jdr (db : DB) (user : User.t) (organization_id : Z)
    (data : JDRCreate) (now : Z) : result (DB * JDR.t) :=
  _ ← _check_org_membership db (User.id user) organization_id;
  let jdr :=
    JDR.mk (next_id (JDR.id <$> jdrs db)) organization_id (Some (User.id user))
      (jc_name data) JDRStatus.draft (jc_max_players data) in
  let board :=
    Board.mk (next_id (Board.id <$> boards db)) (JDR.id jdr) "Board principal" None
      default_dimensions now in
  Ok (with_boards (with_jdrs db (jdrs db ++ [jdr])) (boards db ++ [board]), jdr).

(** [get_organization_jdrs]. *)
Definition get_organization_jdrs (db : DB) (user : User.t) (organization_id : Z)
    : result (list JDR.t) :=
  _ ← _check_org_membership db (User.id user) organization_id;
  Ok (List.filter (fun j => bool_decide (JDR.organization_id j = organization_id))
        (jdrs db)).

(** [model_dump(exclude_unset=True)] of a [JDRUpdate].  [description]
    and [universe] are nullable columns outside the model.
    [is_public] is outside the model too, but the column cannot be
    null.  [settings] is a JSON column: a null is stored as the JSON
    null, which the NOT NULL constraint accepts, so the field has no
    effect on the modelled columns. *)
Record JDRUpdate := mkJDRUpdate {
  ju_name : option (option string);
  ju_status : option (option JDRStatus.t);
  ju_max_players : option (option Z);
  ju_is_public : option (option bool);
  ju_settings : option (option dict)
}.

(** [update_jdr] (MJ only). *)
Definition update_jdr (db : DB) (user : User.t) (jdr_id : Z) (data : JDRUpdate)
    : result (DB * JDR.t) :=
  jdr ← _check_is_mj db user jdr_id;
  name ← patch_required (ju_name data) (JDR.name jdr);
  status ← patch_required (ju_status data) (JDR.status jdr);
  max_players ← patch_required (ju_max_players data) (JDR.max_players jdr);
  _ ← patch_required (ju_is_public data) true;
  match list_find (fun j => JDR.id j = jdr_id) (jdrs db) with
  | None => Raise (HTTPException 404 "JDR not found")
  | Some (i, _) =>
      let jdr' :=
        JDR.mk (JDR.id jdr) (JDR.organization_id jdr) (JDR.mj_id jdr)
          name status max_players in
      Ok (with_jdrs db (<[i := jdr']> (jdrs db)), jdr')
  end.

(** [get_jdr_characters]: the MJ and the active players see every
    character of the session. *)
Definition get_jdr_characters (db : DB) (user : User.t) (jdr_id : Z)
    : result (list Character.t) :=
  match jdr_by_id db jdr_id with
  | None => Raise (HTTPException 404 "JDR not found")
  | Some jdr =>
      _ ← (if negb (bool_decide (JDR.mj_id jdr = Some (User.id user)))
           then _check_is_player db (User.id user) jdr_id ≫= (fun _ => Ok tt)
           else Ok tt);
      Ok (List.filter (fun c => bool_decide (Character.jdr_id c = jdr_id))
            (characters db))
  end.

(** [CharacterCreate], on the modelled columns. *)
Record CharacterCreate := mkCharacterCreate {
  cc_name : string;
  cc_avatar_image_id : option Z;
  cc_gold : spec_float
}.

(** [create_character]. *)
Definition create_character (db : DB) (user : User.t) (jdr_id : Z)
    (data : CharacterCreate) : result (DB * Character.t) :=
  _ ← _check_is_player db (User.id user) jdr_id;
  _ ← (if id_truthy (cc_avatar_image_id data)
       then _check_image_exists db (default 0 (cc_avatar_image_id data))
              ≫= (fun _ => Ok tt)
       else Ok tt);
  let character :=
    Character.mk (next_id (Character.id <$> characters db)) jdr_id (User.id user)
      (cc_name data) (cc_avatar_image_id data) (cc_gold data) in
  Ok (with_characters db (characters db ++ [character]), character).

(** [model_dump(exclude_unset=True)] of a [CharacterUpdate] or of an
    [MJCharacterUpdate]: the modelled columns, and for the other
    columns that reject a null ([level], [is_active], [is_alive],
    [experience]) whether the patch sets one of them to null.
    [stats] and [map_position] are JSON columns: a null is stored as
    the JSON null, which the NOT NULL constraint accepts, so these two
    fields have no effect on the modelled columns. *)
Record CharacterUpdate := mkCharacterUpdate {
  cu_name : option (option string);
  cu_avatar_image_id : option (option Z);
  cu_gold : option (option spec_float);
  cu_other_required_null : bool
}.

(** [gold: Optional[float] = Field(None, ge=0)] of [CharacterUpdate]:
    the floats the schema lets through ([g >= 0]; NaN is refused). *)
Definition CharacterUpdate_gold_ok (g : spec_float) : bool := SFleb float_zero g.

Definition character_by_pk (db : DB) (character_id : Z)
    : option (nat * Character.t) :=
  list_find (fun c => Character.id c = character_id) (characters db).

(** [update_character]. *)
Definition update_character (db : DB) (user : User.t) (character_id : Z)
    (data : CharacterUpdate) (is_mj : bool) : result (DB * Character.t) :=
  match character_by_pk db character_id with
  | None => Raise (HTTPException 404 "Character not found")
  | Some (i, character) =>
      if negb is_mj && negb (bool_decide (Character.owner_id character = User.id user))
      then Raise (HTTPException 403 "Not your character")
      else
        _ ← (if is_mj
             then _check_is_mj db user (Character.jdr_id character) ≫= (fun _ => Ok tt)
             else Ok tt);
        (* check the image when it changes *)
        _ ← match cu_avatar_image_id data with
            | Some (Some image_id) =>
                if id_truthy (Some image_id)
                then _check_image_exists db image_id ≫= (fun _ => Ok tt)
                else Ok tt
            | _ => Ok tt
            end;
        name ← patch_required (cu_name data) (Character.name character);
        gold ← patch_required (cu_gold data) (Character.gold character);
        _ ← (if cu_other_required_null data then Raise IntegrityError else Ok tt);
        let character' :=
          Character.mk (Character.id character) (Character.jdr_id character)
            (Character.owner_id character) name
            (patch_nullable (cu_avatar_image_id data)
               (Character.avatar_image_id character))
            gold in
        Ok (with_characters db (<[i := character']> (characters db)), character')
  end.

(** [GameItemCreate]. *)
Record GameItemCreate := mkGameItemCreate {
  gc_template_id : option Z;
  gc_custom_name : option string;
  gc_custom_image_id : option Z;
  gc_quantity : Z
}.

(** [create_game_item]. *)
Definition create_game_item (db : DB) (mj : User.t) (jdr_id : Z)
    (data : GameItemCreate) : result (DB * GameItem.t) :=
  _ ← _check_is_mj db mj jdr_id;
  (* check the custom image when given *)
  _ ← (if id_truthy (gc_custom_image_id data)
       then _check_image_exists db (default 0 (gc_custom_image_id data))
              ≫= (fun _ => Ok tt)
       else Ok tt);
  (* check the template when given *)
  _ ← (if id_truthy (gc_template_id data)
       then match template_by_id db (gc_template_id data) with
            | None => Raise (HTTPException 404 "Item template not found")
            | Some _ => Ok tt
            end
       else Ok tt);
  let game_item :=
    GameItem.mk (next_id (GameItem.id <$> game_items db)) jdr_id
      (gc_template_id data) (gc_custom_name data) (gc_custom_image_id data)
      (gc_quantity data) in
  Ok (with_game_items db (game_items db ++ [game_item]), game_item).

(** [GameItem.display_name]: the custom name when it is a non-empty
    string, else the name of the template, else "Unknown". *)
Definition GameItem_display_name (db : DB) (self : GameItem.t) : string :=
  if str_truthy (GameItem.custom_name self)
  then default EmptyString (GameItem.custom_name self)
  else match template_by_id db (GameItem.template_id self) with
       | Some template => ItemTemplate.name template
       | None => "Unknown"
       end.

(** *** schemas/jdr.py *)

(** [BoardElementCreate.validate_position]: the defaults, overwritten
    by the keys the caller gives. *)
Definition position_defaults : dict :=
  {[ "x" := JFloat (S754_zero false);
     "y" := JFloat (S754_zero false);
     "z" := JFloat (S754_zero false);
     "width" := JInt 100;
     "height" := JInt 100;
     "rotation" := JFloat (S754_zero false);
     "scale" := JFloat float_one;
     "opacity" := JFloat float_one;
     "locked" := JBool false ]}.

Definition validate_position (v : dict) : dict := dict_merge position_defaults v.

(** [BoardElementCreate] after validation. *)
Record BoardElementCreate := mkBoardElementCreate {
  ec_element_type : BoardElementType.t;
  ec_character_id : option Z;
  ec_game_item_id : option Z;
  ec_image_id : option Z;
  ec_content : dict;
  ec_position : dict;
  ec_is_visible : bool;
  ec_visible_to : dict
}.

(** *** services/jdr_service.py: elements of the board *)

(** [add_board_element]; [now_board] is the reading of the clock for
    the board, [now_element] the one of the column default of the new
    row. *)
Definition add_board_element (db : DB) (mj : User.t) (jdr_id : Z)
    (data : BoardElementCreate) (now_board now_element : Z)
    : result (DB * BoardElement.t) :=
  _ ← _check_is_mj db mj jdr_id;
  match board_by_jdr db jdr_id with
  | None => Raise (HTTPException 404 "Board not found")
  | Some (bi, board) =>
      (* check the image when given *)
      _ ← (if id_truthy (ec_image_id data)
           then _check_image_exists db (default 0 (ec_image_id data))
                  ≫= (fun _ => Ok tt)
           else Ok tt);
      (* check the character when given *)
      _ ← (if id_truthy (ec_character_id data)
           then match character_entry db jdr_id (default 0 (ec_character_id data)) with
                | None => Raise (HTTPException 404 "Character not found in this JDR")
                | Some _ => Ok tt
                end
           else Ok tt);
      (* check the game item when given *)
      _ ← (if id_truthy (ec_game_item_id data)
           then match List.find
                        (fun g => bool_decide
                                    (GameItem.id g = default 0 (ec_game_item_id data))
                                  && bool_decide (GameItem.jdr_id g = jdr_id))
                        (game_items db) with
                | None => Raise (HTTPException 404 "Game item not found in this JDR")
                | Some _ => Ok tt
                end
           else Ok tt);
      let element :=
        BoardElement.mk (next_id (BoardElement.id <$> board_elements db))
          (Board.id board) (ec_element_type data) (ec_character_id data)
          (ec_game_item_id data) (ec_image_id data) (ec_content data)
          (ec_position data) (ec_is_visible data) (Some (ec_visible_to data))
          now_element in
      let board' :=
        Board.mk (Board.id board) (Board.jdr_id board) (Board.name board)
          (Board.background_image_id board) (Board.dimensions board) now_board in
      Ok (with_board_elements
            (with_boards db (<[bi := board']> (boards db)))
            (board_elements db ++ [element]),
          element)
  end.

(** [delete_board_element]: the row of the element goes. *)
Definition delete_board_element (db : DB) (mj : User.t) (jdr_id element_id : Z)
    (now : Z) : result DB :=
  _ ← _check_is_mj db mj jdr_id;
  match board_by_jdr db jdr_id with
  | None => Raise (HTTPException 404 "Board not found")
  | Some (bi, board) =>
      match board_element_entry db board element_id with
      | None => Raise (HTTPException 404 "Board element not found")
      | Some (i, element) =>
          let board' :=
            Board.mk (Board.id board) (Board.jdr_id board) (Board.name board)
              (Board.background_image_id board) (Board.dimensions board) now in
          Ok (with_board_elements
                (with_boards db (<[bi := board']> (boards db)))
                (delete i (board_elements db)))
      end
  end.

(** *** schemas/jdr.py: validation of the board dimensions *)

(** A Python number: [int] (and [bool], its subclass) or [float]. *)
Inductive py_num :=
| PInt (n : Z)
| PFloat (f : spec_float).

Definition json_num (v : json) : option py_num :=
  match v with
  | JInt n => Some (PInt n)
  | JBool b => Some (PInt (if b then 1 else 0))
  | JFloat f => Some (PFloat f)
  | _ => None
  end.

(** The exact comparison of a float with an int; [None] for NaN. *)
Definition float_compare_Z (f : spec_float) (n : Z) : option comparison :=
  match f with
  | S754_nan => None
  | S754_zero _ => Some (0 ?= n)
  | S754_infinity s => Some (if s then Lt else Gt)
  | S754_finite s m e =>
      let sm := cond_Zopp s (Zpos m) in
      Some (if 0 <=? e then sm * 2 ^ e ?= n else sm ?= n * 2 ^ (- e))
  end.

(** [a <= b] on Python numbers. *)
Definition py_le (a b : py_num) : bool :=
  match a, b with
  | PInt x, PInt y => x <=? y
  | PFloat f, PFloat g => SFleb f g
  | PFloat f, PInt y =>
      match float_compare_Z f y with
      | Some Lt | Some Eq => true
      | _ => false
      end
  | PInt x, PFloat g =>
      match float_compare_Z g x with
      | Some Gt | Some Eq => true
      | _ => false
      end
  end.

(** What a validator returns: the value, a [ValueError] (which the
    framework reports as a validation error), or the [TypeError] of a
    comparison between a number and a value that is none. *)
Inductive dimension_error :=
| InvalidKeys (invalid : gset string)
| WidthRange
| HeightRange
| GridSizeRange
| ScaleRange.

Inductive validation (A : Type) :=
| Valid (a : A)
| ValueError (e : dimension_error)
| ComparisonTypeError.
Arguments Valid {A} a.
Arguments ValueError {A} e.
Arguments ComparisonTypeError {A}.

Definition allowed_keys : gset string :=
  {[ "width"; "height"; "grid_size"; "scale"; "show_grid"; "grid_color";
     "background_color" ]}.

(** [if key in v and not (lo <= v[key] <= hi): raise ValueError], then
    the rest of the validator. *)
Definition check_range (v : dict) (key : string) (lo hi : py_num)
    (e : dimension_error) (rest : validation dict) : validation dict :=
  match v !! key with
  | None => rest
  | Some x =>
      match json_num x with
      | None => ComparisonTypeError
      | Some n => if py_le lo n && py_le n hi then rest else ValueError e
      end
  end.

Definition float_tenth : spec_float := S754_finite false 7205759403792794 (-56).
Definition float_ten : spec_float := S754_finite false 5629499534213120 (-49).

(** [BoardUpdate.validate_dimensions]. *)
Definition validate_dimensions (v : option dict) : validation (option dict) :=
  match v with
  | None => Valid None
  | Some d =>
      let invalid := dom d ∖ allowed_keys in
      if negb (bool_decide (invalid = ∅)) then ValueError (InvalidKeys invalid)
      else
        match
          check_range d "width" (PInt 100) (PInt 8192) WidthRange
            (check_range d "height" (PInt 100) (PInt 8192) HeightRange
               (check_range d "grid_size" (PInt 10) (PInt 500) GridSizeRange
                  (check_range d "scale" (PFloat float_tenth) (PFloat float_ten)
                     ScaleRange (Valid d))))
        with
        | Valid d => Valid (Some d)
        | ValueError e => ValueError e
        | ComparisonTypeError => ComparisonTypeError
        end
  end.

(** * Reference definitions

    What the specification says in its own words, to be compared with
    the functions above. *)

(** The ranking of the roles: guest=0 < member=1 < mj=2 < admin=3 <
    owner=4. *)
Definition spec_rank (r : OrganizationRoleType.t) : Z :=
  match r with
  | OrganizationRoleType.guest => 0
  | OrganizationRoleType.member => 1
  | OrganizationRoleType.mj => 2
  | OrganizationRoleType.admin => 3
  | OrganizationRoleType.owner => 4
  end.

(** A row kept at its position with its key, user, organization and
    role. *)
Definition same_member_role (m m' : OrganizationMembership.t) : Prop :=
  OrganizationMembership.id m' = OrganizationMembership.id m
  ∧ OrganizationMembership.user_id m' = OrganizationMembership.user_id m
  ∧ OrganizationMembership.organization_id m' = OrganizationMembership.organization_id m
  ∧ OrganizationMembership.role m' = OrganizationMembership.role m.

(** No row of the token table carries [tok] unrevoked. *)
Definition no_live_token (tok : string) (db : DB) : Prop :=
  ∀ r, r ∈ refresh_tokens db → RefreshToken.token r = tok →
       RefreshToken.revoked r = true.

(** The constraints of the token table: [id] is the primary key and
    [token] is unique. *)
Definition token_table_ok (db : DB) : Prop :=
  NoDup (RefreshToken.id <$> refresh_tokens db)
  ∧ NoDup (RefreshToken.token <$> refresh_tokens db).

(** The requester holds an active membership in the organization. *)
Definition active_org_member (db : DB) (user_id organization_id : Z) : Prop :=
  ∃ m, m ∈ organization_memberships db
       ∧ OrganizationMembership.user_id m = user_id
       ∧ OrganizationMembership.organization_id m = organization_id
       ∧ OrganizationMembership.status m = MembershipStatus.active.

(** The requester already has an active or pending membership of the
    session. *)
Definition live_session_member (db : DB) (user_id jdr_id : Z) : Prop :=
  ∃ m, m ∈ jdr_memberships db
       ∧ JDRMembership.user_id m = user_id
       ∧ JDRMembership.jdr_id m = jdr_id
       ∧ (JDRMembership.status m = MembershipJDRStatus.active
          ∨ JDRMembership.status m = MembershipJDRStatus.pending).

(** The session accepts new players. *)
Definition accepting (jdr : JDR.t) : Prop :=
  JDR.status jdr = JDRStatus.open ∨ JDR.status jdr = JDRStatus.in_progress.

(** The first candidate that is present. *)
Fixpoint first_present {A} (candidates : list (option A)) : option A :=
  match candidates with
  | [] => None
  | Some a :: _ => Some a
  | None :: rest => first_present rest
  end.

(** The image a game item resolves to: its custom image, else the
    image of its template. *)
Definition spec_item_image (db : DB) (g : GameItem.t) : option ImageAsset.t :=
  first_present
    [ image_by_id db (GameItem.custom_image_id g);
      template_by_id db (GameItem.template_id g)
        ≫= (fun t => image_by_id db (ItemTemplate.image_id t)) ].

(** The image a board element resolves to: its own image, else the
    avatar of its character, else the image of its game item. *)
Definition spec_element_image (db : DB) (el : BoardElement.t) : option ImageAsset.t :=
  first_present
    [ image_by_id db (BoardElement.image_id el);
      character_by_id db (BoardElement.character_id el)
        ≫= (fun c => image_by_id db (Character.avatar_image_id c));
      game_item_by_id db (BoardElement.game_item_id el) ≫= spec_item_image db ].

(** The visibility descriptors the specification names, and the value
    of the [visible_to] column for each. *)
Inductive descriptor :=
| Absent
| Empty
| All
| PlayerIds (player_ids : list Z)
| CharacterIds (character_ids : list Z).

Definition descriptor_json (d : descriptor) : option dict :=
  match d with
  | Absent => None
  | Empty => Some ∅
  | All => Some {[ "all" := JBool true ]}
  | PlayerIds ids => Some {[ "player_ids" := JList (JInt <$> ids) ]}
  | CharacterIds ids => Some {[ "character_ids" := JList (JInt <$> ids) ]}
  end.

(** Whether a descriptor admits a user: an absent or empty descriptor
    and [{all: true}] admit everyone; [{player_ids: ...}] admits the
    listed users; [{character_ids: ...}] admits the user who owns the
    character the element is linked to, and nobody when the link is
    missing. *)
Definition spec_admits (db : DB) (d : descriptor) (el : BoardElement.t)
    (user_id : Z) : bool :=
  match d with
  | Absent | Empty | All => true
  | PlayerIds ids => bool_decide (user_id ∈ ids)
  | CharacterIds _ =>
      match character_by_id db (BoardElement.character_id el) with
      | Some c => bool_decide (Character.owner_id c = user_id)
      | None => false
      end
  end.

(** The user is an active player of the session. *)
Definition active_player (db : DB) (user_id jdr_id : Z) : Prop :=
  ∃ m, m ∈ jdr_memberships db
       ∧ JDRMembership.user_id m = user_id
       ∧ JDRMembership.jdr_id m = jdr_id
       ∧ JDRMembership.status m = MembershipJDRStatus.active.

(** [or_else x y]: [x] when it is present, else [y]. *)
Definition or_else {A} (x y : option A) : option A :=
  match x with
  | Some a => Some a
  | None => y
  end.

(** Partial patches that set one map only. *)
Definition dimensions_patch (p : dict) : BoardUpdate :=
  mkBoardUpdate None None (Some (Some p)).
Definition position_patch (p : dict) : BoardElementUpdate :=
  mkBoardElementUpdate None None (Some (Some p)) None None.
Definition content_patch (p : dict) : BoardElementUpdate :=
  mkBoardElementUpdate None (Some (Some p)) None None None.

(** A float is a binary64 value: finite mantissas are canonical and in
    range. *)
Definition float_valid (f : spec_float) : Prop := valid_binary 53 1024 f = true.

(** The float of a (small) integer. *)
Definition float_of_Z (z : Z) : spec_float := binary_normalize 53 1024 z 0 false.

(** The tokens a renewal would accept at the two readings of the clock
    used by the cleanup: not revoked, not expired, and not marked with
    an old revocation time. *)
Definition live_token (utcnow_cutoff utcnow_filter : Z) (r : RefreshToken.t) : Prop :=
  RefreshToken.revoked r = false
  ∧ utcnow_filter <= RefreshToken.expires_at r
  ∧ match RefreshToken.revoked_at r with
    | Some t => utcnow_cutoff - timedelta_days 7 <= t
    | None => True
    end.

(** The constraints of the user table: [id] is the primary key and
    [email] is unique. *)
Definition user_table_ok (db : DB) : Prop :=
  NoDup (User.id <$> users db) ∧ NoDup (User.email <$> users db).


(** The constraints of the organization table: [id] is the primary
    key and [slug] is unique. *)
Definition organization_table_ok (db : DB) : Prop :=
  NoDup (Organization.id <$> organizations db)
  ∧ NoDup (Organization.slug <$> organizations db).

(** The foreign key of the membership table: every row names an
    organization of the organization table. *)
Definition memberships_reference_organizations (db : DB) : Prop :=
  ∀ m, m ∈ organization_memberships db →
       OrganizationMembership.organization_id m ∈ (Organization.id <$> organizations db).

(** The foreign keys of the session tables: a board names a session, a
    board element a board, a session membership a session. *)
Definition session_foreign_keys (db : DB) : Prop :=
  (∀ b, b ∈ boards db → Board.jdr_id b ∈ (JDR.id <$> jdrs db))
  ∧ (∀ el, el ∈ board_elements db → BoardElement.board_id el ∈ (Board.id <$> boards db))
  ∧ (∀ m, m ∈ jdr_memberships db → JDRMembership.jdr_id m ∈ (JDR.id <$> jdrs db)).

(** The patch of a session that sets its status only. *)
Definition status_patch (s : JDRStatus.t) : JDRUpdate :=
  mkJDRUpdate None (Some (Some s)) None None None.

(** What a player is shown of an element, when the check of its
    descriptor returns. *)
Definition shown_to (db : DB) (user_id : Z) (el : BoardElement.t) : bool :=
  BoardElement.is_visible el
  && match _is_visible_to_user db el user_id with
     | Ok b => b
     | Raise _ => false
     end.

(** A decoded JSON value that is neither an array nor an object. *)
Definition json_scalar (v : json) : Prop :=
  match v with
  | JList _ | JDict _ => False
  | _ => True
  end.

(** The patch of a character that sets its gold only. *)
Definition gold_patch (g : spec_float) : CharacterUpdate :=
  mkCharacterUpdate None None (Some (Some g)) false.

(** The quantity of an item a character holds: the quantity of the
    inventory row the stacking query finds, 0 without a row. *)
Definition held (db : DB) (character_id game_item_id : Z) : Z :=
  from_option (fun e => CharacterInventory.quantity (snd e)) 0
    (inventory_entry db character_id game_item_id).

(** The inventory holds one row at most for a character and an item,
    and [id] is its primary key. *)
Definition inventory_ok (db : DB) : Prop :=
  NoDup (CharacterInventory.id <$> character_inventory db)
  ∧ NoDup ((fun e => (CharacterInventory.character_id e,
                      CharacterInventory.game_item_id e))
             <$> character_inventory db).

(** What a patch asks of a column that rejects a null: the old value
    when the field is absent, the given value when it is present. *)
Definition patched {A} (field : option (option A)) (old new : A) : Prop :=
  match field with
  | None => new = old
  | Some (Some v) => new = v
  | Some None => False
  end.

(** * Example data *)

(** A membership row of organization 1. *)
Definition member_row (id user_id : Z) (role : OrganizationRoleType.t)
    (status : MembershipStatus.t) : OrganizationMembership.t :=
  OrganizationMembership.mk id user_id 1 role status None None.

(** Organization 1 with its owner (user 1), an admin (user 2) and a
    member (user 3). *)
Definition guild_db : DB :=
  with_organization_memberships
    (with_organizations empty_db
       [Organization.mk 1 "Guild" "guild" None OrganizationVisibility.public
          OrganizationJoinMode.approval true 0])
    [ member_row 1 1 OrganizationRoleType.owner MembershipStatus.active;
      member_row 2 2 OrganizationRoleType.admin MembershipStatus.active;
      member_row 3 3 OrganizationRoleType.member MembershipStatus.active ].

Definition user1 : User.t := User.mk 1 "owner@x.com" GlobalUserRole.user true.
Definition user2 : User.t := User.mk 2 "admin@x.com" GlobalUserRole.user true.
Definition user3 : User.t := User.mk 3 "member@x.com" GlobalUserRole.user true.

(** User 1 holds one live refresh token that expires at time 1000. *)
Definition session_db : DB :=
  mkDB [user1] [RefreshToken.mk 1 "tok-a" 1 1000 false None]
    [] [] [] [] [] [] [] [] [] [] [] [].

Definition clock_at (t : Z) : RenewClock := mkRenewClock t t t t t.

(** [session_db] after the renewal of "tok-a" into "tok-b" at time 500. *)
Definition session_db_renewed : DB :=
  mkDB [user1]
    [ RefreshToken.mk 1 "tok-a" 1 1000 true (Some 500);
      RefreshToken.mk 2 "tok-b" 1 (500 + timedelta_days 7) false None ]
    [] [] [] [] [] [] [] [] [] [] [] [].

(** A session of the guild with room for one player; user 1 is the MJ
    and nobody has joined yet. *)
Definition table_db : DB :=
  mkDB [user1; user2; user3] [] (organizations guild_db)
    (organization_memberships guild_db) []
    [JDR.mk 1 1 (Some 1) "Dungeon" JDRStatus.open 1]
    [] [] [] [] [] [] [] [].

(** The membership user 2 gets by joining, and the table after the MJ
    has approved it at time 10. *)
Definition seat_pending : JDRMembership.t :=
  JDRMembership.mk 1 1 2 MembershipJDRStatus.pending (Some "hello") None None.
Definition seat_active : JDRMembership.t :=
  JDRMembership.mk 1 1 2 MembershipJDRStatus.active (Some "hello") (Some 1) (Some 10).
Definition full_table_db : DB := with_jdr_memberships table_db [seat_active].

(** Four board elements: a sword shown to user 2, the token of
    character 1 shown to its owner, a hidden monster, a note for
    user 3. *)
Definition play_sword : BoardElement.t :=
  BoardElement.mk 1 1 BoardElementType.item None (Some 1) None ∅ ∅ true
    (Some {[ "player_ids" := JList [JInt 2] ]}) 0.
Definition play_token : BoardElement.t :=
  BoardElement.mk 2 1 BoardElementType.character (Some 1) (Some 2) None ∅ ∅ true
    (Some {[ "character_ids" := JList [JInt 1] ]}) 0.
Definition play_monster : BoardElement.t :=
  BoardElement.mk 3 1 BoardElementType.monster None None (Some 5) ∅ ∅ false
    (Some {[ "all" := JBool true ]}) 0.
Definition play_note : BoardElement.t :=
  BoardElement.mk 4 1 BoardElementType.note None None None ∅ ∅ true
    (Some {[ "player_ids" := JList [JInt 3] ]}) 0.
Definition play_character : Character.t :=
  Character.mk 1 1 2 "Thorin" (Some 5) (float_of_Z 20).
Definition play_board : Board.t :=
  Board.mk 1 1 "Board principal" None {[ "width" := JInt 1920 ]} 0.

(** The session with user 2 as active player and their character (avatar:
    image 5, 20 gold pieces), a sword made from a template (image 7), a potion with a
    custom image (image 9) over the same template, and three potions
    in the character's inventory. *)
Definition play_db : DB :=
  mkDB [user1; user2; user3] [] (organizations guild_db)
    (organization_memberships guild_db) []
    [JDR.mk 1 1 (Some 1) "Dungeon" JDRStatus.open 1]
    [seat_active]
    [play_character]
    [ItemTemplate.mk 1 "Blade" (Some 7)]
    [ GameItem.mk 1 1 (Some 1) None None 1;
      GameItem.mk 2 1 (Some 1) (Some "Potion") (Some 9) 5 ]
    [CharacterInventory.mk 1 1 2 3 None]
    [play_board]
    [play_sword; play_token; play_monster; play_note]
    [ ImageAsset.mk 5 "/uploads/avatars/thorin.png" "thorin.png";
      ImageAsset.mk 7 "/uploads/items/blade.png" "blade.png";
      ImageAsset.mk 9 "/uploads/items/potion.png" "potion.png" ].

(** The descriptors of the four board elements of [play_db]. *)
Definition play_descriptor (el : BoardElement.t) : descriptor :=
  if BoardElement.id el =? 1 then PlayerIds [2]
  else if BoardElement.id el =? 2 then CharacterIds [1]
  else if BoardElement.id el =? 3 then All
  else PlayerIds [3].

(** Users 1 and 2 with several devices: user 1 holds two live tokens
    and a revoked one, user 2 one live token. *)
Definition devices_db : DB :=
  mkDB [user1; user2]
    [ RefreshToken.mk 1 "tok-a" 1 1000 false None;
      RefreshToken.mk 2 "tok-b" 1 1000 false None;
      RefreshToken.mk 3 "tok-old" 1 1000 true (Some 50);
      RefreshToken.mk 4 "tok-z" 2 1000 false None ]
    [] [] [] [] [] [] [] [] [] [] [] [].



(** A user outside the guild. *)
Definition user4 : User.t := User.mk 4 "guest@x.com" GlobalUserRole.user true.

Definition new_campaign : JDRCreate := mkJDRCreate "Campaign" 4.

(** The full table with a second request, of user 3, still pending. *)
Definition crowded_table_db : DB :=
  with_jdr_memberships table_db
    [ seat_active;
      JDRMembership.mk 2 1 3 MembershipJDRStatus.pending None None None ].

(** [play_db] with one more element, whose descriptor gives
    [player_ids] as a string. *)
Definition play_scroll : BoardElement.t :=
  BoardElement.mk 5 1 BoardElementType.note None None None ∅ ∅ true
    (Some {[ "player_ids" := JStr "2" ]}) 0.
Definition play_db_scroll : DB :=
  with_board_elements play_db (board_elements play_db ++ [play_scroll]).

(** A request of the MJ of [play_db] to put the token of character 1
    on the board. *)
Definition play_new_token : BoardElementCreate :=
  mkBoardElementCreate BoardElementType.character (Some 1) None (Some 5) ∅
    (validate_position ∅) true {[ "all" := JBool true ]}.

(** * Theorems *)

(** ** Role hierarchy *)

Lemma role_hierarchy_rank r : dict_get role_hierarchy r 0 = spec_rank r.
Proof. by destruct r. Qed.

Lemma get_organization_role_None ms org :
  User.get_organization_role ms org = None ↔
  ∀ m, m ∈ ms → OrganizationMembership.organization_id m = org →
       OrganizationMembership.status m ≠ MembershipStatus.active.
Proof.
  unfold User.get_organization_role. rewrite fmap_None. split.
  - intros Hnone m Hin Horg Hst.
    apply list_elem_of_In in Hin.
    pose proof (find_none _ _ Hnone m Hin) as Hf. simpl in Hf.
    rewrite !bool_decide_eq_true_2 in Hf by done. done.
  - intros Hall. destruct (List.find _ ms) as [m|] eqn:Hf; [|done].
    apply find_some in Hf as [Hin Hm].
    apply andb_prop in Hm as [Ho Hs].
    apply bool_decide_eq_true_1 in Ho, Hs.
    exfalso. eapply Hall; [by apply list_elem_of_In | done | done].
Qed.

Lemma has_permission_in_org_rank ms org a b :
  User.get_organization_role ms org = Some a →
  User.has_permission_in_org ms org b = bool_decide (spec_rank a >= spec_rank b).
Proof.
  intros Ha. unfold User.has_permission_in_org. rewrite Ha.
  by rewrite !role_hierarchy_rank.
Qed.

(** C6: the ranks of the [role_hierarchy] dict are guest=0 < member=1 <
    mj=2 < admin=3 < owner=4; for a user whose active role in the
    organization is [a], [has_permission_in_org] with minimum role [b]
    answers true exactly when rank(a) >= rank(b); the order this
    induces on roles is total and transitive; and a user with no active
    membership in the organization passes no minimum-role check. *)
Theorem C6_role_hierarchy :
  (∀ r, dict_get role_hierarchy r 0 = spec_rank r)
  ∧ (spec_rank OrganizationRoleType.guest = 0
     ∧ spec_rank OrganizationRoleType.member = 1
     ∧ spec_rank OrganizationRoleType.mj = 2
     ∧ spec_rank OrganizationRoleType.admin = 3
     ∧ spec_rank OrganizationRoleType.owner = 4)
  ∧ (∀ ms org a b,
       User.get_organization_role ms org = Some a →
       (User.has_permission_in_org ms org b = true ↔ spec_rank a >= spec_rank b))
  ∧ (∀ ms1 ms2 org a b,
       User.get_organization_role ms1 org = Some a →
       User.get_organization_role ms2 org = Some b →
       User.has_permission_in_org ms1 org b = true
       ∨ User.has_permission_in_org ms2 org a = true)
  ∧ (∀ ms1 ms2 org a b c,
       User.get_organization_role ms1 org = Some a →
       User.get_organization_role ms2 org = Some b →
       User.has_permission_in_org ms1 org b = true →
       User.has_permission_in_org ms2 org c = true →
       User.has_permission_in_org ms1 org c = true)
  ∧ (∀ ms org b,
       (∀ m, m ∈ ms → OrganizationMembership.organization_id m = org →
             OrganizationMembership.status m ≠ MembershipStatus.active) →
       User.has_permission_in_org ms org b = false).
Proof.
  split; [exact role_hierarchy_rank|].
  split; [done|].
  split; [|split; [|split]].
  - intros ms org a b Ha.
    rewrite (has_permission_in_org_rank _ _ _ _ Ha), bool_decide_eq_true. done.
  - intros ms1 ms2 org a b Ha Hb.
    rewrite (has_permission_in_org_rank _ _ _ _ Ha),
            (has_permission_in_org_rank _ _ _ _ Hb), !bool_decide_eq_true. lia.
  - intros ms1 ms2 org a b c Ha Hb.
    rewrite !(has_permission_in_org_rank _ _ _ _ Ha),
            (has_permission_in_org_rank _ _ _ _ Hb), !bool_decide_eq_true. lia.
  - intros ms org b Hnone.
    apply get_organization_role_None in Hnone.
    unfold User.has_permission_in_org. by rewrite Hnone.
Qed.

(** An admin of organization 1 passes the [mj] check and fails the
    [owner] check; a pending member passes none. *)
Lemma C6_role_hierarchy_witness :
  User.has_permission_in_org
    [member_row 1 7 OrganizationRoleType.admin MembershipStatus.active] 1
    OrganizationRoleType.mj = true
  ∧ User.has_permission_in_org
      [member_row 1 7 OrganizationRoleType.admin MembershipStatus.active] 1
      OrganizationRoleType.owner = false
  ∧ User.has_permission_in_org
      [member_row 2 8 OrganizationRoleType.owner MembershipStatus.pending] 1
      OrganizationRoleType.guest = false.
Proof.
  destruct C6_role_hierarchy as (_ & _ & Hiff & _ & _ & Habsent).
  split; [|split].
  - apply (Hiff _ 1 OrganizationRoleType.admin); [reflexivity | simpl; lia].
  - apply not_true_is_false. intros H.
    apply (Hiff _ 1 OrganizationRoleType.admin) in H; [simpl in H; lia | reflexivity].
  - apply Habsent. intros m Hin _ Hst.
    apply list_elem_of_singleton in Hin. subst m. discriminate Hst.
Defined.

(** ** Membership ledger *)

(** C1: on the definition of [update_member_role] in force (the second
    one of the module), an admin who is not owner promotes a member to
    owner: the call returns the target membership with role owner and
    the table holds it. *)
Theorem C1_admin_promotes_to_owner :
  User.get_organization_role (user_organization_memberships guild_db user2) 1
    = Some OrganizationRoleType.admin
  ∧ update_member_role guild_db user2 1 3 OrganizationRoleType.owner
    = Ok (with_organization_memberships guild_db
            [ member_row 1 1 OrganizationRoleType.owner MembershipStatus.active;
              member_row 2 2 OrganizationRoleType.admin MembershipStatus.active;
              member_row 3 3 OrganizationRoleType.owner MembershipStatus.active ],
          member_row 3 3 OrganizationRoleType.owner MembershipStatus.active).
Proof. split; reflexivity. Qed.

(** The first definition of [update_member_role], which the second one
    replaces, refuses the same call. *)
Lemma first_definition_refuses_promotion :
  FirstDefinition.update_member_role guild_db user2 1 3 OrganizationRoleType.owner
  = Raise (HTTPException HTTP_403_FORBIDDEN "Only owners can promote to owner role").
Proof. reflexivity. Qed.

(** In general: whenever the requester's active role is admin and the
    target row is not an owner's, the definition in force performs the
    promotion to owner, and the first definition raises 403. *)
Lemma admin_promotion_in_general db requester org target i m :
  User.get_organization_role (user_organization_memberships db requester) org
    = Some OrganizationRoleType.admin →
  target_membership db org target = Some (i, m) →
  OrganizationMembership.role m ≠ OrganizationRoleType.owner →
  update_member_role db requester org target OrganizationRoleType.owner
    = Ok (with_organization_memberships db
            (<[i := OrganizationMembership.set_role OrganizationRoleType.owner m]>
               (organization_memberships db)),
          OrganizationMembership.set_role OrganizationRoleType.owner m)
  ∧ FirstDefinition.update_member_role db requester org target OrganizationRoleType.owner
    = Raise (HTTPException HTTP_403_FORBIDDEN "Only owners can promote to owner role").
Proof.
  intros Hrole Htarget Hnot.
  unfold update_member_role, FirstDefinition.update_member_role.
  unfold User.has_permission_in_org. rewrite Hrole, Htarget. simpl.
  rewrite bool_decide_eq_false_2 by done. done.
Qed.

Lemma update_member_role_owner_target db requester org target new_role i m :
  target_membership db org target = Some (i, m) →
  OrganizationMembership.role m = OrganizationRoleType.owner →
  update_member_role db requester org target new_role =
    if User.has_permission_in_org (user_organization_memberships db requester)
         org OrganizationRoleType.admin
    then Raise (HTTPException HTTP_400_BAD_REQUEST "Cannot change owner role")
    else Raise (HTTPException HTTP_403_FORBIDDEN "Insufficient permissions").
Proof.
  intros Htarget Hrole. unfold update_member_role.
  destruct (User.has_permission_in_org _ _ _); [|done]. simpl.
  rewrite Htarget, bool_decide_eq_true_2 by done. done.
Qed.

Lemma owner_rows_kept db c db' i m :
  run_membership_call db c = Ok db' →
  organization_memberships db !! i = Some m →
  OrganizationMembership.role m = OrganizationRoleType.owner →
  ∃ m', organization_memberships db' !! i = Some m' ∧ same_member_role m m'.
Proof.
  intros Hrun Hi Hrole. destruct c; simpl in Hrun.
  - unfold create_organization in Hrun.
    destruct (List.find _ (organizations db)); [done|].
    simpl in Hrun. injection Hrun as <-. exists m. simpl.
    split; [by apply lookup_app_l_Some | done].
  - unfold join_organization in Hrun.
    destruct (List.find _ (organizations db)) as [org|]; [|done].
    destruct (negb (Organization.is_active org)); [done|].
    destruct (List.find _ (organization_memberships db)); [done|].
    repeat (case_bool_decide; [done|]).
    simpl in Hrun. injection Hrun as <-. exists m. simpl.
    split; [by apply lookup_app_l_Some | done].
  - unfold update_member_role in Hrun.
    destruct (negb _); [done|].
    destruct (target_membership db organization_id target_user_id)
      as [[i0 m0]|] eqn:Ht; [|done].
    case_bool_decide as Hm0; [done|].
    simpl in Hrun. injection Hrun as <-. simpl.
    apply list_find_Some in Ht as (Hi0 & _ & _).
    destruct (decide (i0 = i)) as [->|Hne].
    + assert (m0 = m) as -> by congruence. done.
    + exists m. by rewrite list_lookup_insert_ne.
  - unfold approve_membership in Hrun.
    destruct (negb _); [done|].
    destruct (list_find _ (organization_memberships db)) as [[i0 m0]|] eqn:Ht; [|done].
    simpl in Hrun. injection Hrun as <-. simpl.
    apply list_find_Some in Ht as (Hi0 & _ & _).
    destruct (decide (i0 = i)) as [->|Hne].
    + assert (m0 = m) as -> by congruence.
      exists (OrganizationMembership.approve (User.id requester) now m).
      split; [|done].
      apply list_lookup_insert_eq. by eapply lookup_lt_Some.
    + exists m. by rewrite list_lookup_insert_ne.
Qed.

(** C7, as the code has it: a call of [update_member_role] whose target
    row has role owner fails, with 400 "Cannot change owner role" when
    the requester holds at least admin and with 403 otherwise; and no
    call of the membership ledger changes the role of a row that has
    role owner (the row keeps its position, key, user, organization and
    role). *)
Theorem C7_owner_role_immutable :
  (∀ db requester org target new_role i m,
     target_membership db org target = Some (i, m) →
     OrganizationMembership.role m = OrganizationRoleType.owner →
     update_member_role db requester org target new_role =
       if User.has_permission_in_org (user_organization_memberships db requester)
            org OrganizationRoleType.admin
       then Raise (HTTPException HTTP_400_BAD_REQUEST "Cannot change owner role")
       else Raise (HTTPException HTTP_403_FORBIDDEN "Insufficient permissions"))
  ∧ (∀ db c db' i m,
       run_membership_call db c = Ok db' →
       organization_memberships db !! i = Some m →
       OrganizationMembership.role m = OrganizationRoleType.owner →
       ∃ m', organization_memberships db' !! i = Some m' ∧ same_member_role m m').
Proof.
  split.
  - apply update_member_role_owner_target.
  - apply owner_rows_kept.
Qed.

(** The admin of the guild cannot change the owner's role, and the
    owner's row survives the admin's promotion of user 3. *)
Lemma C7_owner_role_immutable_witness :
  update_member_role guild_db user2 1 1 OrganizationRoleType.member
    = Raise (HTTPException HTTP_400_BAD_REQUEST "Cannot change owner role")
  ∧ ∃ m', [ member_row 1 1 OrganizationRoleType.owner MembershipStatus.active;
            member_row 2 2 OrganizationRoleType.admin MembershipStatus.active;
            member_row 3 3 OrganizationRoleType.owner MembershipStatus.active ] !! 0%nat
          = Some m'
          ∧ same_member_role
              (member_row 1 1 OrganizationRoleType.owner MembershipStatus.active) m'.
Proof.
  destruct C7_owner_role_immutable as [Hfail Hkept]. split.
  - exact (Hfail guild_db user2 1 1 OrganizationRoleType.member 0%nat
             (member_row 1 1 OrganizationRoleType.owner MembershipStatus.active)
             eq_refl eq_refl).
  - exact (Hkept guild_db
             (UpdateMemberRole user2 1 3 OrganizationRoleType.owner) _ 0%nat
             (member_row 1 1 OrganizationRoleType.owner MembershipStatus.active)
             eq_refl eq_refl eq_refl).
Defined.

(** C7 as stated fails: a plain member who targets the owner's
    membership gets 403, not 400. *)
Lemma C7_counterexample :
  target_membership guild_db 1 1
    = Some (0%nat, member_row 1 1 OrganizationRoleType.owner MembershipStatus.active)
  ∧ update_member_role guild_db user3 1 1 OrganizationRoleType.member
    = Raise (HTTPException HTTP_403_FORBIDDEN "Insufficient permissions")
  ∧ HTTP_403_FORBIDDEN ≠ HTTP_400_BAD_REQUEST.
Proof. split; [reflexivity | split; [reflexivity | discriminate]]. Qed.

(** ** Refresh-token rotation *)

Lemma NoDup_fmap_eq {A B} (f : A → B) (l : list A) x y :
  NoDup (f <$> l) → x ∈ l → y ∈ l → f x = f y → x = y.
Proof.
  induction l as [|a l IH]; intros Hnd Hx Hy Hf.
  - by apply elem_of_nil in Hx.
  - rewrite fmap_cons in Hnd. apply NoDup_cons in Hnd as [Hna Hnd].
    apply elem_of_cons in Hx as [->|Hx]; apply elem_of_cons in Hy as [->|Hy].
    + done.
    + exfalso. apply Hna. rewrite Hf. by apply list_elem_of_fmap_2.
    + exfalso. apply Hna. rewrite <- Hf. by apply list_elem_of_fmap_2.
    + by apply IH.
Qed.

Lemma cleanup_subset rows uid t1 t2 r :
  r ∈ _cleanup_expired_tokens rows uid t1 t2 → r ∈ rows.
Proof.
  unfold _cleanup_expired_tokens. rewrite !list_elem_of_In, filter_In. tauto.
Qed.

Lemma existsb_false_elem {A} (f : A → bool) (l : list A) x :
  existsb f l = false → x ∈ l → f x = false.
Proof.
  intros He Hx. apply not_true_is_false. intros Hf.
  assert (existsb f l = true) as Ht; [|congruence].
  apply existsb_exists. exists x. split; [by apply list_elem_of_In | done].
Qed.

(** What a successful [renew_token] went through. *)
Lemma renew_token_Ok db tok clock nr na db' toks :
  renew_token db tok clock nr na = Ok (db', toks) →
  ∃ token_db user,
    token_db ∈ refresh_tokens db
    ∧ RefreshToken.token token_db = tok
    ∧ RefreshToken.revoked token_db = false
    ∧ User.id user = RefreshToken.user_id token_db
    ∧ (let kept := _cleanup_expired_tokens (refresh_tokens db) (User.id user)
                     (utcnow_cutoff clock) (utcnow_cleanup clock) in
       (∃ r0, r0 ∈ kept ∧ RefreshToken.id r0 = RefreshToken.id token_db)
       ∧ existsb (fun r => bool_decide (RefreshToken.token r = nr)) kept = false
       ∧ refresh_tokens db' =
           ((fun r => if bool_decide (RefreshToken.id r = RefreshToken.id token_db)
                      then RefreshToken.revoke (utcnow_revoked_at clock) r else r)
              <$> kept)
           ++ [RefreshToken.mk (next_id (RefreshToken.id <$> refresh_tokens db)) nr
                 (User.id user)
                 (utcnow_new_expiry clock + timedelta_days REFRESH_TOKEN_EXPIRE_DAYS)
                 false None])
    ∧ toks = mkTokens na nr "bearer".
Proof.
  unfold renew_token. intros H.
  destruct (List.find _ (refresh_tokens db)) as [token_db|] eqn:Hfind; [|done].
  destruct (_ <? _); [done|].
  destruct (List.find _ (users db)) as [user|] eqn:Hu; [|done].
  destruct (negb (User.is_active user)); [done|].
  destruct (negb (existsb _ _)) eqn:Hstale; [done|].
  destruct (existsb (λ r, bool_decide (RefreshToken.token r = nr)) _) eqn:Hdup; [done|].
  injection H as <- <-.
  apply find_some in Hfind as [Hin Hp]. apply andb_prop in Hp as [Ht Hr].
  apply bool_decide_eq_true_1 in Ht, Hr.
  apply find_some in Hu as [_ Hu]. apply bool_decide_eq_true_1 in Hu.
  exists token_db, user. repeat split; try done.
  - by apply list_elem_of_In.
  - apply negb_false_iff, existsb_exists in Hstale as (r0 & Hr0 & Hid).
    exists r0. split; [by apply list_elem_of_In | by apply bool_decide_eq_true_1 in Hid].
Qed.

Lemma no_live_token_renew db tok clock nr na :
  no_live_token tok db →
  renew_token db tok clock nr na
    = Raise (HTTPException HTTP_401_UNAUTHORIZED "Invalid refresh token").
Proof.
  intros Hno. unfold renew_token.
  destruct (List.find _ (refresh_tokens db)) as [r|] eqn:Hfind; [|done].
  apply find_some in Hfind as [Hin Hp]. apply andb_prop in Hp as [Ht Hr].
  apply bool_decide_eq_true_1 in Ht, Hr.
  apply list_elem_of_In in Hin. specialize (Hno r Hin Ht). congruence.
Qed.

(** A token call that does not generate [tok] keeps it dead. *)
Lemma no_live_token_step tok db c :
  generated_token c ≠ Some tok →
  no_live_token tok db → no_live_token tok (run_token_call db c).
Proof.
  intros Hgen Hno. destruct c; simpl in *.
  - (* login *)
    unfold authenticate_user.
    destruct (List.find _ (users db)) as [user|]; [|done].
    destruct (negb (User.is_active user)); [done|].
    destruct (negb password_ok); [done|].
    destruct (existsb _ _); simpl.
    + intros r Hr. apply cleanup_subset in Hr. by apply Hno.
    + intros r Hr Ht. simpl in Hr. apply elem_of_app in Hr as [Hr|Hr].
      * apply cleanup_subset in Hr. by apply Hno.
      * apply list_elem_of_singleton in Hr. subst r. simpl in Ht. congruence.
  - (* renew *)
    destruct (renew_token db refresh_token0 clock new_refresh new_access)
      as [[db' toks]|] eqn:Hrenew; [|done]. simpl.
    apply renew_token_Ok in Hrenew
      as (token_db & user & _ & _ & _ & _ & (_ & _ & Hrows) & _).
    intros r Hr Ht. rewrite Hrows in Hr. apply elem_of_app in Hr as [Hr|Hr].
    + apply list_elem_of_fmap_1 in Hr as (r1 & -> & Hr1).
      apply cleanup_subset in Hr1.
      destruct (bool_decide _); [done|]. by apply Hno.
    + apply list_elem_of_singleton in Hr. subst r. simpl in Ht. congruence.
  - (* logout *)
    unfold revoke_token.
    destruct (list_find _ (refresh_tokens db)) as [[i token_db]|]; [|done].
    destruct (RefreshToken.revoked token_db); [done|]. simpl.
    intros r Hr Ht. apply list_elem_of_lookup in Hr as [j Hj]. simpl in Hj.
    destruct (decide (i = j)) as [->|Hne].
    + destruct (decide (j < length (refresh_tokens db))%nat).
      * rewrite list_lookup_insert_eq in Hj by done. by simplify_eq.
      * rewrite list_insert_ge in Hj by lia.
        apply Hno; [|done]. apply list_elem_of_lookup. eauto.
    + rewrite list_lookup_insert_ne in Hj by done.
      apply Hno; [|done]. apply list_elem_of_lookup. eauto.
  - (* logout of all devices *)
    unfold revoke_all_user_tokens.
    destruct (List.find _ (refresh_tokens db)) as [token_db|]; [|done].
    destruct (RefreshToken.revoked token_db); [done|].
    destruct (_ <? _); [done|]. simpl.
    intros r Hr Ht. apply list_elem_of_fmap_1 in Hr as (r1 & -> & Hr1).
    destruct (_ && _); [done|]. by apply Hno.
Qed.

Lemma no_live_token_trace tok calls db :
  Forall (fun c => generated_token c ≠ Some tok) calls →
  no_live_token tok db → no_live_token tok (foldl run_token_call db calls).
Proof.
  intros Hgen. revert db.
  induction Hgen as [|c calls Hc _ IH]; intros db Hno; simpl; [done|].
  apply IH. by apply no_live_token_step.
Qed.

(** C3: when [renew_token] succeeds on a token table that respects its
    key and uniqueness constraints, the same commit marks the presented
    row revoked and inserts the row of the new token; and from then on,
    after any calls of the authentication service (whose generator
    does not hand out the presented string again), renewing the
    presented token fails with 401. *)
Theorem C3_refresh_token_rotation db tok clock nr na db' toks :
  token_table_ok db →
  renew_token db tok clock nr na = Ok (db', toks) →
  (∃ old, old ∈ refresh_tokens db
          ∧ RefreshToken.token old = tok
          ∧ RefreshToken.revoked old = false
          ∧ RefreshToken.revoke (utcnow_revoked_at clock) old ∈ refresh_tokens db')
  ∧ (refresh_token toks = nr
     ∧ ∃ new, new ∈ refresh_tokens db'
              ∧ RefreshToken.token new = nr
              ∧ RefreshToken.revoked new = false)
  ∧ (∀ calls clock' nr' na',
       Forall (fun c => generated_token c ≠ Some tok) calls →
       renew_token (foldl run_token_call db' calls) tok clock' nr' na'
         = Raise (HTTPException HTTP_401_UNAUTHORIZED "Invalid refresh token")).
Proof.
  intros [Hids Htoks] Hrenew.
  apply renew_token_Ok in Hrenew
    as (token_db & user & Hin & Htok & Hrev & Huser
        & ((r0 & Hr0 & Hid0) & Hfresh & Hrows) & ->).
  assert (r0 = token_db) as ->.
  { apply (NoDup_fmap_eq RefreshToken.id (refresh_tokens db)); try done.
    by apply cleanup_subset in Hr0. }
  split; [|split].
  - exists token_db. repeat split; try done.
    rewrite Hrows. apply elem_of_app. left.
    apply (list_elem_of_fmap_2' _ _ token_db); [done|].
    by rewrite bool_decide_eq_true_2.
  - split; [done|]. eexists. split; [|split].
    + rewrite Hrows. apply elem_of_app. right. by apply list_elem_of_singleton.
    + done.
    + done.
  - intros calls clock' nr' na' Hgen.
    apply no_live_token_renew, no_live_token_trace; [done|].
    intros r Hr Ht. rewrite Hrows in Hr. apply elem_of_app in Hr as [Hr|Hr].
    + apply list_elem_of_fmap_1 in Hr as (r1 & -> & Hr1).
      apply cleanup_subset in Hr1.
      assert (r1 = token_db) as ->.
      { apply (NoDup_fmap_eq RefreshToken.token (refresh_tokens db)); try done.
        destruct (bool_decide _); simpl in Ht; congruence. }
      by rewrite bool_decide_eq_true_2.
    + apply list_elem_of_singleton in Hr. subst r. simpl in Ht. subst nr.
      pose proof (existsb_false_elem _ _ _ Hfresh Hr0) as Hf. simpl in Hf.
      by rewrite bool_decide_eq_true_2 in Hf.
Qed.

(** The renewal of "tok-a" at time 500 succeeds once; replayed at time
    501, even after the user has logged in again, it is refused. *)
Lemma C3_refresh_token_rotation_witness :
  renew_token session_db "tok-a" (clock_at 500) "tok-b" "jwt-1"
    = Ok (session_db_renewed, mkTokens "jwt-1" "tok-b" "bearer")
  ∧ renew_token
      (foldl run_token_call session_db_renewed
         [Login "owner@x.com" true (mkLoginClock 501 501 501) "tok-c" "jwt-2"])
      "tok-a" (clock_at 501) "tok-d" "jwt-3"
    = Raise (HTTPException HTTP_401_UNAUTHORIZED "Invalid refresh token").
Proof.
  assert (token_table_ok session_db) as Hok.
  { split; simpl; apply NoDup_singleton. }
  assert (renew_token session_db "tok-a" (clock_at 500) "tok-b" "jwt-1"
          = Ok (session_db_renewed, mkTokens "jwt-1" "tok-b" "bearer")) as Hrenew.
  { reflexivity. }
  split; [exact Hrenew|].
  apply (C3_refresh_token_rotation _ _ _ _ _ _ _ Hok Hrenew).
  repeat constructor. simpl. discriminate.
Defined.

(** ** Joining a session *)

Lemma find_None_iff {A} (f : A → bool) (l : list A) :
  List.find f l = None ↔ ∀ x, x ∈ l → f x = false.
Proof.
  split.
  - intros Hn x Hx. apply (find_none _ _ Hn). by apply list_elem_of_In.
  - intros Hall. destruct (List.find f l) as [x|] eqn:Hf; [|done].
    apply find_some in Hf as [Hin Hx]. apply list_elem_of_In in Hin.
    rewrite (Hall x Hin) in Hx. done.
Qed.

Lemma find_is_Some_iff {A} (f : A → bool) (l : list A) :
  is_Some (List.find f l) ↔ ∃ x, x ∈ l ∧ f x = true.
Proof.
  split.
  - intros [x Hf]. apply find_some in Hf as [Hin Hx].
    exists x. split; [by apply list_elem_of_In | done].
  - intros (x & Hin & Hx). destruct (List.find f l) eqn:Hf; [by eexists|].
    rewrite (proj1 (find_None_iff f l) Hf x Hin) in Hx. done.
Qed.

Lemma _check_org_membership_Ok db uid org :
  active_org_member db uid org ↔ ∃ m, _check_org_membership db uid org = Ok m.
Proof.
  unfold _check_org_membership, active_org_member. split.
  - intros (m & Hin & Hu & Ho & Hs).
    destruct (List.find _ (organization_memberships db)) as [m'|] eqn:Hf; [by eexists|].
    pose proof (proj1 (find_None_iff _ _) Hf m Hin) as Hm. simpl in Hm.
    rewrite !bool_decide_eq_true_2 in Hm by done. done.
  - intros [m Hm].
    destruct (List.find _ (organization_memberships db)) as [m'|] eqn:Hf; [|done].
    apply find_some in Hf as [Hin Hp].
    apply andb_prop in Hp as [Hp Hs]. apply andb_prop in Hp as [Hu Ho].
    apply bool_decide_eq_true_1 in Hu, Ho, Hs.
    exists m'. by rewrite list_elem_of_In.
Qed.

Lemma live_session_member_find db uid jdr_id :
  live_session_member db uid jdr_id ↔
  is_Some (List.find
             (fun m => bool_decide (JDRMembership.user_id m = uid)
                       && bool_decide (JDRMembership.jdr_id m = jdr_id)
                       && bool_decide (JDRMembership.status m ∈
                            [MembershipJDRStatus.active; MembershipJDRStatus.pending]))
             (jdr_memberships db)).
Proof.
  rewrite find_is_Some_iff. unfold live_session_member.
  split; intros (m & Hin & H); exists m; (split; [done|]).
  - destruct H as (Hu & Hj & Hs).
    rewrite !bool_decide_eq_true_2; [done | | done | done].
    rewrite !elem_of_cons. tauto.
  - apply andb_prop in H as [H Hs]. apply andb_prop in H as [Hu Hj].
    apply bool_decide_eq_true_1 in Hu, Hj, Hs.
    repeat split; [done | done |].
    rewrite !elem_of_cons, elem_of_nil in Hs. tauto.
Qed.

Lemma accepting_dec jdr :
  accepting jdr ↔
  bool_decide (JDR.status jdr ∈ [JDRStatus.open; JDRStatus.in_progress]) = true.
Proof.
  unfold accepting. rewrite bool_decide_eq_true, !elem_of_cons, elem_of_nil. tauto.
Qed.

(** C8: [join_jdr] decides in this order: 404 when no session has the
    id; 400 when the session found is neither open nor in progress; 403
    when the requester holds no active membership in the organization
    of the session; 400 "Already a member or pending approval" (the
    duplicate membership, which the specification files under Conflict)
    when the requester has an active or pending membership of the
    session; 400 "JDR is full" when the active memberships number at
    least [max_players]; and otherwise it appends one membership with
    status pending for the requester and returns it. *)
Theorem C8_join_jdr db user jdr_id join_message :
  ((∀ j, j ∈ jdrs db → JDR.id j ≠ jdr_id) →
     join_jdr db user jdr_id join_message = Raise (HTTPException 404 "JDR not found"))
  ∧ (∀ jdr, jdr_by_id db jdr_id = Some jdr →
       (¬ accepting jdr →
          join_jdr db user jdr_id join_message
            = Raise (HTTPException 400 "This JDR is not accepting new players"))
       ∧ (accepting jdr →
          ¬ active_org_member db (User.id user) (JDR.organization_id jdr) →
          join_jdr db user jdr_id join_message
            = Raise (HTTPException HTTP_403_FORBIDDEN
                       "You must be a member of this organization"))
       ∧ (accepting jdr →
          active_org_member db (User.id user) (JDR.organization_id jdr) →
          live_session_member db (User.id user) jdr_id →
          join_jdr db user jdr_id join_message
            = Raise (HTTPException 400 "Already a member or pending approval"))
       ∧ (accepting jdr →
          active_org_member db (User.id user) (JDR.organization_id jdr) →
          ¬ live_session_member db (User.id user) jdr_id →
          active_count db jdr_id >= JDR.max_players jdr →
          join_jdr db user jdr_id join_message = Raise (HTTPException 400 "JDR is full"))
       ∧ (accepting jdr →
          active_org_member db (User.id user) (JDR.organization_id jdr) →
          ¬ live_session_member db (User.id user) jdr_id →
          active_count db jdr_id < JDR.max_players jdr →
          ∃ m, join_jdr db user jdr_id join_message
                 = Ok (with_jdr_memberships db (jdr_memberships db ++ [m]), m)
               ∧ JDRMembership.status m = MembershipJDRStatus.pending
               ∧ JDRMembership.user_id m = User.id user
               ∧ JDRMembership.jdr_id m = jdr_id
               ∧ JDRMembership.join_message m = join_message)).
Proof.
  split.
  - intros Hmissing. unfold join_jdr, jdr_by_id.
    destruct (List.find _ (jdrs db)) as [j|] eqn:Hf; [|done].
    apply find_some in Hf as [Hin Hid]. apply bool_decide_eq_true_1 in Hid.
    apply list_elem_of_In in Hin. by destruct (Hmissing j Hin).
  - intros jdr Hjdr. unfold join_jdr. rewrite Hjdr.
    split; [|split; [|split; [|split]]].
    + intros Hacc. rewrite accepting_dec in Hacc.
      apply not_true_is_false in Hacc. by rewrite Hacc.
    + intros Hacc Horg. apply accepting_dec in Hacc. rewrite Hacc. simpl.
      destruct (_check_org_membership db (User.id user) (JDR.organization_id jdr))
        as [m|e] eqn:Hc.
      * exfalso. apply Horg, _check_org_membership_Ok. by exists m.
      * unfold _check_org_membership in Hc.
        destruct (List.find _ (organization_memberships db)); [done|].
        by injection Hc as <-.
    + intros Hacc Horg Hlive. apply accepting_dec in Hacc. rewrite Hacc. simpl.
      apply _check_org_membership_Ok in Horg as [m ->]. simpl.
      apply live_session_member_find in Hlive as [m' ->]. done.
    + intros Hacc Horg Hlive Hfull. apply accepting_dec in Hacc. rewrite Hacc. simpl.
      apply _check_org_membership_Ok in Horg as [m ->]. simpl.
      destruct (List.find _ (jdr_memberships db)) eqn:Hf.
      { exfalso. apply Hlive, live_session_member_find. by rewrite Hf. }
      destruct (_ >=? _) eqn:Hge; [done|]. lia.
    + intros Hacc Horg Hlive Hroom. apply accepting_dec in Hacc. rewrite Hacc. simpl.
      apply _check_org_membership_Ok in Horg as [m ->]. simpl.
      destruct (List.find _ (jdr_memberships db)) eqn:Hf.
      { exfalso. apply Hlive, live_session_member_find. by rewrite Hf. }
      destruct (_ >=? _) eqn:Hge; [lia|].
      eexists. split; [reflexivity|]. done.
Qed.

(** Scenario: the session has room for one player.  User 2 joins and
    gets a pending membership; the MJ approves it; user 3 then joins
    and is told the JDR is full. *)
Lemma C8_join_jdr_witness :
  (∃ m, join_jdr table_db user2 1 (Some "hello")
          = Ok (with_jdr_memberships table_db (jdr_memberships table_db ++ [m]), m)
        ∧ JDRMembership.status m = MembershipJDRStatus.pending
        ∧ JDRMembership.user_id m = User.id user2
        ∧ JDRMembership.jdr_id m = 1
        ∧ JDRMembership.join_message m = Some "hello")
  ∧ approve_player (with_jdr_memberships table_db [seat_pending]) user1 1 1 10
    = Ok (full_table_db, seat_active)
  ∧ join_jdr full_table_db user3 1 None = Raise (HTTPException 400 "JDR is full").
Proof.
  assert (∀ db uid role,
            organization_memberships db = organization_memberships guild_db →
            member_row uid uid role MembershipStatus.active
              ∈ organization_memberships guild_db →
            active_org_member db uid 1) as Horg.
  { intros db uid role Hdb Hin. eexists. rewrite Hdb. split; [exact Hin | done]. }
  split; [|split].
  - destruct (C8_join_jdr table_db user2 1 (Some "hello")) as [_ H].
    destruct (H _ eq_refl) as (_ & _ & _ & _ & Hjoin).
    apply Hjoin.
    + by left.
    + apply (Horg _ 2 OrganizationRoleType.admin); [done|].
      apply list_elem_of_further, list_elem_of_here.
    + intros (m & Hin & _). by apply elem_of_nil in Hin.
    + unfold active_count. simpl. lia.
  - reflexivity.
  - destruct (C8_join_jdr full_table_db user3 1 None) as [_ H].
    destruct (H _ eq_refl) as (_ & _ & _ & Hfull & _).
    apply Hfull.
    + by left.
    + apply (Horg _ 3 OrganizationRoleType.member); [done|].
      do 2 apply list_elem_of_further. apply list_elem_of_here.
    + intros (m & Hin & Hu & _).
      apply list_elem_of_singleton in Hin. subst m. discriminate Hu.
    + unfold active_count. simpl. lia.
Defined.

(** ** Inventory stacking *)

Lemma list_find_None_not {A} (P : A → Prop) `{∀ x, Decision (P x)} (l : list A) :
  (∀ x, x ∈ l → ¬ P x) → list_find P l = None.
Proof. intros Hall. apply list_find_None, Forall_forall. exact Hall. Qed.

(** C9: for a call of [give_item_to_character] that passes its checks
    (the caller is the MJ, the character and the item belong to the
    session): when the inventory holds a row for the (character, item)
    pair, the row that the query returns, of quantity q, is replaced in
    place by the same row with quantity q + n, and the table keeps its
    length; when it holds none, the table grows by exactly one row, of
    quantity n, for the pair. *)
Theorem C9_give_item_stacks db mj jdr_id data jdr :
  _check_is_mj db mj jdr_id = Ok jdr →
  (∃ c, c ∈ characters db ∧ Character.id c = give_character_id data
        ∧ Character.jdr_id c = jdr_id) →
  (∃ g, g ∈ game_items db ∧ GameItem.id g = give_game_item_id data
        ∧ GameItem.jdr_id g = jdr_id) →
  (∀ i existing,
     inventory_entry db (give_character_id data) (give_game_item_id data)
       = Some (i, existing) →
     ∃ db' row,
       give_item_to_character db mj jdr_id data = Ok (db', row)
       ∧ character_inventory db' = <[i := row]> (character_inventory db)
       ∧ length (character_inventory db') = length (character_inventory db)
       ∧ character_inventory db' !! i = Some row
       ∧ CharacterInventory.id row = CharacterInventory.id existing
       ∧ CharacterInventory.character_id row = give_character_id data
       ∧ CharacterInventory.game_item_id row = give_game_item_id data
       ∧ CharacterInventory.quantity row
         = CharacterInventory.quantity existing + give_quantity data)
  ∧ ((∀ e, e ∈ character_inventory db →
           ¬ (CharacterInventory.character_id e = give_character_id data
              ∧ CharacterInventory.game_item_id e = give_game_item_id data)) →
     ∃ db' row,
       give_item_to_character db mj jdr_id data = Ok (db', row)
       ∧ character_inventory db' = character_inventory db ++ [row]
       ∧ CharacterInventory.character_id row = give_character_id data
       ∧ CharacterInventory.game_item_id row = give_game_item_id data
       ∧ CharacterInventory.quantity row = give_quantity data).
Proof.
  intros Hmj (c & Hc & Hcid & Hcj) (g & Hg & Hgid & Hgj).
  assert (is_Some (List.find
            (fun c => bool_decide (Character.id c = give_character_id data)
                      && bool_decide (Character.jdr_id c = jdr_id))
            (characters db))) as [c' Hfc].
  { apply find_is_Some_iff. exists c. by rewrite !bool_decide_eq_true_2. }
  assert (is_Some (List.find
            (fun g => bool_decide (GameItem.id g = give_game_item_id data)
                      && bool_decide (GameItem.jdr_id g = jdr_id))
            (game_items db))) as [g' Hfg].
  { apply find_is_Some_iff. exists g. by rewrite !bool_decide_eq_true_2. }
  unfold give_item_to_character. rewrite Hmj. simpl. rewrite Hfc, Hfg.
  split.
  - intros i existing Hentry. rewrite Hentry.
    apply list_find_Some in Hentry as (Hi & [Hec Heg] & _).
    eexists _, _. split; [reflexivity|]. simpl.
    repeat split; try done.
    + by rewrite length_insert.
    + apply list_lookup_insert_eq. by eapply lookup_lt_Some.
  - intros Hnone.
    unfold inventory_entry. rewrite list_find_None_not by done.
    eexists _, _. split; [reflexivity|]. done.
Qed.

(** Scenario: the character holds three potions and the MJ gives two
    more: the row now counts five, and the table still has one row. *)
Lemma C9_give_item_stacks_witness :
  ∃ db' row,
    give_item_to_character play_db user1 1 (mkGiveItemRequest 2 1 2 None) = Ok (db', row)
    ∧ character_inventory db' = <[0%nat := row]> (character_inventory play_db)
    ∧ length (character_inventory db') = length (character_inventory play_db)
    ∧ character_inventory db' !! 0%nat = Some row
    ∧ CharacterInventory.id row = 1
    ∧ CharacterInventory.character_id row = 1
    ∧ CharacterInventory.game_item_id row = 2
    ∧ CharacterInventory.quantity row = 3 + 2.
Proof.
  refine (proj1 (C9_give_item_stacks play_db user1 1 (mkGiveItemRequest 2 1 2 None)
                   (JDR.mk 1 1 (Some 1) "Dungeon" JDRStatus.open 1) eq_refl _ _)
            0%nat (CharacterInventory.mk 1 1 2 3 None) eq_refl).
  - exists play_character. split; [apply list_elem_of_here | done].
  - exists (GameItem.mk 2 1 (Some 1) (Some "Potion") (Some 9) 5).
    split; [apply list_elem_of_further, list_elem_of_here | done].
Defined.

(** ** Image resolution *)

Lemma image_by_id_elem db i img :
  image_by_id db i = Some img → img ∈ image_assets db.
Proof.
  unfold image_by_id. destruct i as [i|]; simpl; [|done].
  intros Hf. apply find_some in Hf as [Hin _]. by apply list_elem_of_In.
Qed.

Lemma GameItem_image_url_spec db g :
  GameItem_image_url db g = ImageAsset.url <$> spec_item_image db g.
Proof.
  unfold GameItem_image_url, spec_item_image. simpl.
  destruct (image_by_id db (GameItem.custom_image_id g)); [done|].
  destruct (template_by_id db (GameItem.template_id g)) as [t|]; simpl; [|done].
  by destruct (image_by_id db (ItemTemplate.image_id t)).
Qed.

(** C4: in a database whose image rows have a non-empty url (the
    upload service builds them as "/uploads/..."), the image url of a
    board element is the url of the first image present among: its own
    image, the avatar of its character, the resolved image of its game
    item; and none when there is none.  The resolved image of a game
    item is the first present among its custom image and the image of
    its template. *)
Theorem C4_image_resolution db :
  (∀ img, img ∈ image_assets db → ImageAsset.url img ≠ EmptyString) →
  (∀ g, GameItem_image_url db g = ImageAsset.url <$> spec_item_image db g)
  ∧ (∀ el, BoardElement_image_url db el = ImageAsset.url <$> spec_element_image db el).
Proof.
  intros Hurl. split; [apply GameItem_image_url_spec|].
  intros el. unfold BoardElement_image_url, spec_element_image. simpl.
  destruct (image_by_id db (BoardElement.image_id el)); [done|].
  destruct (character_by_id db (BoardElement.character_id el) ≫= _); [done|].
  destruct (game_item_by_id db (BoardElement.game_item_id el)) as [g|]; simpl; [|done].
  rewrite GameItem_image_url_spec.
  destruct (spec_item_image db g) as [img|] eqn:Himg; simpl; [|done].
  rewrite bool_decide_eq_false_2; [done|].
  apply Hurl. unfold spec_item_image in Himg. simpl in Himg.
  destruct (image_by_id db (GameItem.custom_image_id g)) eqn:H1.
  - injection Himg as <-. by eapply image_by_id_elem.
  - destruct (template_by_id db (GameItem.template_id g)) as [t|]; simpl in Himg.
    + destruct (image_by_id db (ItemTemplate.image_id t)) eqn:H2; [|done].
      injection Himg as <-. by eapply image_by_id_elem.
    + done.
Qed.

(** In [play_db]: the sword (no custom image, template image 7) shows
    the template's url, the potion (custom image 9) its own; element 1
    shows its item's image, element 2 the avatar of its character
    before the image of its item, element 3 its own image, element 4
    none. *)
Lemma C4_image_resolution_witness :
  GameItem_image_url play_db (GameItem.mk 1 1 (Some 1) None None 1)
    = Some "/uploads/items/blade.png"
  ∧ GameItem_image_url play_db (GameItem.mk 2 1 (Some 1) (Some "Potion") (Some 9) 5)
    = Some "/uploads/items/potion.png"
  ∧ BoardElement_image_url play_db <$> board_elements play_db
    = [ Some "/uploads/items/blade.png"; Some "/uploads/avatars/thorin.png";
        Some "/uploads/avatars/thorin.png"; None ].
Proof.
  assert (∀ img, img ∈ image_assets play_db → ImageAsset.url img ≠ EmptyString) as Hurl.
  { intros img Hin. simpl in Hin. rewrite !elem_of_cons, elem_of_nil in Hin.
    destruct Hin as [-> | [-> | [-> | []]]]; discriminate. }
  destruct (C4_image_resolution play_db Hurl) as [Hitem Hel].
  split; [|split].
  - rewrite Hitem. reflexivity.
  - rewrite Hitem. reflexivity.
  - simpl. rewrite !Hel. reflexivity.
Defined.

(** ** Board visibility *)

Lemma int_in_ids uid (ids : list Z) :
  existsb (int_eq_json uid) (JInt <$> ids) = bool_decide (uid ∈ ids).
Proof.
  induction ids as [|k ids IH].
  - done.
  - rewrite fmap_cons. cbn [existsb int_eq_json]. rewrite IH.
    destruct (Z.eqb_spec uid k) as [->|Hne].
    + symmetry. apply bool_decide_eq_true_2. apply list_elem_of_here.
    + apply bool_decide_ext. rewrite elem_of_cons. tauto.
Qed.

Lemma dict_truthy_singleton (k : string) (v : json) :
  dict_truthy {[ k := v ]} = true.
Proof. unfold dict_truthy. by rewrite map_size_singleton. Qed.

Lemma character_by_id_zero db :
  (∀ c, c ∈ characters db → Character.id c ≠ 0) →
  character_by_id db (Some 0) = None.
Proof.
  intros Hkeys. unfold character_by_id. simpl. apply find_None_iff.
  intros c Hc. apply bool_decide_eq_false_2. by apply Hkeys.
Qed.

Lemma _is_visible_to_user_spec db el uid d :
  (∀ c, c ∈ characters db → Character.id c ≠ 0) →
  BoardElement.visible_to el = descriptor_json d →
  _is_visible_to_user db el uid = Ok (spec_admits db d el uid).
Proof.
  intros Hkeys Hd. unfold _is_visible_to_user. rewrite Hd.
  destruct d as [| | |ids|ids]; simpl.
  - done.
  - done.
  - rewrite dict_truthy_singleton. simpl. by rewrite lookup_singleton_eq.
  - rewrite dict_truthy_singleton. simpl.
    rewrite lookup_singleton_ne by done. simpl.
    rewrite lookup_singleton_eq. simpl. by rewrite int_in_ids.
  - rewrite dict_truthy_singleton. simpl.
    rewrite lookup_singleton_ne by done. simpl.
    rewrite lookup_singleton_ne by done.
    rewrite lookup_singleton_eq.
    destruct (BoardElement.character_id el) as [n|]; simpl; [|done].
    destruct (Z.eqb_spec n 0) as [->|Hn]; simpl.
    + pose proof (character_by_id_zero db Hkeys) as Hz.
      unfold character_by_id in Hz. simpl in Hz. by rewrite Hz.
    + by destruct (List.find _ (characters db)).
Qed.

Lemma visible_elements_spec db uid desc (l : list BoardElement.t) :
  (∀ c, c ∈ characters db → Character.id c ≠ 0) →
  (∀ el, el ∈ l → BoardElement.visible_to el = descriptor_json (desc el)) →
  visible_elements db uid l =
    Ok (List.filter
          (fun el => BoardElement.is_visible el && spec_admits db (desc el) el uid) l).
Proof.
  intros Hkeys. induction l as [|el l IH]; intros Hdesc; simpl; [done|].
  rewrite IH by (intros el' Hel'; apply Hdesc; by apply list_elem_of_further).
  destruct (BoardElement.is_visible el); simpl.
  - rewrite (_is_visible_to_user_spec db el uid (desc el) Hkeys)
      by (apply Hdesc; apply list_elem_of_here).
    simpl. by destruct (spec_admits db (desc el) el uid).
  - done.
Qed.

Lemma _check_is_player_Ok db uid jdr_id :
  active_player db uid jdr_id → ∃ m, _check_is_player db uid jdr_id = Ok m.
Proof.
  intros (m & Hin & Hu & Hj & Hs). unfold _check_is_player.
  destruct (List.find _ (jdr_memberships db)) as [m'|] eqn:Hf; [by eexists|].
  pose proof (proj1 (find_None_iff _ _) Hf m Hin) as Hm. simpl in Hm.
  rewrite !bool_decide_eq_true_2 in Hm by done. done.
Qed.

(** C2: [get_board] on a session that has a board.  The MJ receives
    every element of the board, whatever [is_visible] and [visible_to]
    say.  An active player, when the elements carry the descriptors
    the specification names, receives exactly the elements with
    [is_visible] true whose descriptor admits the player, in the order
    of the board: absent, empty and [{all: true}] admit everyone,
    [{player_ids: ...}] the listed users, [{character_ids: ...}] the
    owner of the linked character and nobody without a link.
    (Character keys are autoincrement keys, hence never 0.) *)
Theorem C2_get_board_visibility db user jdr_id jdr bi board :
  jdr_by_id db jdr_id = Some jdr →
  board_by_jdr db jdr_id = Some (bi, board) →
  (JDR.mj_id jdr = Some (User.id user) →
     get_board db user jdr_id = Ok (board, board_elements_of db board))
  ∧ (JDR.mj_id jdr ≠ Some (User.id user) →
     active_player db (User.id user) jdr_id →
     (∀ c, c ∈ characters db → Character.id c ≠ 0) →
     ∀ desc,
       (∀ el, el ∈ board_elements_of db board →
              BoardElement.visible_to el = descriptor_json (desc el)) →
       get_board db user jdr_id =
         Ok (board,
             List.filter
               (fun el => BoardElement.is_visible el
                          && spec_admits db (desc el) el (User.id user))
               (board_elements_of db board))).
Proof.
  intros Hjdr Hboard. unfold get_board. rewrite Hjdr, Hboard. split.
  - intros Hmj. by rewrite bool_decide_eq_true_2.
  - intros Hmj Hplayer Hkeys desc Hdesc.
    rewrite bool_decide_eq_false_2 by done. simpl.
    apply _check_is_player_Ok in Hplayer as [m ->]. simpl.
    by rewrite (visible_elements_spec db (User.id user) desc).
Qed.

(** In [play_db] the MJ (user 1) sees the four elements; user 2, an
    active player, sees the sword (listed in [player_ids]) and the
    token of the character they own, and neither the hidden monster
    nor the note addressed to user 3. *)
Lemma C2_get_board_visibility_witness :
  get_board play_db user1 1
    = Ok (play_board, [play_sword; play_token; play_monster; play_note])
  ∧ get_board play_db user2 1 = Ok (play_board, [play_sword; play_token]).
Proof.
  destruct (C2_get_board_visibility play_db user1 1
              (JDR.mk 1 1 (Some 1) "Dungeon" JDRStatus.open 1) 0%nat play_board
              eq_refl eq_refl) as [Hmj _].
  destruct (C2_get_board_visibility play_db user2 1
              (JDR.mk 1 1 (Some 1) "Dungeon" JDRStatus.open 1) 0%nat play_board
              eq_refl eq_refl) as [_ Hplayer].
  split.
  - exact (Hmj eq_refl).
  - refine (Hplayer _ _ _ play_descriptor _).
    + discriminate.
    + eexists. split; [apply list_elem_of_here | done].
    + intros c Hc. apply list_elem_of_singleton in Hc. subst c. discriminate.
    + intros el Hel.
      change (board_elements_of play_db play_board)
        with [play_sword; play_token; play_monster; play_note] in Hel.
      rewrite !elem_of_cons, elem_of_nil in Hel.
      destruct Hel as [-> | [-> | [-> | [-> | []]]]]; reflexivity.
Defined.

(** ** Merge laws of the board *)

Lemma dict_or_empty_lookup (d : dict) k : dict_or_empty d !! k = d !! k.
Proof.
  unfold dict_or_empty, dict_truthy. case_bool_decide as Hsize; simpl; [|done].
  apply map_size_empty_iff in Hsize. by rewrite Hsize.
Qed.

Lemma dict_merge_lookup (a b : dict) k :
  dict_merge a b !! k = or_else (b !! k) (a !! k).
Proof.
  unfold dict_merge. rewrite lookup_union.
  by destruct (b !! k), (a !! k).
Qed.

Lemma merged_lookup (d p : dict) k :
  dict_merge (dict_or_empty d) p !! k = or_else (p !! k) (d !! k).
Proof. by rewrite dict_merge_lookup, dict_or_empty_lookup. Qed.

Lemma list_find_insert_same {A} (P : A → Prop) `{∀ x, Decision (P x)}
    (l : list A) i x x' :
  list_find P l = Some (i, x) → P x' →
  list_find P (<[i := x']> l) = Some (i, x').
Proof.
  intros (Hi & _ & Hbefore)%list_find_Some Hx'. apply list_find_Some.
  split; [|split; [done|]].
  - apply list_lookup_insert_eq. by eapply lookup_lt_Some.
  - intros j y Hj Hlt. rewrite list_lookup_insert_ne in Hj by lia. by eapply Hbefore.
Qed.

Lemma update_board_merges db mj jdr_id data now db' b' i b p :
  board_by_jdr db jdr_id = Some (i, b) →
  bu_dimensions data = Some (Some p) →
  update_board db mj jdr_id data now = Ok (db', b') →
  boards db' !! i = Some b'
  ∧ Board.dimensions b' = dict_merge (dict_or_empty (Board.dimensions b)) p.
Proof.
  intros Hb Hp H. unfold update_board in H.
  destruct (_check_is_mj db mj jdr_id); simpl in H; [|done].
  rewrite Hb, Hp in H.
  destruct (match bu_background_image_id data with
            | Some (Some _) => _ | _ => _ end); simpl in H; [|done].
  destruct (bu_name data) as [[n|]|]; simpl in H; try done;
    injection H as <- <-; simpl;
    (split; [apply list_lookup_insert_eq; apply list_find_Some in Hb as [Hb _];
             by eapply lookup_lt_Some | done]).
Qed.

Lemma update_board_dimensions_patch db mj jdr_id jdr i b p now :
  _check_is_mj db mj jdr_id = Ok jdr →
  board_by_jdr db jdr_id = Some (i, b) →
  update_board db mj jdr_id (dimensions_patch p) now =
    let b' := Board.mk (Board.id b) (Board.jdr_id b) (Board.name b)
                (Board.background_image_id b)
                (dict_merge (dict_or_empty (Board.dimensions b)) p) now in
    Ok (with_boards db (<[i := b']> (boards db)), b').
Proof. intros Hmj Hb. unfold update_board. by rewrite Hmj, Hb. Qed.

Lemma update_board_element_merges db mj jdr_id element_id data t1 t2 db' el'
    bi board i el :
  board_by_jdr db jdr_id = Some (bi, board) →
  board_element_entry db board element_id = Some (i, el) →
  update_board_element db mj jdr_id element_id data t1 t2 = Ok (db', el') →
  board_elements db' !! i = Some el'
  ∧ BoardElement.position el' =
      match eu_position data with
      | Some (Some p) => dict_merge (dict_or_empty (BoardElement.position el)) p
      | _ => BoardElement.position el
      end
  ∧ BoardElement.content el' =
      match eu_content data with
      | Some (Some p) => dict_merge (dict_or_empty (BoardElement.content el)) p
      | _ => BoardElement.content el
      end.
Proof.
  intros Hb He H. unfold update_board_element in H.
  destruct (_check_is_mj db mj jdr_id); simpl in H; [|done].
  rewrite Hb, He in H.
  destruct (match eu_image_id data with
            | Some (Some _) => _ | _ => _ end); simpl in H; [|done].
  destruct (eu_position data) as [[pp|]|]; simpl in H; try done;
    destruct (eu_content data) as [[pc|]|]; simpl in H; try done;
    destruct (eu_is_visible data) as [[v|]|]; simpl in H; try done;
    injection H as <- <-; simpl;
    (split; [apply list_lookup_insert_eq; apply list_find_Some in He as [He _];
             by eapply lookup_lt_Some | done]).
Qed.

Lemma update_board_element_position_patch db mj jdr_id element_id jdr bi board i el
    p t1 t2 :
  _check_is_mj db mj jdr_id = Ok jdr →
  board_by_jdr db jdr_id = Some (bi, board) →
  board_element_entry db board element_id = Some (i, el) →
  update_board_element db mj jdr_id element_id (position_patch p) t1 t2 =
    let el' :=
      BoardElement.mk (BoardElement.id el) (BoardElement.board_id el)
        (BoardElement.element_type el) (BoardElement.character_id el)
        (BoardElement.game_item_id el) (BoardElement.image_id el)
        (BoardElement.content el)
        (dict_merge (dict_or_empty (BoardElement.position el)) p)
        (BoardElement.is_visible el) (BoardElement.visible_to el) t1 in
    let board' :=
      Board.mk (Board.id board) (Board.jdr_id board) (Board.name board)
        (Board.background_image_id board) (Board.dimensions board) t2 in
    Ok (with_board_elements (with_boards db (<[bi := board']> (boards db)))
          (<[i := el']> (board_elements db)),
        el').
Proof. intros Hmj Hb He. unfold update_board_element. by rewrite Hmj, Hb, He. Qed.

Lemma update_board_element_content_patch db mj jdr_id element_id jdr bi board i el
    p t1 t2 :
  _check_is_mj db mj jdr_id = Ok jdr →
  board_by_jdr db jdr_id = Some (bi, board) →
  board_element_entry db board element_id = Some (i, el) →
  update_board_element db mj jdr_id element_id (content_patch p) t1 t2 =
    let el' :=
      BoardElement.mk (BoardElement.id el) (BoardElement.board_id el)
        (BoardElement.element_type el) (BoardElement.character_id el)
        (BoardElement.game_item_id el) (BoardElement.image_id el)
        (dict_merge (dict_or_empty (BoardElement.content el)) p)
        (BoardElement.position el)
        (BoardElement.is_visible el) (BoardElement.visible_to el) t1 in
    let board' :=
      Board.mk (Board.id board) (Board.jdr_id board) (Board.name board)
        (Board.background_image_id board) (Board.dimensions board) t2 in
    Ok (with_board_elements (with_boards db (<[bi := board']> (boards db)))
          (<[i := el']> (board_elements db)),
        el').
Proof. intros Hmj Hb He. unfold update_board_element. by rewrite Hmj, Hb, He. Qed.

Lemma update_board_twice db mj jdr_id jdr i b p1 p2 now1 now2 :
  _check_is_mj db mj jdr_id = Ok jdr →
  board_by_jdr db jdr_id = Some (i, b) →
  ∃ db1 b1 db2 b2,
    update_board db mj jdr_id (dimensions_patch p1) now1 = Ok (db1, b1)
    ∧ update_board db1 mj jdr_id (dimensions_patch p2) now2 = Ok (db2, b2)
    ∧ boards db2 !! i = Some b2
    ∧ ∀ k, Board.dimensions b2 !! k
           = or_else (p2 !! k) (or_else (p1 !! k) (Board.dimensions b !! k)).
Proof.
  intros Hmj Hb.
  pose proof (update_board_dimensions_patch db mj jdr_id jdr i b p1 now1 Hmj Hb) as H1.
  simpl in H1.
  eexists _, _. eexists _, _. split; [exact H1|].
  match type of H1 with _ = Ok (?d, ?b1) => set (db1 := d) in *; set (b1' := b1) in * end.
  assert (board_by_jdr db1 jdr_id = Some (i, b1')) as Hb1.
  { unfold board_by_jdr, db1. simpl.
    apply (list_find_insert_same _ _ _ b); [exact Hb|].
    simpl. by apply list_find_Some in Hb as (_ & Hjdr & _). }
  pose proof (update_board_dimensions_patch db1 mj jdr_id jdr i b1' p2 now2 Hmj Hb1)
    as H2.
  simpl in H2. split; [exact H2|]. split.
  - simpl. apply list_lookup_insert_eq. rewrite length_insert.
    apply list_find_Some in Hb as [Hb _]. by eapply lookup_lt_Some.
  - intros k. simpl. by rewrite !merged_lookup.
Qed.

Lemma update_board_element_twice_position db mj jdr_id element_id jdr bi board i el
    p1 p2 t1 t2 t3 t4 :
  _check_is_mj db mj jdr_id = Ok jdr →
  board_by_jdr db jdr_id = Some (bi, board) →
  board_element_entry db board element_id = Some (i, el) →
  ∃ db1 el1 db2 el2,
    update_board_element db mj jdr_id element_id (position_patch p1) t1 t2 = Ok (db1, el1)
    ∧ update_board_element db1 mj jdr_id element_id (position_patch p2) t3 t4
      = Ok (db2, el2)
    ∧ board_elements db2 !! i = Some el2
    ∧ BoardElement.content el2 = BoardElement.content el
    ∧ ∀ k, BoardElement.position el2 !! k
           = or_else (p2 !! k) (or_else (p1 !! k) (BoardElement.position el !! k)).
Proof.
  intros Hmj Hb He.
  pose proof (update_board_element_position_patch db mj jdr_id element_id jdr bi board
                i el p1 t1 t2 Hmj Hb He) as H1.
  simpl in H1.
  eexists _, _. eexists _, _. split; [exact H1|].
  match type of H1 with _ = Ok (?d, ?e1) => set (db1 := d) in *; set (el1 := e1) in * end.
  set (board1 := Board.mk (Board.id board) (Board.jdr_id board) (Board.name board)
                   (Board.background_image_id board) (Board.dimensions board) t2).
  assert (board_by_jdr db1 jdr_id = Some (bi, board1)) as Hb1.
  { unfold board_by_jdr, db1. simpl.
    apply (list_find_insert_same _ _ _ board); [exact Hb|].
    simpl. by apply list_find_Some in Hb as (_ & Hjdr & _). }
  assert (board_element_entry db1 board1 element_id = Some (i, el1)) as He1.
  { unfold board_element_entry, db1. simpl.
    apply (list_find_insert_same _ _ _ el); [exact He|].
    simpl. by apply list_find_Some in He as (_ & Hel & _). }
  pose proof (update_board_element_position_patch db1 mj jdr_id element_id jdr bi board1
                i el1 p2 t3 t4 Hmj Hb1 He1) as H2.
  simpl in H2. split; [exact H2|]. split; [|split].
  - simpl. apply list_lookup_insert_eq. rewrite length_insert.
    apply list_find_Some in He as [He _]. by eapply lookup_lt_Some.
  - done.
  - intros k. simpl. by rewrite !merged_lookup.
Qed.

Lemma update_board_element_twice_content db mj jdr_id element_id jdr bi board i el
    p1 p2 t1 t2 t3 t4 :
  _check_is_mj db mj jdr_id = Ok jdr →
  board_by_jdr db jdr_id = Some (bi, board) →
  board_element_entry db board element_id = Some (i, el) →
  ∃ db1 el1 db2 el2,
    update_board_element db mj jdr_id element_id (content_patch p1) t1 t2 = Ok (db1, el1)
    ∧ update_board_element db1 mj jdr_id element_id (content_patch p2) t3 t4
      = Ok (db2, el2)
    ∧ board_elements db2 !! i = Some el2
    ∧ BoardElement.position el2 = BoardElement.position el
    ∧ ∀ k, BoardElement.content el2 !! k
           = or_else (p2 !! k) (or_else (p1 !! k) (BoardElement.content el !! k)).
Proof.
  intros Hmj Hb He.
  pose proof (update_board_element_content_patch db mj jdr_id element_id jdr bi board
                i el p1 t1 t2 Hmj Hb He) as H1.
  simpl in H1.
  eexists _, _. eexists _, _. split; [exact H1|].
  match type of H1 with _ = Ok (?d, ?e1) => set (db1 := d) in *; set (el1 := e1) in * end.
  set (board1 := Board.mk (Board.id board) (Board.jdr_id board) (Board.name board)
                   (Board.background_image_id board) (Board.dimensions board) t2).
  assert (board_by_jdr db1 jdr_id = Some (bi, board1)) as Hb1.
  { unfold board_by_jdr, db1. simpl.
    apply (list_find_insert_same _ _ _ board); [exact Hb|].
    simpl. by apply list_find_Some in Hb as (_ & Hjdr & _). }
  assert (board_element_entry db1 board1 element_id = Some (i, el1)) as He1.
  { unfold board_element_entry, db1. simpl.
    apply (list_find_insert_same _ _ _ el); [exact He|].
    simpl. by apply list_find_Some in He as (_ & Hel & _). }
  pose proof (update_board_element_content_patch db1 mj jdr_id element_id jdr bi board1
                i el1 p2 t3 t4 Hmj Hb1 He1) as H2.
  simpl in H2. split; [exact H2|]. split; [|split].
  - simpl. apply list_lookup_insert_eq. rewrite length_insert.
    apply list_find_Some in He as [He _]. by eapply lookup_lt_Some.
  - done.
  - intros k. simpl. by rewrite !merged_lookup.
Qed.

(** C5: a successful [update_board] whose patch carries a [dimensions]
    map stores the board with, at every key, the value of the patch
    when the patch has the key and the old value otherwise; two
    dimension patches in sequence by the MJ both succeed and leave, at
    every key, the value of the second patch, else of the first, else
    the old one.  [update_board_element] obeys the same laws for
    [position] and for [content], each map being left alone by a patch
    of the other. *)
Theorem C5_merge_laws :
  (∀ db mj jdr_id data now db' b' i b p,
     board_by_jdr db jdr_id = Some (i, b) →
     bu_dimensions data = Some (Some p) →
     update_board db mj jdr_id data now = Ok (db', b') →
     boards db' !! i = Some b'
     ∧ ∀ k, Board.dimensions b' !! k = or_else (p !! k) (Board.dimensions b !! k))
  ∧ (∀ db mj jdr_id jdr i b p1 p2 now1 now2,
       _check_is_mj db mj jdr_id = Ok jdr →
       board_by_jdr db jdr_id = Some (i, b) →
       ∃ db1 b1 db2 b2,
         update_board db mj jdr_id (dimensions_patch p1) now1 = Ok (db1, b1)
         ∧ update_board db1 mj jdr_id (dimensions_patch p2) now2 = Ok (db2, b2)
         ∧ boards db2 !! i = Some b2
         ∧ ∀ k, Board.dimensions b2 !! k
                = or_else (p2 !! k) (or_else (p1 !! k) (Board.dimensions b !! k)))
  ∧ (∀ db mj jdr_id element_id data t1 t2 db' el' bi board i el,
       board_by_jdr db jdr_id = Some (bi, board) →
       board_element_entry db board element_id = Some (i, el) →
       update_board_element db mj jdr_id element_id data t1 t2 = Ok (db', el') →
       board_elements db' !! i = Some el'
       ∧ (∀ k, BoardElement.position el' !! k =
               match eu_position data with
               | Some (Some p) => or_else (p !! k) (BoardElement.position el !! k)
               | _ => BoardElement.position el !! k
               end)
       ∧ (∀ k, BoardElement.content el' !! k =
               match eu_content data with
               | Some (Some p) => or_else (p !! k) (BoardElement.content el !! k)
               | _ => BoardElement.content el !! k
               end))
  ∧ (∀ db mj jdr_id element_id jdr bi board i el p1 p2 t1 t2 t3 t4,
       _check_is_mj db mj jdr_id = Ok jdr →
       board_by_jdr db jdr_id = Some (bi, board) →
       board_element_entry db board element_id = Some (i, el) →
       (∃ db1 el1 db2 el2,
          update_board_element db mj jdr_id element_id (position_patch p1) t1 t2
            = Ok (db1, el1)
          ∧ update_board_element db1 mj jdr_id element_id (position_patch p2) t3 t4
            = Ok (db2, el2)
          ∧ board_elements db2 !! i = Some el2
          ∧ BoardElement.content el2 = BoardElement.content el
          ∧ ∀ k, BoardElement.position el2 !! k
                 = or_else (p2 !! k) (or_else (p1 !! k) (BoardElement.position el !! k)))
       ∧ (∃ db1 el1 db2 el2,
            update_board_element db mj jdr_id element_id (content_patch p1) t1 t2
              = Ok (db1, el1)
            ∧ update_board_element db1 mj jdr_id element_id (content_patch p2) t3 t4
              = Ok (db2, el2)
            ∧ board_elements db2 !! i = Some el2
            ∧ BoardElement.position el2 = BoardElement.position el
            ∧ ∀ k, BoardElement.content el2 !! k
                   = or_else (p2 !! k) (or_else (p1 !! k) (BoardElement.content el !! k)))).
Proof.
  split; [|split; [|split]].
  - intros db mj jdr_id data now db' b' i b p Hb Hp H.
    destruct (update_board_merges _ _ _ _ _ _ _ _ _ _ Hb Hp H) as [Hstored Hdims].
    split; [done|]. intros k. by rewrite Hdims, merged_lookup.
  - apply update_board_twice.
  - intros db mj jdr_id element_id data t1 t2 db' el' bi board i el Hb He H.
    destruct (update_board_element_merges _ _ _ _ _ _ _ _ _ _ _ _ _ Hb He H)
      as (Hstored & Hpos & Hcont).
    split; [done|]. split; intros k.
    + rewrite Hpos. destruct (eu_position data) as [[p|]|]; [apply merged_lookup|done..].
    + rewrite Hcont. destruct (eu_content data) as [[p|]|]; [apply merged_lookup|done..].
  - intros db mj jdr_id element_id jdr bi board i el p1 p2 t1 t2 t3 t4 Hmj Hb He.
    split.
    + by eapply update_board_element_twice_position.
    + by eapply update_board_element_twice_content.
Qed.

(** On the board of [play_db], whose dimensions hold a width: the MJ
    patches [{a: 1}] and then [{b: 2}]; both keys are present
    afterwards, and so is the width. *)
Lemma C5_merge_laws_witness :
  ∃ db1 b1 db2 b2,
    update_board play_db user1 1 (dimensions_patch {[ "a" := JInt 1 ]}) 10 = Ok (db1, b1)
    ∧ update_board db1 user1 1 (dimensions_patch {[ "b" := JInt 2 ]}) 20 = Ok (db2, b2)
    ∧ boards db2 !! 0%nat = Some b2
    ∧ Board.dimensions b2 !! "a" = Some (JInt 1)
    ∧ Board.dimensions b2 !! "b" = Some (JInt 2)
    ∧ Board.dimensions b2 !! "width" = Some (JInt 1920).
Proof.
  destruct C5_merge_laws as (_ & Hseq & _).
  destruct (Hseq play_db user1 1 (JDR.mk 1 1 (Some 1) "Dungeon" JDRStatus.open 1)
              0%nat play_board {[ "a" := JInt 1 ]} {[ "b" := JInt 2 ]} 10 20
              eq_refl eq_refl)
    as (db1 & b1 & db2 & b2 & H1 & H2 & Hstored & Hkeys).
  exists db1, b1, db2, b2.
  split; [exact H1|]. split; [exact H2|]. split; [exact Hstored|].
  rewrite !Hkeys. split; [reflexivity|]. split; reflexivity.
Defined.

(** ** The floor of a character's gold *)

Lemma digits2_pos_bounds m :
  2 ^ (Zpos (digits2_pos m) - 1) <= Zpos m < 2 ^ Zpos (digits2_pos m).
Proof.
  induction m as [p IH|p IH|]; simpl digits2_pos.
  - rewrite Pos2Z.inj_succ. replace (Z.succ (Zpos (digits2_pos p)) - 1)
      with (Z.succ (Zpos (digits2_pos p) - 1)) by lia.
    rewrite !Z.pow_succ_r by lia. lia.
  - rewrite Pos2Z.inj_succ. replace (Z.succ (Zpos (digits2_pos p)) - 1)
      with (Z.succ (Zpos (digits2_pos p) - 1)) by lia.
    rewrite !Z.pow_succ_r by lia. lia.
  - simpl. lia.
Qed.

Lemma bounded_canonical m e :
  bounded 53 1024 m e = true →
  -1074 <= e ∧ Zpos m < 2 ^ 53 ∧ (e = -1074 ∨ 2 ^ 52 <= Zpos m).
Proof.
  unfold bounded, canonical_mantissa, fexp, emin. intros [Hc _]%andb_prop.
  apply Z.eqb_eq in Hc.
  pose proof (digits2_pos_bounds m) as [Hlo Hhi].
  change (3 - 1024 - 53) with (-1074) in Hc.
  split; [lia|]. split.
  - eapply Z.lt_le_trans; [exact Hhi|]. apply Z.pow_le_mono_r; lia.
  - destruct (decide (e = -1074)) as [|Hne]; [by left|right].
    assert (Zpos (digits2_pos m) = 53) as Hd by lia.
    rewrite Hd in Hlo. exact Hlo.
Qed.

Lemma shl_align_value m e ez :
  ez <= e → Zpos (fst (shl_align m e ez)) = Zpos m * 2 ^ (e - ez).
Proof.
  intros Hle. unfold shl_align.
  destruct (ez - e) as [|d|d] eqn:Hd; simpl.
  - replace (e - ez) with 0 by lia. lia.
  - lia.
  - change (Pos.iter xO m d) with (shift_pos d m).
    rewrite shift_pos_correct. replace (e - ez) with (Zpos d) by lia.
    rewrite Z.mul_comm. reflexivity.
Qed.

Lemma canonical_lt mx ex my ey :
  bounded 53 1024 mx ex = true → bounded 53 1024 my ey = true →
  ex < ey ∨ (ex = ey ∧ Zpos mx < Zpos my) →
  Zpos (fst (shl_align mx ex (Z.min ex ey)))
  < Zpos (fst (shl_align my ey (Z.min ex ey))).
Proof.
  intros Hx Hy Hlt.
  rewrite !shl_align_value by lia.
  apply bounded_canonical in Hx as (Hex & Hmx & _).
  apply bounded_canonical in Hy as (Hey & _ & Hmy).
  destruct Hlt as [Hlt | [-> Hlt]].
  - rewrite Z.min_l by lia. replace (ex - ex) with 0 by lia.
    destruct Hmy as [->|Hmy]; [lia|].
    assert (2 ^ 1 <= 2 ^ (ey - ex)) by (apply Z.pow_le_mono_r; lia).
    change (2 ^ 1) with 2 in *. nia.
  - rewrite Z.min_id. replace (ey - ey) with 0 by lia. lia.
Qed.

Lemma binary_round_aux_negative mx ex lx :
  SFltb float_zero (binary_round_aux 53 1024 true mx ex lx) = false.
Proof.
  unfold binary_round_aux.
  destruct (shr_fexp 53 1024 mx ex lx) as [mrs' e'].
  destruct (shr_fexp 53 1024 _ e' loc_Exact) as [mrs'' e''].
  destruct (shr_m mrs''); [done| |done].
  by destruct (_ <=? _).
Qed.

Lemma binary_normalize_nonpositive z e :
  z <= 0 → SFltb float_zero (binary_normalize 53 1024 z e false) = false.
Proof.
  intros Hz. destruct z as [|p|p]; [done|lia|].
  unfold binary_normalize, binary_round.
  destruct (shl_align p e _) as [mz ez].
  apply binary_round_aux_negative.
Qed.

Lemma overdraw_sum gold amount :
  valid_binary 53 1024 gold = true → valid_binary 53 1024 amount = true →
  SFltb gold (SFopp amount) = true →
  SFltb float_zero (float_add gold amount) = false.
Proof.
  intros Hg Ha Hlt.
  destruct gold as [sg|sg| |sg mg eg], amount as [sa|sa| |sa ma ea];
    try done; try (by destruct sg, sa).
  simpl in Hg, Ha. unfold float_add, SFadd.
  apply binary_normalize_nonpositive.
  unfold SFltb, SFopp, SFcompare in Hlt.
  destruct sg, sa; simpl in *; try done; try lia.
  - (* both negative after negation: |gold| > |amount| *)
    assert (ea < eg ∨ (ea = eg ∧ Zpos ma < Zpos mg)) as Hcmp.
    { destruct (Z.compare_spec eg ea) as [->|?|?]; try done; [|by left].
      right. split; [done|].
      destruct (Pos.compare_cont Eq mg ma) eqn:Hc; try done.
      apply Pos.compare_gt_iff in Hc. lia. }
    pose proof (canonical_lt ma ea mg eg Ha Hg Hcmp) as H.
    rewrite (Z.min_comm eg ea). lia.
  - assert (eg < ea ∨ (eg = ea ∧ Zpos mg < Zpos ma)) as Hcmp.
    { destruct (Z.compare_spec eg ea) as [->|?|?]; try done; [|by left].
      right. split; [done|].
      by destruct (Pos.compare_cont Eq mg ma) eqn:Hc. }
    pose proof (canonical_lt mg eg ma ea Hg Ha Hcmp) as H. lia.
Qed.

Lemma py_max_zero_sign x :
  (py_max float_zero x = float_zero ∨ SFltb float_zero (py_max float_zero x) = true)
  ∧ SFltb (py_max float_zero x) float_zero = false
  ∧ py_max float_zero x ≠ S754_nan.
Proof.
  unfold py_max. destruct (SFltb float_zero x) eqn:Hx.
  - split; [by right|]. split; [|by destruct x].
    destruct x as [s|s| |s m e]; try done; by destruct s.
  - split; [by left|]. done.
Qed.

(** C10: a call of [update_character_gold] by the MJ on a character of
    the session succeeds and stores the character with gold
    [max(0.0, gold + amount)], computed on binary64 floats: when the
    sum [gold + amount] is greater than zero the new gold is that sum,
    and in every other case it is +0.0.  The new gold is +0.0 or
    greater than zero, hence never negative (and never NaN); and when
    the amount deducts more than the balance ([gold < -amount]), the
    new gold is exactly +0.0. *)
Theorem C10_gold_floor db mj jdr_id character_id amount jdr i c :
  _check_is_mj db mj jdr_id = Ok jdr →
  character_entry db jdr_id character_id = Some (i, c) →
  ∃ db' c',
    update_character_gold db mj jdr_id character_id amount = Ok (db', c')
    ∧ characters db' !! i = Some c'
    ∧ Character.id c' = Character.id c
    ∧ Character.gold c' = py_max float_zero (float_add (Character.gold c) amount)
    ∧ (Character.gold c' = float_zero ∨ SFltb float_zero (Character.gold c') = true)
    ∧ SFltb (Character.gold c') float_zero = false
    ∧ Character.gold c' ≠ S754_nan
    ∧ (float_valid (Character.gold c) → float_valid amount →
       SFltb (Character.gold c) (SFopp amount) = true →
       Character.gold c' = float_zero)
    ∧ (SFltb float_zero (float_add (Character.gold c) amount) = true →
       Character.gold c' = float_add (Character.gold c) amount)
    ∧ (SFltb float_zero (float_add (Character.gold c) amount) = false →
       Character.gold c' = float_zero).
Proof.
  intros Hmj Hc. unfold update_character_gold. rewrite Hmj. simpl. rewrite Hc.
  eexists _, _. split; [reflexivity|]. simpl.
  destruct (py_max_zero_sign (float_add (Character.gold c) amount)) as (H1 & H2 & H3).
  split; [|repeat split; try done].
  - apply list_lookup_insert_eq. apply list_find_Some in Hc as [Hc _].
    by eapply lookup_lt_Some.
  - intros Hg Ha Hlt. unfold py_max. by rewrite (overdraw_sum _ _ Hg Ha Hlt).
  - intros Hpos. unfold py_max. by rewrite Hpos.
  - intros Hneg. unfold py_max. by rewrite Hneg.
Qed.

(** The character of [play_db] owns 20 gold pieces: a deduction of
    9999 leaves exactly +0.0, a credit of 5 gives 25 and a deduction
    of 8 gives 12. *)
Lemma C10_gold_floor_witness :
  (∃ db' c',
     update_character_gold play_db user1 1 1 (float_of_Z (-9999)) = Ok (db', c')
     ∧ characters db' !! 0%nat = Some c'
     ∧ Character.gold c' = float_zero)
  ∧ (∃ db' c',
       update_character_gold play_db user1 1 1 (float_of_Z 5) = Ok (db', c')
       ∧ characters db' !! 0%nat = Some c'
       ∧ Character.gold c' = float_of_Z 25)
  ∧ (∃ db' c',
       update_character_gold play_db user1 1 1 (float_of_Z (-8)) = Ok (db', c')
       ∧ characters db' !! 0%nat = Some c'
       ∧ Character.gold c' = float_of_Z 12).
Proof.
  split; [|split].
  - destruct (C10_gold_floor play_db user1 1 1 (float_of_Z (-9999))
                (JDR.mk 1 1 (Some 1) "Dungeon" JDRStatus.open 1) 0%nat play_character
                eq_refl eq_refl)
      as (db' & c' & Hcall & Hstored & _ & _ & _ & _ & _ & Hfloor & _).
    exists db', c'. split; [exact Hcall|]. split; [exact Hstored|].
    apply Hfloor; reflexivity.
  - destruct (C10_gold_floor play_db user1 1 1 (float_of_Z 5)
                (JDR.mk 1 1 (Some 1) "Dungeon" JDRStatus.open 1) 0%nat play_character
                eq_refl eq_refl)
      as (db' & c' & Hcall & Hstored & _ & _ & _ & _ & _ & _ & Hkeep & _).
    exists db', c'. split; [exact Hcall|]. split; [exact Hstored|].
    rewrite Hkeep by reflexivity. reflexivity.
  - destruct (C10_gold_floor play_db user1 1 1 (float_of_Z (-8))
                (JDR.mk 1 1 (Some 1) "Dungeon" JDRStatus.open 1) 0%nat play_character
                eq_refl eq_refl)
      as (db' & c' & Hcall & Hstored & _ & _ & _ & _ & _ & _ & Hkeep & _).
    exists db', c'. split; [exact Hcall|]. split; [exact Hstored|].
    rewrite Hkeep by reflexivity. reflexivity.
Defined.

(** * Further properties of the services *)

(** ** Shared facts about tables *)

Lemma next_id_fresh (ids : list Z) x : x ∈ ids → x < next_id ids.
Proof.
  unfold next_id. induction ids as [|y ids IH]; intros Hx.
  - by apply elem_of_nil in Hx.
  - simpl. apply elem_of_cons in Hx as [->|Hx]; [lia|].
    specialize (IH Hx). lia.
Qed.

Lemma next_id_not_elem (ids : list Z) : next_id ids ∉ ids.
Proof. intros H. apply next_id_fresh in H. lia. Qed.

Lemma find_of_list_find {A} (P : A → Prop) `{∀ x, Decision (P x)} (l : list A) :
  List.find (fun x => bool_decide (P x)) l = snd <$> list_find P l.
Proof.
  induction l as [|a l IH]; simpl; [done|].
  case_bool_decide; rewrite decide_bool_decide.
  - by rewrite bool_decide_eq_true_2.
  - rewrite bool_decide_eq_false_2 by done. rewrite IH.
    by destruct (list_find P l) as [[? ?]|].
Qed.

Lemma filter_elem {A} (f : A → bool) (l : list A) x :
  x ∈ List.filter f l ↔ x ∈ l ∧ f x = true.
Proof. by rewrite !list_elem_of_In, filter_In. Qed.

Lemma filter_sublist {A} (f : A → bool) (l : list A) : sublist (List.filter f l) l.
Proof.
  induction l as [|a l IH]; simpl; [constructor|].
  destruct (f a); by constructor.
Qed.

Lemma NoDup_fmap_sublist {A B} (g : A → B) (l k : list A) :
  sublist l k → NoDup (g <$> k) → NoDup (g <$> l).
Proof. intros Hs Hk. eapply sublist_NoDup; [exact Hk|]. by apply fmap_sublist. Qed.

Lemma fmap_insert_same {A B} (g : A → B) (l : list A) i x x' :
  l !! i = Some x → g x' = g x → g <$> <[i := x']> l = g <$> l.
Proof.
  intros Hi Hg. rewrite list_fmap_insert, Hg.
  apply list_insert_id. by rewrite list_lookup_fmap, Hi.
Qed.

Lemma fmap_fmap_same {A B} (g : A → B) (h : A → A) (l : list A) :
  (∀ x, g (h x) = g x) → g <$> (h <$> l) = g <$> l.
Proof.
  intros Hgh. rewrite <- list_fmap_compose. apply list_fmap_ext.
  intros i x _. apply Hgh.
Qed.

Lemma NoDup_snoc_fresh {A} (l : list A) x : NoDup l → x ∉ l → NoDup (l ++ [x]).
Proof.
  intros Hl Hx. apply NoDup_app. split; [done|]. split.
  - intros y Hy ->%list_elem_of_singleton. done.
  - apply NoDup_singleton.
Qed.

(** ** Logout *)

Lemma revoke_token_Ok db tok now db' :
  revoke_token db tok now = Ok db' →
  ∃ i r, list_find (fun r => RefreshToken.token r = tok) (refresh_tokens db) = Some (i, r)
         ∧ RefreshToken.revoked r = false
         ∧ refresh_tokens db' = <[i := RefreshToken.revoke now r]> (refresh_tokens db).
Proof.
  unfold revoke_token. intros H.
  destruct (list_find _ (refresh_tokens db)) as [[i r]|] eqn:Hf; [|done].
  destruct (RefreshToken.revoked r) eqn:Hr; [done|].
  injection H as <-. by exists i, r.
Qed.

(** X1: once [revoke_token] has succeeded on a token, the token is
    dead: a second logout with it is refused with 400 "Token already
    revoked", so is a logout of all devices, and, the token column
    being unique, every later renewal of it is refused with 401,
    whatever calls of the service come in between (as long as the
    generator does not hand out the same string again). *)
Theorem X1_logout_is_final db tok now db' :
  revoke_token db tok now = Ok db' →
  (∀ now', revoke_token db' tok now'
           = Raise (HTTPException HTTP_400_BAD_REQUEST "Token already revoked"))
  ∧ (∀ chk now', revoke_all_user_tokens db' tok chk now'
                 = Raise (HTTPException HTTP_400_BAD_REQUEST "Token already revoked"))
  ∧ (NoDup (RefreshToken.token <$> refresh_tokens db) →
     ∀ calls clock nr na,
       Forall (fun c => generated_token c ≠ Some tok) calls →
       renew_token (foldl run_token_call db' calls) tok clock nr na
         = Raise (HTTPException HTTP_401_UNAUTHORIZED "Invalid refresh token")).
Proof.
  intros (i & r & Hfind & Hrev & Hrows)%revoke_token_Ok.
  assert (list_find (fun r => RefreshToken.token r = tok) (refresh_tokens db')
          = Some (i, RefreshToken.revoke now r)) as Hfind'.
  { rewrite Hrows. apply (list_find_insert_same _ _ _ r); [done|].
    simpl. by apply list_find_Some in Hfind as (_ & Ht & _). }
  split; [|split].
  - intros now'. unfold revoke_token. by rewrite Hfind'.
  - intros chk now'. unfold revoke_all_user_tokens.
    rewrite (find_of_list_find (fun r => RefreshToken.token r = tok)), Hfind'. done.
  - intros Hnd calls clock nr na Hgen.
    apply no_live_token_renew, no_live_token_trace; [done|].
    intros r' Hr' Ht. rewrite Hrows in Hr'.
    apply list_elem_of_lookup in Hr' as [j Hj].
    apply list_find_Some in Hfind as (Hi & Htok & _).
    destruct (decide (i = j)) as [->|Hne].
    + rewrite list_lookup_insert_eq in Hj by (by eapply lookup_lt_Some).
      by injection Hj as <-.
    + rewrite list_lookup_insert_ne in Hj by done.
      exfalso. apply Hne.
      eapply (NoDup_lookup _ _ _ tok Hnd); rewrite list_lookup_fmap.
      * by rewrite Hi; simpl; rewrite Htok.
      * by rewrite Hj; simpl; rewrite Ht.
Qed.

(** User 1 logs out with "tok-a": logging out again is refused, and so
    is a renewal after a new login. *)
Lemma X1_logout_is_final_witness :
  revoke_token
    (with_refresh_tokens session_db [RefreshToken.mk 1 "tok-a" 1 1000 true (Some 500)])
    "tok-a" 600
    = Raise (HTTPException HTTP_400_BAD_REQUEST "Token already revoked")
  ∧ renew_token
      (foldl run_token_call
         (with_refresh_tokens session_db
            [RefreshToken.mk 1 "tok-a" 1 1000 true (Some 500)])
         [Login "owner@x.com" true (mkLoginClock 501 501 501) "tok-c" "jwt-2"])
      "tok-a" (clock_at 502) "tok-d" "jwt-3"
    = Raise (HTTPException HTTP_401_UNAUTHORIZED "Invalid refresh token").
Proof.
  destruct (X1_logout_is_final session_db "tok-a" 500 _ eq_refl) as (H1 & _ & H3).
  split; [apply H1|].
  apply H3; [apply NoDup_singleton|].
  repeat constructor. simpl. discriminate.
Defined.

(** ** Logout of all devices *)

(** X2: a successful [revoke_all_user_tokens] leaves no unrevoked
    token of the owner of the presented token, leaves every row of the
    other users and every row that was already revoked as it was, and
    returns the number of rows of the owner that were unrevoked before
    (at least one: the presented one).  The token column being unique,
    none of the owner's tokens can be renewed afterwards. *)
Theorem X2_logout_all db tok chk now db' n :
  revoke_all_user_tokens db tok chk now = Ok (db', n) →
  ∃ presented,
    presented ∈ refresh_tokens db
    ∧ RefreshToken.token presented = tok
    ∧ RefreshToken.revoked presented = false
    ∧ (∀ r, r ∈ refresh_tokens db' →
            RefreshToken.user_id r = RefreshToken.user_id presented →
            RefreshToken.revoked r = true)
    ∧ (∀ i r, refresh_tokens db !! i = Some r →
              RefreshToken.user_id r ≠ RefreshToken.user_id presented
              ∨ RefreshToken.revoked r = true →
              refresh_tokens db' !! i = Some r)
    ∧ length (refresh_tokens db') = length (refresh_tokens db)
    ∧ n = length (List.filter
                    (fun r => bool_decide (RefreshToken.user_id r
                                           = RefreshToken.user_id presented)
                              && bool_decide (RefreshToken.revoked r = false))
                    (refresh_tokens db))
    ∧ (1 <= n)%nat
    ∧ (NoDup (RefreshToken.token <$> refresh_tokens db) →
       ∀ r clock nr na,
         r ∈ refresh_tokens db →
         RefreshToken.user_id r = RefreshToken.user_id presented →
         renew_token db' (RefreshToken.token r) clock nr na
           = Raise (HTTPException HTTP_401_UNAUTHORIZED "Invalid refresh token")).
Proof.
  unfold revoke_all_user_tokens. intros H.
  destruct (List.find _ (refresh_tokens db)) as [p|] eqn:Hfind; [|done].
  destruct (RefreshToken.revoked p) eqn:Hrev; [done|].
  destruct (_ <? _); [done|].
  injection H as <- <-.
  apply find_some in Hfind as [Hin Htok%bool_decide_eq_true_1].
  apply list_elem_of_In in Hin.
  set (sel := fun r : RefreshToken.t =>
                bool_decide (RefreshToken.user_id r = RefreshToken.user_id p)
                && bool_decide (RefreshToken.revoked r = false)).
  exists p. split; [done|]. split; [done|]. split; [done|]. simpl.
  assert (∀ r, r ∈ ((fun r => if sel r then RefreshToken.revoke now r else r)
                      <$> refresh_tokens db) →
               RefreshToken.user_id r = RefreshToken.user_id p →
               RefreshToken.revoked r = true) as Hall.
  { intros r (r0 & -> & Hr0)%list_elem_of_fmap_1 Hu.
    unfold sel in *. destruct (bool_decide (RefreshToken.user_id r0 = _)) eqn:Hb1; simpl in *.
    - destruct (RefreshToken.revoked r0) eqn:Hr; simpl in *; done.
    - destruct (RefreshToken.revoked r0); simpl in *;
        apply bool_decide_eq_false_1 in Hb1; done. }
  split; [exact Hall|]. split; [|split; [|split; [|split]]].
  - intros i r Hi Hr. rewrite list_lookup_fmap, Hi. simpl.
    unfold sel. destruct Hr as [Hne|Hr].
    + by rewrite bool_decide_eq_false_2.
    + rewrite Hr. by rewrite andb_false_r.
  - by rewrite length_fmap.
  - done.
  - assert (p ∈ List.filter sel (refresh_tokens db)) as Hp.
    { apply filter_elem. split; [done|]. unfold sel.
      by rewrite Hrev, bool_decide_eq_true_2. }
    destruct (List.filter sel (refresh_tokens db)); [by apply elem_of_nil in Hp|].
    simpl. lia.
  - intros Hnd r clock nr na Hr Hu. apply no_live_token_renew.
    intros r' Hr' Ht. simpl in Hr'. apply Hall; [done|].
    apply list_elem_of_fmap_1 in Hr' as (r0 & -> & Hr0).
    assert (r0 = r) as ->.
    { apply (NoDup_fmap_eq RefreshToken.token (refresh_tokens db)); try done.
      revert Ht. by destruct (_ && _). }
    by destruct (_ && _).
Qed.

(** User 1 logs out of all devices with "tok-a": two tokens are
    revoked, "tok-b" can no longer be renewed, and the token of user 2
    is untouched. *)
Lemma X2_logout_all_witness :
  ∃ db',
    revoke_all_user_tokens devices_db "tok-a" 100 200 = Ok (db', 2%nat)
    ∧ refresh_tokens db' !! 3%nat = Some (RefreshToken.mk 4 "tok-z" 2 1000 false None)
    ∧ renew_token db' "tok-b" (clock_at 300) "tok-n" "jwt"
      = Raise (HTTPException HTTP_401_UNAUTHORIZED "Invalid refresh token").
Proof.
  eexists. split; [reflexivity|].
  destruct (X2_logout_all devices_db "tok-a" 100 200 _ _ eq_refl)
    as (p & Hin & Htok & _ & _ & Hkeep & _ & _ & _ & Hdead).
  assert (RefreshToken.user_id p = 1) as Hp.
  { simpl in Hin. rewrite !elem_of_cons, elem_of_nil in Hin.
    destruct Hin as [-> | [-> | [-> | [-> | []]]]]; done. }
  split.
  - apply Hkeep; [done|]. left. rewrite Hp. discriminate.
  - assert (NoDup (RefreshToken.token <$> refresh_tokens devices_db)) as Hnd.
    { apply (bool_decide_unpack _). vm_compute. exact I. }
    apply (Hdead Hnd (RefreshToken.mk 2 "tok-b" 1 1000 false None)).
    + apply list_elem_of_further, list_elem_of_here.
    + by rewrite Hp.
Defined.

(** ** Login *)

(** What a successful [authenticate_user] went through. *)
Lemma authenticate_user_Ok db email ok clock nr na db' toks :
  authenticate_user db email ok clock nr na = (db', Ok toks) →
  ∃ user,
    List.find (fun u => bool_decide (User.email u = email)) (users db) = Some user
    ∧ User.is_active user = true
    ∧ ok = true
    ∧ existsb (fun r => bool_decide (RefreshToken.token r = nr))
        (_cleanup_expired_tokens (refresh_tokens db) (User.id user)
           (login_utcnow_cutoff clock) (login_utcnow_cleanup clock)) = false
    ∧ db' = with_refresh_tokens
              (with_refresh_tokens db
                 (_cleanup_expired_tokens (refresh_tokens db) (User.id user)
                    (login_utcnow_cutoff clock) (login_utcnow_cleanup clock)))
              (_cleanup_expired_tokens (refresh_tokens db) (User.id user)
                 (login_utcnow_cutoff clock) (login_utcnow_cleanup clock)
               ++ [RefreshToken.mk (next_id (RefreshToken.id <$> refresh_tokens db))
                     nr (User.id user)
                     (login_utcnow_expiry clock
                      + timedelta_days REFRESH_TOKEN_EXPIRE_DAYS)
                     false None])
    ∧ toks = mkTokens na nr "bearer".
Proof.
  unfold authenticate_user. intros H.
  destruct (List.find _ (users db)) as [user|]; [|done].
  destruct (User.is_active user) eqn:Hact; simpl in H; [|done].
  destruct ok; simpl in H; [|done].
  destruct (existsb _ _) eqn:Hdup; [done|].
  injection H as <- <-. by exists user.
Qed.

Lemma cleanup_keeps rows uid t1 t2 r :
  r ∈ rows →
  RefreshToken.user_id r ≠ uid ∨ live_token t1 t2 r →
  r ∈ _cleanup_expired_tokens rows uid t1 t2.
Proof.
  intros Hr Hlive. unfold _cleanup_expired_tokens. apply filter_elem.
  split; [done|]. unfold cleanup_selects. apply negb_true_iff.
  destruct Hlive as [Hne | (_ & Hexp & Hrev)].
  - by rewrite bool_decide_eq_false_2.
  - apply andb_false_iff. right. apply orb_false_iff. split; [lia|].
    destruct (RefreshToken.revoked_at r); [lia|done].
Qed.

(** X3: neither a login nor a renewal touches the other sessions.  A
    successful [authenticate_user] keeps, unchanged, every token row of
    the other users and every row of the same user that is live
    (unrevoked, unexpired at the time of the cleanup, and without an
    old revocation time); a successful
    [renew_token], on a table that respects its primary key, does the
    same for every row other than the presented one. *)
Theorem X3_other_tokens_survive :
  (∀ db email ok clock nr na db' toks r,
     authenticate_user db email ok clock nr na = (db', Ok toks) →
     r ∈ refresh_tokens db →
     live_token (login_utcnow_cutoff clock) (login_utcnow_cleanup clock) r
     ∨ (∀ u, u ∈ users db → User.email u = email →
             RefreshToken.user_id r ≠ User.id u) →
     r ∈ refresh_tokens db')
  ∧ (∀ db tok clock nr na db' toks r,
       NoDup (RefreshToken.id <$> refresh_tokens db) →
       renew_token db tok clock nr na = Ok (db', toks) →
       r ∈ refresh_tokens db →
       RefreshToken.token r ≠ tok →
       live_token (utcnow_cutoff clock) (utcnow_cleanup clock) r
       ∨ (∀ p, p ∈ refresh_tokens db → RefreshToken.token p = tok →
               RefreshToken.user_id r ≠ RefreshToken.user_id p) →
       r ∈ refresh_tokens db').
Proof.
  split.
  - intros db email ok clock nr na db' toks r Hlogin Hr Hkeep.
    apply authenticate_user_Ok in Hlogin as (user & Hfind & _ & _ & _ & -> & _).
    simpl. apply elem_of_app. left. apply cleanup_keeps; [done|].
    destruct Hkeep as [Hlive|Hother]; [by right|left].
    apply find_some in Hfind as [Hin He%bool_decide_eq_true_1].
    apply Hother; [by apply list_elem_of_In | done].
  - intros db tok clock nr na db' toks r Hids Hrenew Hr Htok Hkeep.
    apply renew_token_Ok in Hrenew
      as (token_db & user & Hin & Ht & _ & Huser & (_ & _ & Hrows) & _).
    rewrite Hrows. apply elem_of_app. left.
    apply (list_elem_of_fmap_2' _ _ r).
    + apply cleanup_keeps; [done|].
      destruct Hkeep as [Hlive|Hother]; [by right|left].
      rewrite Huser. by apply Hother.
    + rewrite bool_decide_eq_false_2; [done|].
      intros Hid. apply Htok. rewrite <- Ht. f_equal.
      by apply (NoDup_fmap_eq RefreshToken.id (refresh_tokens db)).
Qed.

(** In [devices_db], user 1 logs in from a third device at time 100
    and then renews "tok-a": the live token "tok-b" is still in the
    table, unchanged, after both calls. *)
Lemma X3_other_tokens_survive_witness :
  RefreshToken.mk 2 "tok-b" 1 1000 false None
    ∈ refresh_tokens
        (fst (authenticate_user devices_db "owner@x.com" true
                (mkLoginClock 100 100 100) "tok-n" "jwt"))
  ∧ ∃ db', renew_token devices_db "tok-a" (clock_at 100) "tok-m" "jwt"
             = Ok (db', mkTokens "jwt" "tok-m" "bearer")
           ∧ RefreshToken.mk 2 "tok-b" 1 1000 false None ∈ refresh_tokens db'.
Proof.
  destruct X3_other_tokens_survive as [Hlogin Hrenew].
  assert (RefreshToken.mk 2 "tok-b" 1 1000 false None ∈ refresh_tokens devices_db) as Hin.
  { apply list_elem_of_further, list_elem_of_here. }
  assert (live_token 100 100 (RefreshToken.mk 2 "tok-b" 1 1000 false None)) as Hlive.
  { repeat split; simpl; lia. }
  split.
  - refine (Hlogin devices_db "owner@x.com" true (mkLoginClock 100 100 100)
              "tok-n" "jwt" _ _ _ eq_refl Hin _). by left.
  - eexists. split; [reflexivity|].
    eapply (Hrenew devices_db "tok-a" (clock_at 100) "tok-m" "jwt").
    + apply (bool_decide_unpack _). vm_compute. exact I.
    + reflexivity.
    + exact Hin.
    + discriminate.
    + by left.
Defined.

Lemma find_snoc_last {A} (f : A → bool) (l : list A) x :
  (∀ y, y ∈ l → f y = false) → f x = true → List.find f (l ++ [x]) = Some x.
Proof.
  intros Hl Hx. induction l as [|a l IH]; simpl.
  - by rewrite Hx.
  - rewrite (Hl a) by apply list_elem_of_here.
    apply IH. intros y Hy. apply Hl. by apply list_elem_of_further.
Qed.

Lemma existsb_true_elem {A} (f : A → bool) (l : list A) x :
  x ∈ l → f x = true → existsb f l = true.
Proof.
  intros Hx Hf. apply existsb_exists. exists x.
  split; [by apply list_elem_of_In | done].
Qed.

Lemma existsb_false_all {A} (f : A → bool) (l : list A) :
  (∀ x, x ∈ l → f x = false) → existsb f l = false.
Proof.
  intros Hall. apply not_true_is_false. intros (x & Hx & Hf)%existsb_exists.
  apply list_elem_of_In in Hx. rewrite (Hall x Hx) in Hf. done.
Qed.

(** X4: the refresh token that a successful [authenticate_user]
    returns is accepted by [renew_token] as long as the clock has not
    passed its expiry (seven days after the login) and the generator
    returns a string that is not in the table: the renewal succeeds
    and returns the new token.  (The user table respects its primary
    key.) *)
Theorem X4_login_then_renew db email ok lclock nr na db1 toks clock nr' na' :
  NoDup (User.id <$> users db) →
  authenticate_user db email ok lclock nr na = (db1, Ok toks) →
  utcnow_expiry_check clock
    <= login_utcnow_expiry lclock + timedelta_days REFRESH_TOKEN_EXPIRE_DAYS →
  utcnow_cleanup clock
    <= login_utcnow_expiry lclock + timedelta_days REFRESH_TOKEN_EXPIRE_DAYS →
  nr' ∉ RefreshToken.token <$> refresh_tokens db1 →
  refresh_token toks = nr
  ∧ ∃ db2, renew_token db1 nr clock nr' na' = Ok (db2, mkTokens na' nr' "bearer")
           ∧ ∃ new, new ∈ refresh_tokens db2
                    ∧ RefreshToken.token new = nr'
                    ∧ RefreshToken.revoked new = false.
Proof.
  intros Hpk Hlogin Hcheck Hclean Hfresh.
  apply authenticate_user_Ok in Hlogin
    as (user & Hfind & Hact & -> & Hnodup & -> & ->).
  split; [done|].
  set (kept := _cleanup_expired_tokens (refresh_tokens db) (User.id user)
                 (login_utcnow_cutoff lclock) (login_utcnow_cleanup lclock)) in *.
  set (new := RefreshToken.mk (next_id (RefreshToken.id <$> refresh_tokens db)) nr
                (User.id user)
                (login_utcnow_expiry lclock + timedelta_days REFRESH_TOKEN_EXPIRE_DAYS)
                false None) in *.
  simpl in Hfresh.
  unfold renew_token. simpl.
  rewrite (find_snoc_last _ kept new); cycle 1.
  { intros y Hy. rewrite (existsb_false_elem _ _ _ Hnodup Hy). done. }
  { simpl. by rewrite bool_decide_eq_true_2. }
  replace (RefreshToken.expires_at new <? utcnow_expiry_check clock) with false
    by (symmetry; apply Z.ltb_ge; simpl; lia).
  apply find_some in Hfind as [Huin He].
  destruct (List.find (fun u => bool_decide (User.id u = RefreshToken.user_id new))
              (users db)) as [u'|] eqn:Hu'.
  2:{ exfalso. pose proof (find_none _ _ Hu' user Huin) as Hn. simpl in Hn.
      by rewrite bool_decide_eq_true_2 in Hn. }
  apply find_some in Hu' as [Hu'in Hid%bool_decide_eq_true_1]. simpl in Hid.
  assert (u' = user) as ->.
  { apply (NoDup_fmap_eq User.id (users db)); try done; by apply list_elem_of_In. }
  rewrite Hact. simpl.
  assert (new ∈ _cleanup_expired_tokens (kept ++ [new]) (User.id user)
                  (utcnow_cutoff clock) (utcnow_cleanup clock)) as Hnew.
  { apply cleanup_keeps.
    - apply elem_of_app. right. apply list_elem_of_here.
    - right. split; [done|]. split; [simpl; lia|done]. }
  rewrite (existsb_true_elem _ _ new Hnew) by (by apply bool_decide_eq_true_2).
  simpl.
  rewrite existsb_false_all; cycle 1.
  { intros r Hr%cleanup_subset. apply bool_decide_eq_false_2. intros Ht.
    apply Hfresh. rewrite <- Ht. by apply list_elem_of_fmap_2. }
  eexists. split; [reflexivity|]. simpl.
  eexists. split; [apply elem_of_app; right; apply list_elem_of_here|]. done.
Qed.

(** User 1 logs in at time 100 and renews the token at time 200. *)
Lemma X4_login_then_renew_witness :
  ∃ db2, renew_token
           (fst (authenticate_user session_db "owner@x.com" true
                   (mkLoginClock 100 100 100) "tok-n" "jwt-1"))
           "tok-n" (clock_at 200) "tok-m" "jwt-2"
         = Ok (db2, mkTokens "jwt-2" "tok-m" "bearer")
         ∧ ∃ new, new ∈ refresh_tokens db2
                  ∧ RefreshToken.token new = "tok-m"
                  ∧ RefreshToken.revoked new = false.
Proof.
  refine (proj2 (X4_login_then_renew session_db "owner@x.com" true
                   (mkLoginClock 100 100 100) "tok-n" "jwt-1" _ _
                   (clock_at 200) "tok-m" "jwt-2" _ eq_refl _ _ _)).
  - apply NoDup_singleton.
  - vm_compute. discriminate.
  - vm_compute. discriminate.
  - simpl. rewrite !elem_of_cons, elem_of_nil. intros [? | [? | []]]; discriminate.
Defined.

(** ** The constraints of the token table *)

Lemma cleanup_sublist rows uid t1 t2 :
  sublist (_cleanup_expired_tokens rows uid t1 t2) rows.
Proof. apply filter_sublist. Qed.

Lemma token_table_ok_snoc rows kept (new : RefreshToken.t) :
  sublist kept rows →
  NoDup (RefreshToken.id <$> rows) → NoDup (RefreshToken.token <$> rows) →
  RefreshToken.id new = next_id (RefreshToken.id <$> rows) →
  existsb (fun r => bool_decide (RefreshToken.token r = RefreshToken.token new)) kept = false →
  NoDup (RefreshToken.id <$> kept ++ [new])
  ∧ NoDup (RefreshToken.token <$> kept ++ [new]).
Proof.
  intros Hsub Hid Htok Hnew Hdup. rewrite !fmap_app. simpl. split.
  - apply NoDup_snoc_fresh; [by eapply NoDup_fmap_sublist|].
    rewrite Hnew. intros Hin. apply (next_id_not_elem (RefreshToken.id <$> rows)).
    eapply elem_of_submseteq; [exact Hin|].
    by apply sublist_submseteq, fmap_sublist.
  - apply NoDup_snoc_fresh; [by eapply NoDup_fmap_sublist|].
    intros (r & Ht & Hr)%list_elem_of_fmap.
    pose proof (existsb_false_elem _ _ _ Hdup Hr) as Hf. simpl in Hf.
    by rewrite bool_decide_eq_true_2 in Hf.
Qed.

Lemma token_table_ok_step db c :
  token_table_ok db → token_table_ok (run_token_call db c).
Proof.
  intros [Hid Htok]. destruct c; simpl.
  - (* login *)
    unfold authenticate_user.
    destruct (List.find _ (users db)) as [user|]; [|done].
    destruct (negb (User.is_active user)); [done|].
    destruct (negb password_ok); [done|].
    destruct (existsb _ _) eqn:Hdup; simpl.
    + split; simpl; (eapply NoDup_fmap_sublist; [apply cleanup_sublist | done]).
    + unfold token_table_ok. simpl.
      by apply (token_table_ok_snoc (refresh_tokens db)); [apply cleanup_sublist|..].
  - (* renew *)
    destruct (renew_token db refresh_token0 clock new_refresh new_access)
      as [[db' toks]|] eqn:Hrenew; [|done]. simpl.
    apply renew_token_Ok in Hrenew
      as (token_db & user & _ & _ & _ & _ & (_ & Hdup & Hrows) & _).
    unfold token_table_ok. rewrite Hrows, !fmap_app.
    rewrite !fmap_fmap_same by (intros x; by destruct (bool_decide _)).
    rewrite <- !fmap_app.
    by apply (token_table_ok_snoc (refresh_tokens db)); [apply cleanup_sublist|..].
  - (* logout *)
    destruct (revoke_token db refresh_token0 now) as [db'|] eqn:Hrev; [|done]. simpl.
    apply revoke_token_Ok in Hrev as (i & r & Hfind & _ & Hrows).
    apply list_find_Some in Hfind as (Hi & _ & _).
    unfold token_table_ok. rewrite Hrows.
    by rewrite !(fmap_insert_same _ _ _ r).
  - (* logout of all devices *)
    unfold revoke_all_user_tokens.
    destruct (List.find _ (refresh_tokens db)) as [token_db|]; [|done].
    destruct (RefreshToken.revoked token_db); [done|].
    destruct (_ <? _); [done|]. simpl.
    unfold token_table_ok. simpl.
    by rewrite !fmap_fmap_same by (intros x; by destruct (_ && _)).
Qed.

(** X5: the constraints of the token table ([id] primary key, [token]
    unique) hold after every sequence of logins, renewals and logouts,
    successful or refused, whatever the clock reads and whatever the
    generator returns.  A login or renewal whose generated token is
    already in the table is the one that raises instead of inserting. *)
Theorem X5_token_table_constraints db calls :
  token_table_ok db → token_table_ok (foldl run_token_call db calls).
Proof.
  revert db. induction calls as [|c calls IH]; intros db Hok; simpl; [done|].
  by apply IH, token_table_ok_step.
Qed.

(** In [devices_db]: a renewal, a login that generates a token already
    in the table, a logout and a logout of all devices. *)
Lemma X5_token_table_constraints_witness :
  token_table_ok
    (foldl run_token_call devices_db
       [ Renew "tok-a" (clock_at 100) "tok-m" "jwt";
         Login "owner@x.com" true (mkLoginClock 100 100 100) "tok-b" "jwt";
         Logout "tok-z" 120;
         LogoutAll "tok-m" 130 130 ]).
Proof.
  apply X5_token_table_constraints.
  split; apply (bool_decide_unpack _); vm_compute; exact I.
Defined.

(** ** Registration and global roles *)

Lemma find_snoc_fresh {A} (f : A → bool) (l : list A) x :
  List.find f l = None → f x = true → List.find f (l ++ [x]) = Some x.
Proof.
  intros Hnone Hx. apply find_snoc_last; [|done].
  intros y Hy. apply (find_none _ _ Hnone). by apply list_elem_of_In.
Qed.

(** X6: what [register_user] creates.  The new account always has the
    global role [user] (so it never passes [require_global_admin]), is
    active, carries the given address and a fresh id; the constraints
    of the user table are kept; the address cannot be registered a
    second time (400); and the account can log in at once: a login
    with the right password returns the generated tokens, provided the
    generated refresh token is not in the table. *)
Theorem X6_register_user db email password db' user :
  register_user db email password = Ok (db', user) →
  (User.global_role user = GlobalUserRole.user
   ∧ User.is_active user = true
   ∧ User.email user = email
   ∧ (User.id user ∉ User.id <$> users db)
   ∧ 8 <= Z.of_nat (String.length password))
  ∧ require_global_admin user
    = Raise (HTTPException HTTP_403_FORBIDDEN "Admin privileges required")
  ∧ (user_table_ok db → user_table_ok db')
  ∧ (∀ password',
       register_user db' email password'
       = Raise (HTTPException HTTP_400_BAD_REQUEST "Email already registered"))
  ∧ (∀ clock nr na,
       nr ∉ RefreshToken.token <$> refresh_tokens db →
       ∃ db'', authenticate_user db' email true clock nr na
               = (db'', Ok (mkTokens na nr "bearer"))).
Proof.
  unfold register_user. intros H.
  destruct (List.find _ (users db)) as [?|] eqn:Hfind; [done|].
  destruct (_ <? 8) eqn:Hlen; [done|]. injection H as <- <-.
  apply Z.ltb_ge in Hlen.
  assert (∀ u, u ∈ users db → User.email u ≠ email) as Hnew.
  { intros u Hu He. apply list_elem_of_In in Hu.
    pose proof (find_none _ _ Hfind u Hu) as Hn. simpl in Hn.
    by rewrite bool_decide_eq_true_2 in Hn. }
  split; [|split; [|split; [|split]]].
  - repeat split; try done. simpl. apply next_id_not_elem.
  - done.
  - intros [Hid Hem]. split; simpl; rewrite fmap_app; simpl.
    + apply NoDup_snoc_fresh; [done | apply next_id_not_elem].
    + apply NoDup_snoc_fresh; [done|].
      intros (u & He & Hu)%list_elem_of_fmap. by apply (Hnew u).
  - intros password'. simpl.
    rewrite (find_snoc_fresh _ _ _ Hfind) by (simpl; by apply bool_decide_eq_true_2).
    done.
  - intros clock nr na Hnr. unfold authenticate_user. simpl.
    rewrite (find_snoc_fresh _ _ _ Hfind) by (simpl; by apply bool_decide_eq_true_2).
    simpl. rewrite existsb_false_all; [by eexists|].
    intros r Hr%cleanup_subset. apply bool_decide_eq_false_2. intros Ht.
    apply Hnr. rewrite <- Ht. by apply list_elem_of_fmap_2.
Qed.

(** A second account beside user 1. *)
Lemma X6_register_user_witness :
  ∃ db'', authenticate_user
            (with_users session_db
               [user1; User.mk 2 "new@x.com" GlobalUserRole.user true])
            "new@x.com" true (mkLoginClock 100 100 100) "tok-n" "jwt"
          = (db'', Ok (mkTokens "jwt" "tok-n" "bearer")).
Proof.
  refine (proj2 (proj2 (proj2 (proj2
            (X6_register_user session_db "new@x.com" "longenough" _ _ eq_refl))))
            (mkLoginClock 100 100 100) "tok-n" "jwt" _).
  simpl. rewrite elem_of_cons, elem_of_nil. intros [? | []]. discriminate.
Defined.




(** ** Organizations and their members *)

Lemma result_bind_Ok {A B} (x : result A) (f : A → result B) b :
  x ≫= f = Ok b → ∃ a, x = Ok a ∧ f a = Ok b.
Proof. destruct x as [a|e]; [by exists a | done]. Qed.

Lemma get_organization_role_app ms ms' org :
  User.get_organization_role (ms ++ ms') org
  = match User.get_organization_role ms org with
    | Some r => Some r
    | None => User.get_organization_role ms' org
    end.
Proof.
  unfold User.get_organization_role.
  induction ms as [|m ms IH]; simpl; [done|].
  by destruct (_ && _).
Qed.

Lemma is_member_of_role ms org :
  User.is_member_of ms org = true ↔ is_Some (User.get_organization_role ms org).
Proof.
  unfold User.is_member_of, User.get_organization_role.
  rewrite fmap_is_Some, find_is_Some_iff, existsb_exists.
  by setoid_rewrite list_elem_of_In.
Qed.

Lemma user_organization_memberships_elem db user m :
  m ∈ user_organization_memberships db user
  ↔ m ∈ organization_memberships db ∧ OrganizationMembership.user_id m = User.id user.
Proof.
  unfold user_organization_memberships. rewrite filter_elem.
  by rewrite bool_decide_eq_true.
Qed.

Lemma RequireOrgRole_Ok min_role db org u :
  RequireOrgRole min_role db org u = Ok u
  ↔ User.has_permission_in_org (user_organization_memberships db u) org min_role = true.
Proof. unfold RequireOrgRole. by destruct (User.has_permission_in_org _ _ _). Qed.

Lemma RequireOrgMember_Ok db org u :
  RequireOrgMember db org u = Ok u
  ↔ User.is_member_of (user_organization_memberships db u) org = true.
Proof. unfold RequireOrgMember. by destruct (User.is_member_of _ _). Qed.

Lemma has_permission_is_Some ms org min_role :
  User.has_permission_in_org ms org min_role = true →
  is_Some (User.get_organization_role ms org).
Proof.
  unfold User.has_permission_in_org.
  by destruct (User.get_organization_role ms org).
Qed.

(** X8: after [create_organization] the creator passes every
    minimum-role check of the new organization, from [require_org_owner]
    down, and is its only member; the slug is taken, so a second
    organization cannot be created with it (400); the constraints of
    the organization table and the foreign key of the membership table
    are kept. *)
Theorem X8_creator_is_owner db user name slug description visibility join_mode now
    db' org :
  memberships_reference_organizations db →
  create_organization db user name slug description visibility join_mode now
    = Ok (db', org) →
  (∀ min_role, RequireOrgRole min_role db' (Organization.id org) user = Ok user)
  ∧ RequireOrgMember db' (Organization.id org) user = Ok user
  ∧ (∀ other, User.id other ≠ User.id user →
       RequireOrgMember db' (Organization.id org) other
       = Raise (HTTPException HTTP_403_FORBIDDEN
                  "You are not a member of this organization"))
  ∧ (∀ u n d v j t,
       create_organization db' u n slug d v j t
       = Raise (HTTPException HTTP_400_BAD_REQUEST "Organization slug already exists"))
  ∧ memberships_reference_organizations db'
  ∧ (organization_table_ok db → organization_table_ok db').
Proof.
  intros Hfk. unfold create_organization.
  destruct (List.find _ (organizations db)) as [?|] eqn:Hslug; [done|].
  intros H. injection H as <- <-. simpl.
  set (oid := next_id (Organization.id <$> organizations db)).
  set (new := OrganizationMembership.mk _ _ _ _ _ _ _).
  assert (∀ u, User.get_organization_role (user_organization_memberships db u) oid = None)
    as Hnone.
  { intros u. apply get_organization_role_None.
    intros m [Hm _]%user_organization_memberships_elem Ho _.
    apply (next_id_not_elem (Organization.id <$> organizations db)).
    fold oid. rewrite <- Ho. by apply Hfk. }
  assert (∀ u, user_organization_memberships
                 (with_organization_memberships
                    (with_organizations db (organizations db ++ [Organization.mk oid
                       name slug description visibility join_mode true now]))
                    (organization_memberships db ++ [new])) u
               = user_organization_memberships db u
                 ++ (if bool_decide (User.id user = User.id u) then [new] else []))
    as Hrows.
  { intros u. unfold user_organization_memberships. simpl.
    rewrite List.filter_app. simpl. by destruct (bool_decide _). }
  assert (User.get_organization_role
            (user_organization_memberships
               (with_organization_memberships
                  (with_organizations db (organizations db ++ [Organization.mk oid
                     name slug description visibility join_mode true now]))
                  (organization_memberships db ++ [new])) user) oid
          = Some OrganizationRoleType.owner) as Hrole.
  { rewrite Hrows, get_organization_role_app, Hnone.
    rewrite bool_decide_eq_true_2 by done.
    unfold User.get_organization_role. simpl.
    by rewrite bool_decide_eq_true_2. }
  split; [|split; [|split; [|split; [|split]]]].
  - intros min_role. apply RequireOrgRole_Ok.
    rewrite (has_permission_in_org_rank _ _ _ _ Hrole).
    apply bool_decide_eq_true_2. destruct min_role; simpl; lia.
  - apply RequireOrgMember_Ok, is_member_of_role. by rewrite Hrole.
  - intros other Hne. unfold RequireOrgMember.
    destruct (User.is_member_of _ _) eqn:Hmem; [|done].
    apply is_member_of_role in Hmem.
    rewrite Hrows, get_organization_role_app, Hnone in Hmem.
    rewrite bool_decide_eq_false_2 in Hmem by done. by destruct Hmem.
  - intros u n d v j t. unfold create_organization. simpl.
    rewrite (find_snoc_fresh _ _ _ Hslug) by (simpl; by apply bool_decide_eq_true_2).
    done.
  - intros m. simpl. rewrite fmap_app, !elem_of_app. intros [Hm|Hm].
    + left. by apply Hfk.
    + right. apply list_elem_of_singleton in Hm as ->. simpl. apply list_elem_of_here.
  - intros [Hid Hsl]. split; simpl; rewrite fmap_app; simpl.
    + apply NoDup_snoc_fresh; [done | apply next_id_not_elem].
    + apply NoDup_snoc_fresh; [done|].
      intros (o & Ho & Hin)%list_elem_of_fmap. apply list_elem_of_In in Hin.
      pose proof (find_none _ _ Hslug o Hin) as Hn. simpl in Hn.
      by rewrite bool_decide_eq_true_2 in Hn.
Qed.

(** User 3 founds a second organization beside the guild. *)
Lemma X8_creator_is_owner_witness :
    RequireOrgRole OrganizationRoleType.owner
      (with_organization_memberships
         (with_organizations guild_db
            (organizations guild_db
             ++ [Organization.mk 2 "Club" "club" None OrganizationVisibility.public
                   OrganizationJoinMode.open true 7]))
         (organization_memberships guild_db
          ++ [OrganizationMembership.mk 4 3 2 OrganizationRoleType.owner
                MembershipStatus.active None None]))
      2 user3
    = Ok user3.
Proof.
  refine (proj1 (X8_creator_is_owner guild_db user3 "Club" "club" None
                   OrganizationVisibility.public OrganizationJoinMode.open 7
                   _ _ _ eq_refl) OrganizationRoleType.owner).
  intros m Hm. simpl in Hm. rewrite !elem_of_cons, elem_of_nil in Hm.
  destruct Hm as [-> | [-> | [-> | []]]]; apply list_elem_of_here.
Defined.

Lemma NoDup_fmap_insert {A B} (g : A → B) (l : list A) i x :
  NoDup (g <$> l) →
  (∀ j y, j ≠ i → l !! j = Some y → g y ≠ g x) →
  NoDup (g <$> <[i := x]> l).
Proof.
  intros Hnd Hother. apply NoDup_alt. intros j k b Hj Hk.
  rewrite list_lookup_fmap in Hj, Hk.
  destruct (decide (i < length l)%nat) as [Hlt|Hge].
  2:{ rewrite list_insert_ge in Hj, Hk by lia.
      eapply NoDup_lookup; [exact Hnd| |]; by rewrite list_lookup_fmap. }
  destruct (decide (j = i)) as [->|Hji], (decide (k = i)) as [->|Hki]; [done|..].
  - rewrite list_lookup_insert_eq in Hj by done.
    rewrite list_lookup_insert_ne in Hk by done.
    destruct (l !! k) as [y|] eqn:Hy; [|done]. simpl in Hj, Hk.
    exfalso. apply (Hother k y); [done|done|congruence].
  - rewrite list_lookup_insert_eq in Hk by done.
    rewrite list_lookup_insert_ne in Hj by done.
    destruct (l !! j) as [y|] eqn:Hy; [|done]. simpl in Hj, Hk.
    exfalso. apply (Hother j y); [done|done|congruence].
  - rewrite list_lookup_insert_ne in Hj, Hk by done.
    eapply NoDup_lookup; [exact Hnd| |]; by rewrite list_lookup_fmap.
Qed.

Lemma patch_required_Ok {A} (field : option (option A)) old v :
  patch_required field old = Ok v →
  (field = None ∧ v = old) ∨ field = Some (Some v).
Proof. destruct field as [[a|]|]; simpl; intros H; simplify_eq; auto. Qed.

(** X9: a successful [update_organization] was asked by a member with
    at least the role admin, changes the row of that organization
    only, never its id nor any membership, and keeps the constraints
    of the organization table: a slug held by another organization is
    refused before the commit. *)
Theorem X9_update_organization db user organization_id data now db' org' :
  organization_table_ok db →
  update_organization db user organization_id data now = Ok (db', org') →
  RequireOrgRole OrganizationRoleType.admin db organization_id user = Ok user
  ∧ Organization.id org' = organization_id
  ∧ org' ∈ organizations db'
  ∧ organization_table_ok db'
  ∧ Organization.id <$> organizations db' = Organization.id <$> organizations db
  ∧ (∀ o, o ∈ organizations db → Organization.id o ≠ organization_id →
          o ∈ organizations db')
  ∧ organization_memberships db' = organization_memberships db.
Proof.
  intros [Hid Hsl]. unfold update_organization.
  destruct (User.has_permission_in_org _ _ _) eqn:Hperm; [|done]. simpl.
  destruct (list_find _ (organizations db)) as [[i org]|] eqn:Hf; [|done].
  apply list_find_Some in Hf as (Hi & Ho & _).
  intros (_u & Hcheck & H)%result_bind_Ok.
  apply result_bind_Ok in H as (name & Hname & H).
  apply result_bind_Ok in H as (slug & Hslug & H).
  apply result_bind_Ok in H as (visibility & _ & H).
  apply result_bind_Ok in H as (join_mode & _ & H).
  apply result_bind_Ok in H as (is_active & _ & H).
  injection H as <- <-. simpl.
  assert (i < length (organizations db))%nat as Hlt by (by eapply lookup_lt_Some).
  split; [by apply RequireOrgRole_Ok|]. split; [done|].
  split; [eapply list_elem_of_lookup_2; by apply list_lookup_insert_eq|].
  split; [split|split; [|split; [|done]]]; simpl.
  - by rewrite (fmap_insert_same _ _ _ org).
  - apply NoDup_fmap_insert; [done|]. simpl. intros j y Hji Hy Heq.
    assert (Organization.id y ≠ organization_id) as Hyid.
    { intros Hyid. apply Hji. eapply NoDup_lookup; [exact Hid| |].
      - by rewrite list_lookup_fmap, Hy.
      - rewrite list_lookup_fmap, Hi. simpl. congruence. }
    apply patch_required_Ok in Hslug as [[_ ->] | Hgiven].
    + apply Hji. eapply NoDup_lookup; [exact Hsl| |].
      * by rewrite list_lookup_fmap, Hy.
      * rewrite list_lookup_fmap, Hi. simpl. congruence.
    + rewrite Hgiven in Hcheck.
      destruct (decide (slug = Organization.slug org)) as [->|Hne].
      * apply Hji. eapply NoDup_lookup; [exact Hsl| |].
        -- by rewrite list_lookup_fmap, Hy.
        -- rewrite list_lookup_fmap, Hi. simpl. congruence.
      * rewrite (bool_decide_eq_false_2 (slug = _)) in Hcheck by done.
        simpl in Hcheck. case_bool_decide as Hsome; [done|].
        apply Hsome, find_is_Some_iff. exists y.
        split; [by eapply list_elem_of_lookup_2|].
        rewrite bool_decide_eq_true_2 by done.
        by rewrite bool_decide_eq_false_2.
  - by rewrite (fmap_insert_same _ _ _ org).
  - intros o Hin Hne. apply list_elem_of_lookup in Hin as [j Hj].
    apply list_elem_of_lookup. exists j.
    rewrite list_lookup_insert_ne; [done|]. intros ->. congruence.
Qed.

(** The admin of the guild renames it and changes its slug. *)
Lemma X9_update_organization_witness :
  organization_table_ok
    (with_organizations guild_db
       [Organization.mk 1 "Order" "order" None OrganizationVisibility.public
          OrganizationJoinMode.approval true 9]).
Proof.
  refine (proj1 (proj2 (proj2 (proj2
            (X9_update_organization guild_db user2 1
               (mkOrganizationUpdate (Some (Some "Order")) (Some (Some "order"))
                  None None None None) 9 _ _ _ eq_refl))))).
  split; apply NoDup_singleton.
Defined.

Lemma insert_snoc {A} (l : list A) x y : <[length l := y]> (l ++ [x]) = l ++ [y].
Proof. induction l as [|a l IH]; simpl; [done | by rewrite IH]. Qed.

Lemma user_organization_memberships_snoc db ms m u :
  user_organization_memberships
    (with_organization_memberships db (ms ++ [m])) u
  = user_organization_memberships (with_organization_memberships db ms) u
    ++ (if bool_decide (OrganizationMembership.user_id m = User.id u) then [m] else []).
Proof.
  unfold user_organization_memberships. simpl. rewrite List.filter_app. simpl.
  by destruct (bool_decide _).
Qed.

Lemma with_organization_memberships_id db :
  with_organization_memberships db (organization_memberships db) = db.
Proof. by destruct db. Qed.

(** What a successful [join_organization] went through. *)
Lemma join_organization_Ok db user organization_id message db' m :
  join_organization db user organization_id message = Ok (db', m) →
  ∃ org,
    org ∈ organizations db
    ∧ Organization.id org = organization_id
    ∧ Organization.is_active org = true
    ∧ (Organization.join_mode org = OrganizationJoinMode.open
       ∨ Organization.join_mode org = OrganizationJoinMode.approval)
    ∧ (∀ r, r ∈ organization_memberships db →
            OrganizationMembership.user_id r = User.id user →
            OrganizationMembership.organization_id r = organization_id →
            OrganizationMembership.status r ≠ MembershipStatus.active
            ∧ OrganizationMembership.status r ≠ MembershipStatus.pending)
    ∧ m = OrganizationMembership.mk
            (next_id (OrganizationMembership.id <$> organization_memberships db))
            (User.id user) organization_id OrganizationRoleType.member
            (if bool_decide (Organization.join_mode org = OrganizationJoinMode.open)
             then MembershipStatus.active else MembershipStatus.pending)
            None None
    ∧ db' = with_organization_memberships db (organization_memberships db ++ [m]).
Proof.
  unfold join_organization. intros H.
  destruct (List.find _ (organizations db)) as [org|] eqn:Horg; [|done].
  destruct (negb (Organization.is_active org)) eqn:Hact; [done|].
  destruct (List.find _ (organization_memberships db)) as [?|] eqn:Hex; [done|].
  case_bool_decide as Hclosed; [done|].
  case_bool_decide as Hinvite; [done|].
  injection H as <- <-.
  apply find_some in Horg as [Hin Hid%bool_decide_eq_true_1].
  exists org. split; [by apply list_elem_of_In|]. split; [done|].
  split; [by apply negb_false_iff|].
  split; [destruct (Organization.join_mode org); auto; done|].
  split; [|done].
  intros r Hr Hu Ho. apply list_elem_of_In in Hr.
  pose proof (find_none _ _ Hex r Hr) as Hn. simpl in Hn.
  rewrite !bool_decide_eq_true_2 in Hn by done. simpl in Hn.
  apply bool_decide_eq_false_1 in Hn. rewrite !elem_of_cons in Hn. tauto.
Qed.

Lemma join_organization_no_role db user organization_id :
  (∀ r, r ∈ organization_memberships db →
        OrganizationMembership.user_id r = User.id user →
        OrganizationMembership.organization_id r = organization_id →
        OrganizationMembership.status r ≠ MembershipStatus.active
        ∧ OrganizationMembership.status r ≠ MembershipStatus.pending) →
  User.get_organization_role (user_organization_memberships db user) organization_id
  = None.
Proof.
  intros Hno. apply get_organization_role_None.
  intros r [Hr Hu]%user_organization_memberships_elem Ho.
  by apply Hno.
Qed.

(** X10: what [join_organization] grants.  The new membership is the
    requester's, in the organization asked for, with the role member;
    it is active exactly when the organization is open and pending
    when it asks for approval.  So after the call the requester's role
    in the organization is member in an open organization and none in
    the other case, no check above member is passed, and the
    memberships of the other users are untouched.  A second request is
    refused with 400. *)
Theorem X10_join_organization db user organization_id message db' m :
  join_organization db user organization_id message = Ok (db', m) →
  (OrganizationMembership.role m = OrganizationRoleType.member
   ∧ OrganizationMembership.user_id m = User.id user
   ∧ OrganizationMembership.organization_id m = organization_id)
  ∧ (∃ org, org ∈ organizations db
            ∧ Organization.id org = organization_id
            ∧ Organization.is_active org = true
            ∧ (Organization.join_mode org = OrganizationJoinMode.open
               ∧ OrganizationMembership.status m = MembershipStatus.active
               ∨ Organization.join_mode org = OrganizationJoinMode.approval
                 ∧ OrganizationMembership.status m = MembershipStatus.pending))
  ∧ User.get_organization_role (user_organization_memberships db user) organization_id
    = None
  ∧ User.get_organization_role (user_organization_memberships db' user) organization_id
    = (if bool_decide (OrganizationMembership.status m = MembershipStatus.active)
       then Some OrganizationRoleType.member else None)
  ∧ (∀ min_role,
       RequireOrgRole min_role db' organization_id user = Ok user →
       OrganizationMembership.status m = MembershipStatus.active
       ∧ spec_rank min_role <= spec_rank OrganizationRoleType.member)
  ∧ (∀ other, User.id other ≠ User.id user →
       user_organization_memberships db' other = user_organization_memberships db other)
  ∧ (∀ message',
       join_organization db' user organization_id message'
       = Raise (HTTPException HTTP_400_BAD_REQUEST
                  "Already a member or pending approval")).
Proof.
  intros Hjoin. pose proof Hjoin as Hjoin'.
  apply join_organization_Ok in Hjoin
    as (org & Horg & Hoid & Hact & Hmode & Hno & Hm & ->).
  pose proof (join_organization_no_role _ _ _ Hno) as Hnone.
  assert (OrganizationMembership.role m = OrganizationRoleType.member
          ∧ OrganizationMembership.user_id m = User.id user
          ∧ OrganizationMembership.organization_id m = organization_id)
    as (Hmr & Hmu & Hmo) by (by rewrite Hm).
  assert (User.get_organization_role
            (user_organization_memberships
               (with_organization_memberships db (organization_memberships db ++ [m]))
               user) organization_id
          = if bool_decide (OrganizationMembership.status m = MembershipStatus.active)
            then Some OrganizationRoleType.member else None) as Hrole.
  { rewrite user_organization_memberships_snoc, with_organization_memberships_id.
    rewrite get_organization_role_app, Hnone.
    rewrite bool_decide_eq_true_2 by done.
    unfold User.get_organization_role. simpl.
    rewrite (bool_decide_eq_true_2 _ Hmo). simpl.
    destruct (bool_decide (_ = MembershipStatus.active)); simpl; [by rewrite Hmr|done]. }
  split; [done|]. split; [|split; [done|split; [done|split; [|split]]]].
  - exists org. split; [done|]. split; [done|]. split; [done|].
    rewrite Hm. simpl. destruct Hmode as [Hmode|Hmode]; rewrite Hmode; [by left|by right].
  - intros min_role Hreq%RequireOrgRole_Ok.
    case_bool_decide as Hst.
    + rewrite (has_permission_in_org_rank _ _ _ _ Hrole) in Hreq.
      apply bool_decide_eq_true_1 in Hreq. split; [done|lia].
    + unfold User.has_permission_in_org in Hreq. by rewrite Hrole in Hreq.
  - intros other Hne.
    rewrite user_organization_memberships_snoc, with_organization_memberships_id.
    rewrite bool_decide_eq_false_2; [by rewrite app_nil_r|]. congruence.
  - intros message'. unfold join_organization. simpl.
    apply list_elem_of_In in Horg.
    destruct (List.find _ (organizations db)) as [org'|] eqn:Hf.
    2:{ pose proof (find_none _ _ Hf org Horg) as Hn. simpl in Hn.
        by rewrite bool_decide_eq_true_2 in Hn. }
    unfold join_organization in Hjoin'. rewrite Hf in Hjoin'.
    destruct (negb (Organization.is_active org')); [done|].
    destruct (List.find _ (organization_memberships db ++ [m])) as [?|] eqn:Hex; [done|].
    exfalso. assert (In m (organization_memberships db ++ [m])) as Hin.
    { apply in_or_app. right. by left. }
    pose proof (find_none _ _ Hex m Hin) as Hn. simpl in Hn.
    rewrite (bool_decide_eq_true_2 _ Hmu), (bool_decide_eq_true_2 _ Hmo) in Hn.
    simpl in Hn. apply bool_decide_eq_false_1 in Hn. apply Hn.
    rewrite Hm. simpl.
    destruct (bool_decide (Organization.join_mode org = _));
      rewrite !elem_of_cons; tauto.
Qed.

(** User 4 asks to join the guild, which approves its members. *)
Lemma X10_join_organization_witness :
  User.get_organization_role
    (user_organization_memberships
       (with_organization_memberships guild_db
          (organization_memberships guild_db
           ++ [member_row 4 4 OrganizationRoleType.member MembershipStatus.pending]))
       user4) 1
  = None.
Proof.
  exact (proj1 (proj2 (proj2 (proj2
           (X10_join_organization guild_db user4 1 None _ _ eq_refl))))).
Defined.

(** X11: the approval flow.  After a request to join an organization
    that approves its members, the requester is not a member; any user
    with at least the role admin in the organization can approve the
    request; after the approval the requester is a member with the
    role member, and the request cannot be approved a second time
    (404). *)
Theorem X11_approval_flow db user organization_id message db1 m approver now :
  join_organization db user organization_id message = Ok (db1, m) →
  OrganizationMembership.status m = MembershipStatus.pending →
  RequireOrgRole OrganizationRoleType.admin db organization_id approver = Ok approver →
  RequireOrgMember db1 organization_id user
  = Raise (HTTPException HTTP_403_FORBIDDEN "You are not a member of this organization")
  ∧ ∃ db2 m',
      approve_membership db1 approver organization_id (OrganizationMembership.id m) now
      = Ok (db2, m')
      ∧ m' = OrganizationMembership.approve (User.id approver) now m
      ∧ RequireOrgMember db2 organization_id user = Ok user
      ∧ User.get_organization_role (user_organization_memberships db2 user)
          organization_id = Some OrganizationRoleType.member
      ∧ ∀ now',
          approve_membership db2 approver organization_id
            (OrganizationMembership.id m) now'
          = Raise (HTTPException HTTP_404_NOT_FOUND "Pending membership not found").
Proof.
  intros Hjoin Hpending Happrover%RequireOrgRole_Ok.
  apply join_organization_Ok in Hjoin
    as (org & Horg & Hoid & Hact & Hmode & Hno & Hm & ->).
  pose proof (join_organization_no_role _ _ _ Hno) as Hnone.
  assert (OrganizationMembership.role m = OrganizationRoleType.member
          ∧ OrganizationMembership.user_id m = User.id user
          ∧ OrganizationMembership.organization_id m = organization_id
          ∧ OrganizationMembership.id m
            = next_id (OrganizationMembership.id <$> organization_memberships db))
    as (Hmr & Hmu & Hmo & Hmid) by (by rewrite Hm).
  clear Hm.
  set (ms := organization_memberships db) in *.
  (* the approver is another user, whose rows do not change *)
  assert (User.id approver ≠ User.id user) as Hother.
  { intros Heq. apply has_permission_is_Some in Happrover as [r Hr].
    assert (user_organization_memberships db approver
            = user_organization_memberships db user) as Hsame.
    { unfold user_organization_memberships. by rewrite Heq. }
    rewrite Hsame in Hr. congruence. }
  assert (∀ x, OrganizationMembership.user_id x = User.id user →
               user_organization_memberships
                 (with_organization_memberships db (ms ++ [x])) approver
               = user_organization_memberships db approver) as Hrows.
  { intros x Hx. rewrite user_organization_memberships_snoc,
      with_organization_memberships_id.
    rewrite bool_decide_eq_false_2; [by rewrite app_nil_r | congruence]. }
  assert (∀ x, OrganizationMembership.id x = OrganizationMembership.id m →
               x ∉ ms) as Hfresh.
  { intros x Hx Hin. apply (next_id_not_elem (OrganizationMembership.id <$> ms)).
    rewrite <- Hmid, <- Hx. by apply list_elem_of_fmap_2. }
  split.
  - unfold RequireOrgMember.
    destruct (User.is_member_of _ _) eqn:Hmem; [|done].
    apply is_member_of_role in Hmem.
    rewrite user_organization_memberships_snoc, with_organization_memberships_id,
      get_organization_role_app, Hnone in Hmem.
    rewrite bool_decide_eq_true_2 in Hmem by done.
    unfold User.get_organization_role in Hmem. simpl in Hmem.
    rewrite Hpending in Hmem. rewrite andb_false_r in Hmem. by destruct Hmem.
  - unfold approve_membership at 1. rewrite (Hrows m Hmu), Happrover. simpl.
    assert (list_find
              (fun x => OrganizationMembership.id x = OrganizationMembership.id m
                        ∧ OrganizationMembership.organization_id x = organization_id
                        ∧ OrganizationMembership.status x = MembershipStatus.pending)
              (ms ++ [m]) = Some (length ms, m)) as Hfind.
    { apply list_find_Some. split; [|split; [done|]].
      - rewrite lookup_app_r by lia. by rewrite Nat.sub_diag.
      - intros j y Hj Hlt [Hy _]. rewrite lookup_app_l in Hj by done.
        apply (Hfresh y Hy). by eapply list_elem_of_lookup_2. }
    rewrite Hfind. eexists _, _. split; [reflexivity|]. split; [done|].
    simpl. rewrite insert_snoc.
    set (m' := OrganizationMembership.approve (User.id approver) now m).
    assert (User.get_organization_role
              (user_organization_memberships
                 (with_organization_memberships
                    (with_organization_memberships db (ms ++ [m])) (ms ++ [m'])) user)
              organization_id = Some OrganizationRoleType.member) as Hrole.
    { pose proof (user_organization_memberships_snoc
                    (with_organization_memberships db (ms ++ [m])) ms m' user) as Hs.
      simpl in Hs. unfold user_organization_memberships in *. simpl in *.
      rewrite Hs. fold (user_organization_memberships db user).
      rewrite get_organization_role_app. fold ms.
      unfold user_organization_memberships in Hnone. fold ms in Hnone. rewrite Hnone.
      rewrite bool_decide_eq_true_2 by done.
      unfold User.get_organization_role. simpl.
      rewrite bool_decide_eq_true_2 by done. simpl. by rewrite Hmr. }
    split; [|split; [done|]].
    + apply RequireOrgMember_Ok, is_member_of_role. by rewrite Hrole.
    + intros now'. unfold approve_membership.
      assert (user_organization_memberships
                (with_organization_memberships
                   (with_organization_memberships db (ms ++ [m])) (ms ++ [m'])) approver
              = user_organization_memberships db approver) as Hrows'.
      { unfold user_organization_memberships. simpl. rewrite List.filter_app. simpl.
        rewrite bool_decide_eq_false_2 by congruence. by rewrite app_nil_r. }
      rewrite Hrows', Happrover. simpl.
      destruct (list_find _ (ms ++ [m'])) as [[j y]|] eqn:Hf; [|done].
      exfalso. apply list_find_Some in Hf as (Hj & (Hy & _ & Hst) & _).
      apply lookup_app_Some in Hj as [Hj | [_ Hj]].
      * apply (Hfresh y Hy). by eapply list_elem_of_lookup_2.
      * apply list_lookup_singleton_Some in Hj as [_ <-]. done.
Qed.

(** User 4 asks to join the guild and its admin, user 2, approves. *)
Lemma X11_approval_flow_witness :
  ∃ db2 m',
    approve_membership
      (with_organization_memberships guild_db
         (organization_memberships guild_db
          ++ [member_row 4 4 OrganizationRoleType.member MembershipStatus.pending]))
      user2 1 4 50
    = Ok (db2, m')
    ∧ m' = OrganizationMembership.mk 4 4 1 OrganizationRoleType.member
             MembershipStatus.active (Some 2) (Some 50)
    ∧ RequireOrgMember db2 1 user4 = Ok user4.
Proof.
  destruct (X11_approval_flow guild_db user4 1 None _ _ user2 50
              eq_refl eq_refl eq_refl)
    as (_ & db2 & m' & Happrove & Hm' & Hmember & _).
  by exists db2, m'.
Defined.

Lemma has_permission_in_org_true ms org min_role :
  User.has_permission_in_org ms org min_role = true
  ↔ ∃ a, User.get_organization_role ms org = Some a
         ∧ spec_rank min_role <= spec_rank a.
Proof.
  split.
  - intros H. destruct (has_permission_is_Some _ _ _ H) as [a Ha].
    rewrite (has_permission_in_org_rank _ _ _ _ Ha) in H.
    apply bool_decide_eq_true_1 in H. exists a. split; [done|lia].
  - intros (a & Ha & Hle). rewrite (has_permission_in_org_rank _ _ _ _ Ha).
    apply bool_decide_eq_true_2. lia.
Qed.

Lemma RequireOrgMember_check db organization_id u :
  RequireOrgMember db organization_id u = Ok u
  ↔ ∃ m, _check_org_membership db (User.id u) organization_id = Ok m.
Proof.
  rewrite <- _check_org_membership_Ok, RequireOrgMember_Ok.
  unfold User.is_member_of, active_org_member. rewrite existsb_exists.
  split.
  - intros (m & Hin & Hm). apply list_elem_of_In in Hin.
    apply user_organization_memberships_elem in Hin as [Hin Hu].
    apply andb_prop in Hm as [Ho%bool_decide_eq_true_1 Hs%bool_decide_eq_true_1].
    by exists m.
  - intros (m & Hin & Hu & Ho & Hs). exists m. split.
    + apply list_elem_of_In. by apply user_organization_memberships_elem.
    + by rewrite !bool_decide_eq_true_2.
Qed.

(** X12: the membership checks agree.  [RequireOrgMember] accepts a
    user exactly when [_check_org_membership] of the session service
    does, and exactly when [RequireOrgRole] for the role guest does;
    a user who passes [RequireOrgRole] for a role passes it for every
    lower role, so the dependencies [require_org_owner],
    [require_org_admin], [require_org_mj] and [require_org_member]
    form a chain. *)
Theorem X12_membership_checks_agree db organization_id u :
  (RequireOrgMember db organization_id u = Ok u
   ↔ ∃ m, _check_org_membership db (User.id u) organization_id = Ok m)
  ∧ (RequireOrgMember db organization_id u = Ok u
     ↔ RequireOrgRole OrganizationRoleType.guest db organization_id u = Ok u)
  ∧ (∀ r r', spec_rank r' <= spec_rank r →
             RequireOrgRole r db organization_id u = Ok u →
             RequireOrgRole r' db organization_id u = Ok u)
  ∧ (require_org_owner db organization_id u = Ok u →
     require_org_admin db organization_id u = Ok u)
  ∧ (require_org_admin db organization_id u = Ok u →
     require_org_mj db organization_id u = Ok u)
  ∧ (require_org_mj db organization_id u = Ok u →
     require_org_member db organization_id u = Ok u).
Proof.
  assert (∀ r r', spec_rank r' <= spec_rank r →
                  RequireOrgRole r db organization_id u = Ok u →
                  RequireOrgRole r' db organization_id u = Ok u) as Hmono.
  { intros r r' Hle. rewrite !RequireOrgRole_Ok, !has_permission_in_org_true.
    intros (a & Ha & Hra). exists a. split; [done|lia]. }
  assert (RequireOrgMember db organization_id u = Ok u
          ↔ RequireOrgRole OrganizationRoleType.guest db organization_id u = Ok u)
    as Hguest.
  { rewrite RequireOrgMember_Ok, RequireOrgRole_Ok, is_member_of_role,
      has_permission_in_org_true.
    split.
    - intros [a Ha]. exists a. split; [done|]. destruct a; simpl; lia.
    - intros (a & Ha & _). by exists a. }
  split; [|split; [done|split; [done|split; [|split]]]].
  - apply RequireOrgMember_check.
  - apply Hmono. simpl. lia.
  - apply Hmono. simpl. lia.
  - intros H. apply Hguest. revert H. apply Hmono. simpl. lia.
Qed.

Lemma find_filter {A} (f g : A → bool) (l : list A) :
  List.find f (List.filter g l) = List.find (fun x => g x && f x) l.
Proof.
  induction l as [|a l IH]; simpl; [done|].
  destruct (g a); simpl; [by destruct (f a) | done].
Qed.

Lemma existsb_filter {A} (f g : A → bool) (l : list A) :
  existsb f (List.filter g l) = existsb (fun x => g x && f x) l.
Proof.
  induction l as [|a l IH]; simpl; [done|].
  destruct (g a); simpl; by rewrite IH.
Qed.

Lemma find_insert_irrelevant {A} (p : A → bool) (l : list A) i x x' :
  l !! i = Some x → p x = false → p x' = false →
  List.find p (<[i := x']> l) = List.find p l.
Proof.
  revert i. induction l as [|a l IH]; intros [|i] Hi Hx Hx'; simpl in *; try done.
  - injection Hi as ->. by rewrite Hx, Hx'.
  - destruct (p a); [done|]. by apply IH.
Qed.

Lemma existsb_insert_same {A} (p : A → bool) (l : list A) i x x' :
  l !! i = Some x → p x' = p x →
  existsb p (<[i := x']> l) = existsb p l.
Proof.
  revert i. induction l as [|a l IH]; intros [|i] Hi Hx; simpl in *; try done.
  - injection Hi as ->. by rewrite Hx.
  - f_equal. by apply IH.
Qed.

(** X13: [update_member_role] writes one column of one row.  The
    membership it returns is the target's, in the organization, with
    the new role; ids, users, organizations and statuses of the
    membership table are unchanged, so nobody enters or leaves an
    organization; and the role of every other pair of user and
    organization is what it was. *)
Theorem X13_update_member_role_frame db requester organization_id target_user_id
    new_role db' m' :
  update_member_role db requester organization_id target_user_id new_role
    = Ok (db', m') →
  (OrganizationMembership.role m' = new_role
   ∧ OrganizationMembership.user_id m' = target_user_id
   ∧ OrganizationMembership.organization_id m' = organization_id
   ∧ m' ∈ organization_memberships db')
  ∧ (OrganizationMembership.id <$> organization_memberships db'
     = OrganizationMembership.id <$> organization_memberships db
     ∧ OrganizationMembership.user_id <$> organization_memberships db'
       = OrganizationMembership.user_id <$> organization_memberships db
     ∧ OrganizationMembership.organization_id <$> organization_memberships db'
       = OrganizationMembership.organization_id <$> organization_memberships db
     ∧ OrganizationMembership.status <$> organization_memberships db'
       = OrganizationMembership.status <$> organization_memberships db)
  ∧ (∀ u org,
       User.is_member_of (user_organization_memberships db' u) org
       = User.is_member_of (user_organization_memberships db u) org)
  ∧ (∀ u org,
       User.id u ≠ target_user_id ∨ org ≠ organization_id →
       User.get_organization_role (user_organization_memberships db' u) org
       = User.get_organization_role (user_organization_memberships db u) org)
  ∧ organizations db' = organizations db.
Proof.
  unfold update_member_role.
  destruct (negb _); [done|].
  destruct (target_membership db organization_id target_user_id)
    as [[i m]|] eqn:Ht; [|done].
  destruct (bool_decide (OrganizationMembership.role m = _)); [done|].
  intros H. injection H as <- <-.
  apply list_find_Some in Ht as (Hi & [Hu Ho] & _).
  assert (i < length (organization_memberships db))%nat as Hlt
    by (by eapply lookup_lt_Some).
  split; [|split; [|split; [|split; [|done]]]]; simpl.
  - repeat split; try done.
    eapply list_elem_of_lookup_2. by apply list_lookup_insert_eq.
  - by rewrite !(fmap_insert_same _ _ _ m).
  - intros u org. unfold User.is_member_of, user_organization_memberships. simpl.
    rewrite !existsb_filter. by apply (existsb_insert_same _ _ _ m).
  - intros u org Hne.
    unfold User.get_organization_role, user_organization_memberships. simpl.
    rewrite !find_filter. f_equal.
    assert (bool_decide (OrganizationMembership.user_id m = User.id u)
            && (bool_decide (OrganizationMembership.organization_id m = org)
                && bool_decide (OrganizationMembership.status m = MembershipStatus.active))
            = false) as Hm.
    { destruct Hne as [Hne|Hne].
      - rewrite (bool_decide_eq_false_2 (_ = User.id u)); [done|congruence].
      - rewrite (bool_decide_eq_false_2 (_ = org)); [|congruence].
        by rewrite andb_false_r. }
    by apply (find_insert_irrelevant _ _ _ m).
Qed.

(** The admin of the guild makes user 3 a game master. *)
Lemma X13_update_member_role_frame_witness :
  User.get_organization_role
    (user_organization_memberships
       (with_organization_memberships guild_db
          [ member_row 1 1 OrganizationRoleType.owner MembershipStatus.active;
            member_row 2 2 OrganizationRoleType.admin MembershipStatus.active;
            member_row 3 3 OrganizationRoleType.mj MembershipStatus.active ]) user2) 1
  = User.get_organization_role (user_organization_memberships guild_db user2) 1.
Proof.
  refine (proj1 (proj2 (proj2 (proj2
            (X13_update_member_role_frame guild_db user2 1 3 OrganizationRoleType.mj
               _ _ eq_refl)))) user2 1 _).
  left. discriminate.
Defined.

(** ** Sessions *)

Lemma list_find_snoc_fresh {A} (P : A → Prop) `{∀ x, Decision (P x)} (l : list A) x :
  (∀ y, y ∈ l → ¬ P y) → P x → list_find P (l ++ [x]) = Some (length l, x).
Proof.
  intros Hl Hx. apply list_find_Some. split; [|split; [done|]].
  - rewrite lookup_app_r by lia. by rewrite Nat.sub_diag.
  - intros j y Hj Hlt. rewrite lookup_app_l in Hj by done.
    apply Hl. by eapply list_elem_of_lookup_2.
Qed.

Lemma fresh_key_not_in {A} (key : A → Z) (l : list A) y :
  y ∈ l → key y ≠ next_id (key <$> l).
Proof.
  intros Hy Heq. apply (next_id_not_elem (key <$> l)).
  rewrite <- Heq. by apply list_elem_of_fmap_2.
Qed.

Lemma filter_nil_all {A} (f : A → bool) (l : list A) :
  (∀ x, x ∈ l → f x = false) → List.filter f l = [].
Proof.
  induction l as [|a l IH]; intros Hall; simpl; [done|].
  rewrite (Hall a) by apply list_elem_of_here.
  apply IH. intros x Hx. apply Hall. by apply list_elem_of_further.
Qed.

Lemma default_dimensions_valid :
  validate_dimensions (Some default_dimensions) = Valid (Some default_dimensions)
  ∧ dom default_dimensions = allowed_keys.
Proof. split; [by vm_compute|]. unfold default_dimensions, allowed_keys. set_solver. Qed.

(** What [create_jdr] returns to a member of the organization. *)
Lemma create_jdr_Ok db user organization_id data now :
  RequireOrgMember db organization_id user = Ok user →
  create_jdr db user organization_id data now
  = let jdr :=
      JDR.mk (next_id (JDR.id <$> jdrs db)) organization_id (Some (User.id user))
        (jc_name data) JDRStatus.draft (jc_max_players data) in
    let board :=
      Board.mk (next_id (Board.id <$> boards db)) (JDR.id jdr) "Board principal" None
        default_dimensions now in
    Ok (with_boards (with_jdrs db (jdrs db ++ [jdr])) (boards db ++ [board]), jdr).
Proof.
  intros [m Hm]%RequireOrgMember_check. unfold create_jdr. by rewrite Hm.
Qed.

(** X14: any member of the organization can open a session, whatever
    the member's role.  [create_jdr] then returns a session in the
    state draft whose MJ is the creator, together with a board: the MJ
    reads it at once, it is empty, and its dimensions are the defaults,
    which carry exactly the keys the validator of [BoardUpdate] allows
    and pass its range checks.  The session is listed by
    [get_organization_jdrs], among sessions of the organization only.
    A draft accepts no player.  The foreign keys of the session tables
    are kept. *)
Theorem X14_create_jdr db user organization_id data now :
  session_foreign_keys db →
  RequireOrgMember db organization_id user = Ok user →
  ∃ db' jdr board,
    create_jdr db user organization_id data now = Ok (db', jdr)
    ∧ (JDR.status jdr = JDRStatus.draft
       ∧ JDR.organization_id jdr = organization_id
       ∧ JDR.name jdr = jc_name data
       ∧ JDR.max_players jdr = jc_max_players data)
    ∧ _check_is_mj db' user (JDR.id jdr) = Ok jdr
    ∧ get_board db' user (JDR.id jdr) = Ok (board, [])
    ∧ Board.dimensions board = default_dimensions
    ∧ dom (Board.dimensions board) = allowed_keys
    ∧ validate_dimensions (Some (Board.dimensions board))
      = Valid (Some (Board.dimensions board))
    ∧ (∃ l, get_organization_jdrs db' user organization_id = Ok l
            ∧ jdr ∈ l
            ∧ ∀ j, j ∈ l → JDR.organization_id j = organization_id)
    ∧ (∀ u message,
         join_jdr db' u (JDR.id jdr) message
         = Raise (HTTPException 400 "This JDR is not accepting new players"))
    ∧ session_foreign_keys db'.
Proof.
  intros (Hfb & Hfe & Hfm) Hmember.
  rewrite (create_jdr_Ok _ _ _ _ _ Hmember). simpl.
  set (jid := next_id (JDR.id <$> jdrs db)).
  set (jdr := JDR.mk jid organization_id (Some (User.id user)) (jc_name data)
                JDRStatus.draft (jc_max_players data)).
  set (board := Board.mk (next_id (Board.id <$> boards db)) jid "Board principal" None
                  default_dimensions now).
  set (db' := with_boards (with_jdrs db (jdrs db ++ [jdr])) (boards db ++ [board])).
  assert (jdr_by_id db' jid = Some jdr) as Hjdr.
  { unfold jdr_by_id. simpl. apply find_snoc_last.
    - intros y Hy. apply bool_decide_eq_false_2. by apply fresh_key_not_in.
    - by apply bool_decide_eq_true_2. }
  assert (board_by_jdr db' jid = Some (length (boards db), board)) as Hboard.
  { unfold board_by_jdr. simpl. apply list_find_snoc_fresh; [|done].
    intros b Hb Hbj. apply (next_id_not_elem (JDR.id <$> jdrs db)).
    fold jid. rewrite <- Hbj. by apply Hfb. }
  assert (board_elements_of db' board = []) as Hels.
  { unfold board_elements_of. simpl. apply filter_nil_all.
    intros el Hel. apply bool_decide_eq_false_2. intros Heq.
    apply (next_id_not_elem (Board.id <$> boards db)).
    rewrite <- Heq. by apply Hfe. }
  exists db', jdr, board. split; [done|]. split; [done|].
  change (JDR.id jdr) with jid.
  split; [|split; [|split; [done|split; [|split; [|split; [|split]]]]]].
  - unfold _check_is_mj. rewrite Hjdr. simpl. by rewrite bool_decide_eq_true_2.
  - unfold get_board. rewrite Hjdr. simpl.
    rewrite bool_decide_eq_true_2 by done. simpl.
    by rewrite Hboard, Hels.
  - apply default_dimensions_valid.
  - apply default_dimensions_valid.
  - destruct (proj1 (RequireOrgMember_check _ _ _) Hmember) as [om Hom].
    unfold get_organization_jdrs.
    change (_check_org_membership db' (User.id user) organization_id)
      with (_check_org_membership db (User.id user) organization_id).
    rewrite Hom. simpl. eexists. split; [reflexivity|]. split.
    + apply filter_elem. split; [|by apply bool_decide_eq_true_2].
      apply elem_of_app. right. apply list_elem_of_here.
    + intros j [_ Hj]%filter_elem. by apply bool_decide_eq_true_1 in Hj.
  - intros u message. unfold join_jdr. by rewrite Hjdr.
  - split; [|split]; simpl.
    + intros b. rewrite fmap_app, !elem_of_app. intros [Hb|Hb].
      * left. by apply Hfb.
      * right. apply list_elem_of_singleton in Hb as ->. apply list_elem_of_here.
    + intros el Hel. rewrite fmap_app, elem_of_app. left. by apply Hfe.
    + intros m Hm. rewrite fmap_app, elem_of_app. left. by apply Hfm.
Qed.

(** User 3, a plain member of the guild, opens a campaign. *)
Lemma X14_create_jdr_witness :
  ∃ db' jdr board,
    create_jdr table_db user3 1 new_campaign 5 = Ok (db', jdr)
    ∧ _check_is_mj db' user3 (JDR.id jdr) = Ok jdr
    ∧ get_board db' user3 (JDR.id jdr) = Ok (board, [])
    ∧ require_org_mj table_db 1 user3
      = Raise (HTTPException HTTP_403_FORBIDDEN
                 "Requires at least mj role in this organization").
Proof.
  destruct (X14_create_jdr table_db user3 1 new_campaign 5)
    as (db' & jdr & board & Hcreate & _ & Hmj & Hboard & _).
  - split; [|split]; intros x Hx; simpl in Hx; by apply elem_of_nil in Hx.
  - reflexivity.
  - exists db', jdr, board. repeat split; try done.
Defined.

Lemma _check_is_mj_Ok db user jdr_id jdr :
  _check_is_mj db user jdr_id = Ok jdr
  ↔ jdr_by_id db jdr_id = Some jdr ∧ JDR.mj_id jdr = Some (User.id user).
Proof.
  unfold _check_is_mj. destruct (jdr_by_id db jdr_id) as [j|].
  - case_bool_decide as Hj; simpl.
    + split; [by intros [= ->] | by intros [[= ->] _]].
    + split; [done | intros [[= ->] Hmj]; by destruct Hj].
  - split; [done | by intros [? _]].
Qed.

Lemma jdr_by_id_list_find db jdr_id :
  jdr_by_id db jdr_id = snd <$> list_find (fun j => JDR.id j = jdr_id) (jdrs db).
Proof. apply (find_of_list_find (fun j => JDR.id j = jdr_id)). Qed.

Lemma jdr_by_id_id db jdr_id jdr : jdr_by_id db jdr_id = Some jdr → JDR.id jdr = jdr_id.
Proof.
  unfold jdr_by_id. intros [_ H]%find_some. by apply bool_decide_eq_true_1 in H.
Qed.

(** What a successful [update_jdr] wrote. *)
Lemma update_jdr_Ok db user jdr_id data db' jdr' :
  update_jdr db user jdr_id data = Ok (db', jdr') →
  ∃ i jdr,
    _check_is_mj db user jdr_id = Ok jdr
    ∧ list_find (fun j => JDR.id j = jdr_id) (jdrs db) = Some (i, jdr)
    ∧ JDR.id jdr' = JDR.id jdr
    ∧ JDR.organization_id jdr' = JDR.organization_id jdr
    ∧ JDR.mj_id jdr' = JDR.mj_id jdr
    ∧ patch_required (ju_name data) (JDR.name jdr) = Ok (JDR.name jdr')
    ∧ patch_required (ju_status data) (JDR.status jdr) = Ok (JDR.status jdr')
    ∧ patch_required (ju_max_players data) (JDR.max_players jdr)
      = Ok (JDR.max_players jdr')
    ∧ db' = with_jdrs db (<[i := jdr']> (jdrs db)).
Proof.
  unfold update_jdr. intros (jdr & Hmj & H)%result_bind_Ok.
  apply result_bind_Ok in H as (name & Hname & H).
  apply result_bind_Ok in H as (st & Hst & H).
  apply result_bind_Ok in H as (mp & Hmp & H).
  apply result_bind_Ok in H as (? & _ & H).
  destruct (list_find _ (jdrs db)) as [[i j]|] eqn:Hf; [|done].
  injection H as <- <-.
  destruct (proj1 (_check_is_mj_Ok _ _ _ _) Hmj) as [Hby _].
  rewrite jdr_by_id_list_find, Hf in Hby. injection Hby as ->.
  by exists i, jdr.
Qed.

(** X15: [update_jdr] is the MJ's alone (403 for every other user),
    and it never moves a session: the id, the organization and the MJ
    of the session are what they were, so the MJ keeps the session
    after every update; the name, the status and the capacity are the
    given values where the patch gives one and the former ones where
    it gives none; the other sessions, the boards and the memberships
    are untouched.  The status is a plain column: the MJ can set any
    status from any status.  The update succeeds whenever the patch
    gives no null to the name, the status, the capacity and the
    publicity, whatever it gives the settings, a null included. *)
Theorem X15_update_jdr db user jdr_id jdr :
  _check_is_mj db user jdr_id = Ok jdr →
  (∀ s, ∃ db' jdr',
          update_jdr db user jdr_id (status_patch s) = Ok (db', jdr')
          ∧ JDR.status jdr' = s
          ∧ JDR.name jdr' = JDR.name jdr
          ∧ JDR.max_players jdr' = JDR.max_players jdr)
  ∧ (∀ data db' jdr',
       update_jdr db user jdr_id data = Ok (db', jdr') →
       JDR.id jdr' = jdr_id
       ∧ JDR.organization_id jdr' = JDR.organization_id jdr
       ∧ JDR.mj_id jdr' = Some (User.id user)
       ∧ _check_is_mj db' user jdr_id = Ok jdr'
       ∧ JDR.id <$> jdrs db' = JDR.id <$> jdrs db
       ∧ (∀ j, j ∈ jdrs db → JDR.id j ≠ jdr_id → j ∈ jdrs db')
       ∧ boards db' = boards db
       ∧ jdr_memberships db' = jdr_memberships db
       ∧ patched (ju_name data) (JDR.name jdr) (JDR.name jdr')
       ∧ patched (ju_status data) (JDR.status jdr) (JDR.status jdr')
       ∧ patched (ju_max_players data) (JDR.max_players jdr) (JDR.max_players jdr'))
  ∧ (∀ other data,
       User.id other ≠ User.id user →
       update_jdr db other jdr_id data
       = Raise (HTTPException HTTP_403_FORBIDDEN "Only the MJ can perform this action"))
  ∧ (∀ data,
       ju_name data ≠ Some None → ju_status data ≠ Some None →
       ju_max_players data ≠ Some None → ju_is_public data ≠ Some None →
       ∃ db' jdr', update_jdr db user jdr_id data = Ok (db', jdr')).
Proof.
  intros Hmj. destruct (proj1 (_check_is_mj_Ok _ _ _ _) Hmj) as [Hby Hmjid].
  assert (∀ A (field : option (option A)) old,
            field ≠ Some None → ∃ v, patch_required field old = Ok v) as Hpatch.
  { intros A [[v|]|] old Hne; simpl; [by exists v | done | by exists old]. }
  assert (∀ A (field : option (option A)) old v,
            patch_required field old = Ok v → patched field old v) as Hpatched.
  { intros A [[w|]|] old v; simpl; [by intros [= ->] | done | by intros [= ->]]. }
  split; [|split; [|split]].
  - intros s. unfold update_jdr. rewrite Hmj. simpl.
    pose proof Hby as Hby'. rewrite jdr_by_id_list_find in Hby'.
    destruct (list_find _ (jdrs db)) as [[i j]|]; [|done].
    by eexists _, _.
  - intros data db' jdr'
      (i & jdr0 & Hmj0 & Hf & Hid & Horg & Hm & Hname & Hstatus & Hmax & ->)%update_jdr_Ok.
    assert (jdr0 = jdr) as -> by congruence.
    destruct (proj1 (list_find_Some _ _ _ _) Hf) as (Hi & Hjid & _).
    split; [congruence|]. split; [done|]. split; [congruence|].
    split; [|split; [|split; [|split; [done|split; [done|]]]]]; simpl.
    + apply _check_is_mj_Ok. split; [|congruence].
      rewrite jdr_by_id_list_find. simpl.
      rewrite (list_find_insert_same _ _ _ jdr jdr'); [done|done|congruence].
    + by rewrite (fmap_insert_same _ _ _ jdr).
    + intros j Hin Hne. apply list_elem_of_lookup in Hin as [k Hk].
      apply list_elem_of_lookup. exists k.
      rewrite list_lookup_insert_ne; [done|]. intros ->. congruence.
    + split; [by apply Hpatched|]. split; by apply Hpatched.
  - intros other data Hne. unfold update_jdr, _check_is_mj. rewrite Hby. simpl.
    rewrite bool_decide_eq_false_2; [done|]. rewrite Hmjid. congruence.
  - intros data Hn Hs Hm Hp. unfold update_jdr. rewrite Hmj. simpl.
    destruct (Hpatch _ (ju_name data) (JDR.name jdr) Hn) as [name ->].
    destruct (Hpatch _ (ju_status data) (JDR.status jdr) Hs) as [st ->].
    destruct (Hpatch _ (ju_max_players data) (JDR.max_players jdr) Hm) as [mp ->].
    destruct (Hpatch _ (ju_is_public data) true Hp) as [pub ->]. simpl.
    pose proof Hby as Hby'. rewrite jdr_by_id_list_find in Hby'.
    destruct (list_find _ (jdrs db)) as [[i j]|]; [|done].
    by eexists _, _.
Qed.

(** The MJ of the open session of [table_db] sets it back to draft;
    a patch that renames the session and gives a null to its settings
    is accepted too. *)
Lemma X15_update_jdr_witness :
  (∃ db' jdr',
     update_jdr table_db user1 1 (status_patch JDRStatus.draft) = Ok (db', jdr')
     ∧ JDR.status jdr' = JDRStatus.draft
     ∧ JDR.name jdr' = "Dungeon"
     ∧ JDR.max_players jdr' = 1)
  ∧ ∃ db' jdr',
      update_jdr table_db user1 1
        (mkJDRUpdate (Some (Some "Crypt")) None None None (Some None))
      = Ok (db', jdr')
      ∧ JDR.name jdr' = "Crypt"
      ∧ JDR.status jdr' = JDRStatus.open.
Proof.
  destruct (X15_update_jdr table_db user1 1 _ eq_refl)
    as (Hstatus & Hframe & _ & Hsucceeds).
  split; [exact (Hstatus JDRStatus.draft)|].
  destruct (Hsucceeds (mkJDRUpdate (Some (Some "Crypt")) None None None (Some None)))
    as (db' & jdr' & Hcall); [done..|].
  exists db', jdr'. split; [exact Hcall|].
  destruct (Hframe _ _ _ Hcall) as (_ & _ & _ & _ & _ & _ & _ & _ & Hn & Hs & _).
  by split.
Defined.

(** What a successful [join_jdr] went through. *)
Lemma join_jdr_Ok db user jdr_id join_message db' m :
  join_jdr db user jdr_id join_message = Ok (db', m) →
  ∃ jdr,
    jdr_by_id db jdr_id = Some jdr
    ∧ accepting jdr
    ∧ (∃ om, _check_org_membership db (User.id user) (JDR.organization_id jdr) = Ok om)
    ∧ (∀ r, r ∈ jdr_memberships db →
            JDRMembership.user_id r = User.id user →
            JDRMembership.jdr_id r = jdr_id →
            JDRMembership.status r ≠ MembershipJDRStatus.active
            ∧ JDRMembership.status r ≠ MembershipJDRStatus.pending)
    ∧ active_count db jdr_id < JDR.max_players jdr
    ∧ m = JDRMembership.mk (next_id (JDRMembership.id <$> jdr_memberships db))
            jdr_id (User.id user) MembershipJDRStatus.pending join_message None None
    ∧ db' = with_jdr_memberships db (jdr_memberships db ++ [m]).
Proof.
  unfold join_jdr. intros H.
  destruct (jdr_by_id db jdr_id) as [jdr|] eqn:Hjdr; [|done].
  case_bool_decide as Hacc; [|done]. simpl in H.
  apply result_bind_Ok in H as (om & Hom & H).
  destruct (List.find _ (jdr_memberships db)) as [?|] eqn:Hex; [done|].
  destruct (_ >=? _) eqn:Hfull; [done|].
  injection H as <- <-. exists jdr. split; [done|].
  split; [unfold accepting; rewrite !elem_of_cons, elem_of_nil in Hacc; tauto|].
  split; [by exists om|]. split; [|split; [|done]].
  - intros r Hr Hu Hj. apply list_elem_of_In in Hr.
    pose proof (find_none _ _ Hex r Hr) as Hn. simpl in Hn.
    rewrite !bool_decide_eq_true_2 in Hn by done. simpl in Hn.
    apply bool_decide_eq_false_1 in Hn. rewrite !elem_of_cons in Hn. tauto.
  - rewrite Z.geb_leb in Hfull. apply Z.leb_gt in Hfull. lia.
Qed.

(** What a successful [approve_player] wrote. *)
Lemma approve_player_Ok db mj jdr_id membership_id now db' m' :
  approve_player db mj jdr_id membership_id now = Ok (db', m') →
  ∃ jdr i m,
    _check_is_mj db mj jdr_id = Ok jdr
    ∧ jdr_memberships db !! i = Some m
    ∧ JDRMembership.id m = membership_id
    ∧ JDRMembership.jdr_id m = jdr_id
    ∧ JDRMembership.status m = MembershipJDRStatus.pending
    ∧ m' = JDRMembership.mk (JDRMembership.id m) (JDRMembership.jdr_id m)
             (JDRMembership.user_id m) MembershipJDRStatus.active
             (JDRMembership.join_message m) (Some (User.id mj)) (Some now)
    ∧ db' = with_jdr_memberships db (<[i := m']> (jdr_memberships db)).
Proof.
  unfold approve_player. intros (jdr & Hmj & H)%result_bind_Ok.
  destruct (list_find _ (jdr_memberships db)) as [[i m]|] eqn:Hf; [|done].
  injection H as <- <-.
  apply list_find_Some in Hf as (Hi & (Hid & Hj & Hs) & _).
  by exists jdr, i, m.
Qed.

Lemma filter_length_insert {A} (p : A → bool) (l : list A) i x x' :
  l !! i = Some x → p x = false → p x' = true →
  length (List.filter p (<[i := x']> l)) = S (length (List.filter p l)).
Proof.
  revert i. induction l as [|a l IH]; intros [|i] Hi Hx Hx'; simpl in *; try done.
  - injection Hi as ->. by rewrite Hx, Hx'.
  - destruct (p a); simpl; by rewrite (IH i).
Qed.

Lemma filter_insert_irrelevant {A} (p : A → bool) (l : list A) i x x' :
  l !! i = Some x → p x = false → p x' = false →
  List.filter p (<[i := x']> l) = List.filter p l.
Proof.
  revert i. induction l as [|a l IH]; intros [|i] Hi Hx Hx'; simpl in *; try done.
  - injection Hi as ->. by rewrite Hx, Hx'.
  - destruct (p a); simpl; by rewrite (IH i).
Qed.

(** X16: [approve_player] does not look at the capacity of the
    session.  Every successful approval turns one pending membership
    of the session into an active one: the number of active players
    grows by exactly one, whatever [max_players] is, and the
    memberships of the other sessions are not counted differently.
    The capacity is checked by [join_jdr] alone, at the time of the
    request. *)
Theorem X16_approve_player_count db mj jdr_id membership_id now db' m' :
  approve_player db mj jdr_id membership_id now = Ok (db', m') →
  active_count db' jdr_id = active_count db jdr_id + 1
  ∧ (∀ other, other ≠ jdr_id → active_count db' other = active_count db other)
  ∧ (JDRMembership.status m' = MembershipJDRStatus.active
     ∧ JDRMembership.id m' = membership_id
     ∧ JDRMembership.jdr_id m' = jdr_id
     ∧ JDRMembership.approved_by_id m' = Some (User.id mj))
  ∧ (∃ row, _check_is_player db' (JDRMembership.user_id m') jdr_id = Ok row)
  ∧ jdrs db' = jdrs db.
Proof.
  intros (jdr & i & m & Hmj & Hi & Hid & Hj & Hs & -> & ->)%approve_player_Ok.
  split; [|split; [|split; [done|split; [|done]]]].
  - unfold active_count. simpl.
    rewrite (filter_length_insert _ _ _ m).
    + lia.
    + done.
    + rewrite Hs. by rewrite andb_false_r.
    + simpl. by rewrite !bool_decide_eq_true_2.
  - intros other Hne. unfold active_count. simpl.
    rewrite (filter_insert_irrelevant _ _ _ m); [done|done|..].
    + rewrite Hs. by rewrite andb_false_r.
    + simpl. rewrite bool_decide_eq_false_2; [done|congruence].
  - unfold _check_is_player. simpl.
    destruct (List.find _ _) as [row|] eqn:Hf; [by exists row|]. exfalso.
    assert (i < length (jdr_memberships db))%nat as Hlt by (by eapply lookup_lt_Some).
    eapply find_none in Hf.
    2:{ apply list_elem_of_In. eapply list_elem_of_lookup_2.
        by apply list_lookup_insert_eq. }
    simpl in Hf. by rewrite !bool_decide_eq_true_2 in Hf.
Qed.

(** The MJ approves user 3 at a table of one seat that user 2 holds. *)
Lemma X16_approve_player_count_witness :
  active_count crowded_table_db 1 = 1
  ∧ (∀ j, jdr_by_id crowded_table_db 1 = Some j → JDR.max_players j = 1)
  ∧ active_count
      (with_jdr_memberships crowded_table_db
         [ seat_active;
           JDRMembership.mk 2 1 3 MembershipJDRStatus.active None (Some 1) (Some 20) ])
      1 = 2.
Proof.
  split; [reflexivity|]. split; [by intros j [= <-]|].
  exact (proj1 (X16_approve_player_count crowded_table_db user1 1 2 20 _ _ eq_refl)).
Defined.

(** X17: the admission of a player.  A request accepted by [join_jdr]
    does not make the requester a player: [_check_is_player] still
    refuses, and so does [get_board] unless the requester is the MJ.
    The MJ can approve the request; the requester is then an active
    player, the session holds no more active players than
    [max_players], and the request cannot be approved again (404). *)
Theorem X17_player_admission db mj player jdr_id jdr message db1 m now :
  _check_is_mj db mj jdr_id = Ok jdr →
  join_jdr db player jdr_id message = Ok (db1, m) →
  _check_is_player db1 (User.id player) jdr_id
  = Raise (HTTPException HTTP_403_FORBIDDEN "You must be an active player in this JDR")
  ∧ (User.id player ≠ User.id mj →
     get_board db1 player jdr_id
     = Raise (HTTPException HTTP_403_FORBIDDEN
                "You must be an active player in this JDR"))
  ∧ ∃ db2 m',
      approve_player db1 mj jdr_id (JDRMembership.id m) now = Ok (db2, m')
      ∧ _check_is_player db2 (User.id player) jdr_id = Ok m'
      ∧ active_count db2 jdr_id = active_count db jdr_id + 1
      ∧ active_count db2 jdr_id <= JDR.max_players jdr
      ∧ ∀ now',
          approve_player db2 mj jdr_id (JDRMembership.id m) now'
          = Raise (HTTPException 404 "Pending membership not found").
Proof.
  intros Hmj (jdr0 & Hjdr & _ & _ & Hno & Hroom & Hm & ->)%join_jdr_Ok.
  destruct (proj1 (_check_is_mj_Ok _ _ _ _) Hmj) as [Hby Hmjid].
  assert (jdr0 = jdr) as -> by congruence.
  set (ms := jdr_memberships db) in *.
  assert (JDRMembership.id m = next_id (JDRMembership.id <$> ms)
          ∧ JDRMembership.jdr_id m = jdr_id
          ∧ JDRMembership.user_id m = User.id player
          ∧ JDRMembership.status m = MembershipJDRStatus.pending)
    as (Hmid & Hmj' & Hmu & Hms) by (by rewrite Hm).
  clear Hm.
  assert (∀ x, x ∈ ms → JDRMembership.id x ≠ JDRMembership.id m) as Hfresh.
  { intros x Hx. rewrite Hmid. by apply fresh_key_not_in. }
  assert (∀ x,
            x ∈ ms →
            bool_decide (JDRMembership.user_id x = User.id player)
            && bool_decide (JDRMembership.jdr_id x = jdr_id)
            && bool_decide (JDRMembership.status x = MembershipJDRStatus.active)
            = false) as Hnot.
  { intros x Hx.
    destruct (decide (JDRMembership.user_id x = User.id player)) as [Hu|Hu];
      [|by rewrite (bool_decide_eq_false_2 _ Hu)].
    destruct (decide (JDRMembership.jdr_id x = jdr_id)) as [Hj|Hj];
      [|by rewrite (bool_decide_eq_false_2 _ Hj), andb_false_r].
    destruct (Hno x Hx Hu Hj) as [Ha _].
    by rewrite (bool_decide_eq_false_2 _ Ha), andb_false_r. }
  assert (_check_is_player (with_jdr_memberships db (ms ++ [m])) (User.id player) jdr_id
          = Raise (HTTPException HTTP_403_FORBIDDEN
                     "You must be an active player in this JDR")) as Hrefused.
  { unfold _check_is_player. simpl.
    destruct (List.find _ (ms ++ [m])) as [x|] eqn:Hf; [|done]. exfalso.
    apply find_some in Hf as [Hin Hx].
    apply in_app_or in Hin as [Hin | [<- | []]].
    - apply list_elem_of_In in Hin. by rewrite (Hnot x Hin) in Hx.
    - by rewrite Hms, andb_false_r in Hx. }
  split; [done|]. split.
  { intros Hne. unfold get_board.
    change (jdr_by_id (with_jdr_memberships db (ms ++ [m])) jdr_id)
      with (jdr_by_id db jdr_id).
    rewrite Hby. simpl.
    rewrite bool_decide_eq_false_2 by (rewrite Hmjid; congruence). simpl.
    by rewrite Hrefused. }
  unfold approve_player at 1.
  change (_check_is_mj (with_jdr_memberships db (ms ++ [m])) mj jdr_id)
    with (_check_is_mj db mj jdr_id).
  rewrite Hmj. simpl.
  rewrite (list_find_snoc_fresh _ ms m); cycle 1.
  { intros y Hy [Hyid _]. by apply (Hfresh y). }
  { done. }
  eexists _, _. split; [reflexivity|]. simpl. rewrite insert_snoc.
  set (m' := JDRMembership.mk _ _ _ _ _ _ _).
  assert (active_count (with_jdr_memberships (with_jdr_memberships db (ms ++ [m]))
                          (ms ++ [m'])) jdr_id
          = active_count db jdr_id + 1) as Hcount.
  { unfold active_count. simpl. fold ms. rewrite List.filter_app. simpl.
    rewrite !bool_decide_eq_true_2 by done. simpl.
    rewrite length_app. simpl. lia. }
  split; [|split; [done|split; [lia|]]].
  - unfold _check_is_player. simpl. rewrite (find_snoc_last _ ms m'); [done|done|].
    simpl. by rewrite !bool_decide_eq_true_2.
  - intros now'. unfold approve_player.
    change (_check_is_mj _ mj jdr_id) with (_check_is_mj db mj jdr_id).
    rewrite Hmj. simpl.
    rewrite list_find_None_not; [done|].
    intros y Hy [Hyid [_ Hyst]].
    apply elem_of_app in Hy as [Hy|Hy].
    + by apply (Hfresh y).
    + apply list_elem_of_singleton in Hy as ->. done.
Qed.

(** User 2 asks for the seat of [table_db] and the MJ approves. *)
Lemma X17_player_admission_witness :
  ∃ db2 m',
    approve_player (with_jdr_memberships table_db [seat_pending]) user1 1 1 10
    = Ok (db2, m')
    ∧ _check_is_player db2 2 1 = Ok m'
    ∧ active_count db2 1 = 1.
Proof.
  destruct (X17_player_admission table_db user1 user2 1 _ (Some "hello") _ _ 10
              eq_refl eq_refl)
    as (_ & _ & db2 & m' & Happrove & Hplayer & Hcount & _).
  by exists db2, m'.
Defined.

(** ** The board as the players see it *)

Lemma visible_elements_Ok db uid l els :
  visible_elements db uid l = Ok els → els = List.filter (shown_to db uid) l.
Proof.
  revert els. induction l as [|el l IH]; intros els H; simpl in *.
  - by injection H as <-.
  - apply result_bind_Ok in H as (shown & Hshown & H).
    apply result_bind_Ok in H as (rest & Hrest & H).
    injection H as <-. rewrite (IH rest Hrest).
    assert (shown_to db uid el = shown) as ->; [|done].
    unfold shown_to. destruct (BoardElement.is_visible el); simpl.
    + by rewrite Hshown.
    + by injection Hshown.
Qed.

Lemma _is_visible_to_user_exn db el uid e :
  _is_visible_to_user db el uid = Raise e → e = TypeError.
Proof.
  unfold _is_visible_to_user.
  destruct (BoardElement.visible_to el) as [d|]; [|done].
  destruct (negb (dict_truthy d)); [done|].
  destruct (from_option py_truthy false (d !! "all")); [done|].
  destruct (d !! "player_ids") as [v|].
  - destruct v; simpl; congruence.
  - destruct (d !! "character_ids"); [|done].
    destruct (id_truthy _); [|done].
    by destruct (character_by_id db _).
Qed.

Lemma visible_elements_raise db uid l el :
  el ∈ l → BoardElement.is_visible el = true →
  _is_visible_to_user db el uid = Raise TypeError →
  visible_elements db uid l = Raise TypeError.
Proof.
  intros Hin Hvis Hraise. induction l as [|a l IH]; [by apply elem_of_nil in Hin|].
  simpl. apply elem_of_cons in Hin as [<-|Hin].
  - by rewrite Hvis, Hraise.
  - rewrite (IH Hin).
    destruct (BoardElement.is_visible a); [|done].
    destruct (_is_visible_to_user db a uid) as [b|e] eqn:Ha; [done|].
    by apply _is_visible_to_user_exn in Ha as ->.
Qed.

(** X18: what [get_board] gives a user who is not the MJ, whatever the
    descriptors of the elements hold.  When it returns, the user is an
    active player of the session, the board is the board of the
    session, and the elements are exactly the elements of that board
    with [is_visible] true whose descriptor check answers true, in the
    order of the board: an element the MJ has hidden is never in the
    answer. *)
Theorem X18_player_view db user jdr_id board els :
  (∀ jdr, jdr_by_id db jdr_id = Some jdr → JDR.mj_id jdr ≠ Some (User.id user)) →
  get_board db user jdr_id = Ok (board, els) →
  (∃ m, _check_is_player db (User.id user) jdr_id = Ok m)
  ∧ Board.jdr_id board = jdr_id
  ∧ els = List.filter (shown_to db (User.id user)) (board_elements_of db board)
  ∧ sublist els (board_elements_of db board)
  ∧ (∀ el, el ∈ els →
           BoardElement.is_visible el = true
           ∧ BoardElement.board_id el = Board.id board
           ∧ _is_visible_to_user db el (User.id user) = Ok true).
Proof.
  intros Hnot. unfold get_board.
  destruct (jdr_by_id db jdr_id) as [jdr|] eqn:Hjdr; [|done].
  rewrite (bool_decide_eq_false_2 _ (Hnot jdr eq_refl)). simpl.
  destruct (_check_is_player db (User.id user) jdr_id) as [m|] eqn:Hm; [|done]. simpl.
  destruct (board_by_jdr db jdr_id) as [[bi b]|] eqn:Hb; [|done].
  intros (els0 & Hels & H)%result_bind_Ok. injection H as <- <-.
  apply visible_elements_Ok in Hels as ->.
  apply list_find_Some in Hb as (_ & Hbj & _).
  split; [by exists m|]. split; [done|]. split; [done|].
  split; [apply filter_sublist|].
  intros el [Hel Hshown]%filter_elem. unfold shown_to in Hshown.
  apply andb_prop in Hshown as [Hvis Hdesc].
  split; [done|]. split.
  2:{ destruct (_is_visible_to_user db el (User.id user)) as [ans|]; [|done].
      by rewrite Hdesc. }
  apply filter_elem in Hel as [_ Hbid]. by apply bool_decide_eq_true_1 in Hbid.
Qed.

(** User 2, the player of [play_db], reads the board. *)
Lemma X18_player_view_witness :
  ∃ board els,
    get_board play_db user2 1 = Ok (board, els)
    ∧ els = List.filter (shown_to play_db 2) (board_elements_of play_db board).
Proof.
  destruct (get_board play_db user2 1) as [[board els]|] eqn:Hget; [|by vm_compute in Hget].
  exists board, els. split; [done|].
  refine (proj1 (proj2 (proj2 (X18_player_view play_db user2 1 board els _ Hget)))).
  intros jdr [= <-]. discriminate.
Defined.

(** X19: one malformed descriptor closes the board to the players.
    When a visible element of the board carries a descriptor without a
    true [all] whose [player_ids] is a scalar or a string, the
    membership test raises [TypeError]: [get_board] then fails for
    every active player who is not the MJ, whatever the other elements
    are, while the MJ still receives the whole board. *)
Theorem X19_malformed_descriptor db user jdr_id jdr bi board el d v :
  jdr_by_id db jdr_id = Some jdr →
  board_by_jdr db jdr_id = Some (bi, board) →
  el ∈ board_elements_of db board →
  BoardElement.is_visible el = true →
  BoardElement.visible_to el = Some d →
  from_option py_truthy false (d !! "all") = false →
  d !! "player_ids" = Some v →
  json_scalar v →
  (JDR.mj_id jdr = Some (User.id user) →
   get_board db user jdr_id = Ok (board, board_elements_of db board))
  ∧ (JDR.mj_id jdr ≠ Some (User.id user) →
     active_player db (User.id user) jdr_id →
     get_board db user jdr_id = Raise TypeError).
Proof.
  intros Hjdr Hboard Hel Hvis Hd Hall Hids Hscalar.
  unfold get_board. rewrite Hjdr, Hboard. split.
  - intros Hmj. by rewrite bool_decide_eq_true_2.
  - intros Hmj Hplayer. destruct (_check_is_player_Ok _ _ _ Hplayer) as [m Hm].
    rewrite bool_decide_eq_false_2 by done. simpl. rewrite Hm. simpl.
    rewrite (visible_elements_raise db (User.id user) _ el Hel Hvis); [done|].
    unfold _is_visible_to_user. rewrite Hd.
    assert (dict_truthy d = true) as ->.
    { unfold dict_truthy. apply negb_true_iff, bool_decide_eq_false_2.
      intros Hsize%map_size_empty_iff. by rewrite Hsize, lookup_empty in Hids. }
    simpl. rewrite Hall, Hids. by destruct v.
Qed.

(** The scroll of [play_db_scroll]: user 2 cannot read the board any
    more, user 1 (the MJ) can. *)
Lemma X19_malformed_descriptor_witness :
  get_board play_db_scroll user2 1 = Raise TypeError
  ∧ ∃ board, get_board play_db_scroll user1 1
             = Ok (board, board_elements_of play_db_scroll board).
Proof.
  assert (play_scroll ∈ board_elements_of play_db_scroll play_board) as Hin.
  { apply filter_elem. split; [|done]. simpl.
    rewrite !elem_of_cons. tauto. }
  split.
  - refine (proj2 (X19_malformed_descriptor play_db_scroll user2 1 _ _ _
                     play_scroll _ (JStr "2") eq_refl eq_refl Hin eq_refl eq_refl
                     eq_refl eq_refl I) _ _).
    + discriminate.
    + exists seat_active. simpl. rewrite elem_of_cons. tauto.
  - exists play_board.
    exact (proj1 (X19_malformed_descriptor play_db_scroll user1 1 _ _ _
                    play_scroll _ (JStr "2") eq_refl eq_refl Hin eq_refl eq_refl
                    eq_refl eq_refl I) eq_refl).
Defined.

(** ** Elements of the board *)

Lemma board_by_jdr_touch db jdr_id bi board now :
  board_by_jdr db jdr_id = Some (bi, board) →
  list_find (fun b => Board.jdr_id b = jdr_id)
    (<[bi := Board.mk (Board.id board) (Board.jdr_id board) (Board.name board)
               (Board.background_image_id board) (Board.dimensions board) now]>
       (boards db))
  = Some (bi, Board.mk (Board.id board) (Board.jdr_id board) (Board.name board)
                (Board.background_image_id board) (Board.dimensions board) now).
Proof.
  intros Hb. apply (list_find_insert_same _ _ _ board); [done|].
  simpl. by apply list_find_Some in Hb as (_ & Hj & _).
Qed.

(** What a successful [add_board_element] went through. *)
Lemma add_board_element_Ok db mj jdr_id data now_board now_element db' el :
  add_board_element db mj jdr_id data now_board now_element = Ok (db', el) →
  ∃ jdr bi board,
    _check_is_mj db mj jdr_id = Ok jdr
    ∧ board_by_jdr db jdr_id = Some (bi, board)
    ∧ (id_truthy (ec_image_id data) = true →
       is_Some (image_by_id db (Some (default 0 (ec_image_id data)))))
    ∧ (id_truthy (ec_character_id data) = true →
       is_Some (character_entry db jdr_id (default 0 (ec_character_id data))))
    ∧ (id_truthy (ec_game_item_id data) = true →
       is_Some (List.find
                  (fun g => bool_decide (GameItem.id g = default 0 (ec_game_item_id data))
                            && bool_decide (GameItem.jdr_id g = jdr_id))
                  (game_items db)))
    ∧ el = BoardElement.mk (next_id (BoardElement.id <$> board_elements db))
             (Board.id board) (ec_element_type data) (ec_character_id data)
             (ec_game_item_id data) (ec_image_id data) (ec_content data)
             (ec_position data) (ec_is_visible data) (Some (ec_visible_to data))
             now_element
    ∧ db' = with_board_elements
              (with_boards db
                 (<[bi := Board.mk (Board.id board) (Board.jdr_id board)
                            (Board.name board) (Board.background_image_id board)
                            (Board.dimensions board) now_board]> (boards db)))
              (board_elements db ++ [el]).
Proof.
  unfold add_board_element. intros (jdr & Hmj & H)%result_bind_Ok.
  destruct (board_by_jdr db jdr_id) as [[bi board]|] eqn:Hb; [|done].
  apply result_bind_Ok in H as ([] & Himg & H).
  apply result_bind_Ok in H as ([] & Hchar & H).
  apply result_bind_Ok in H as ([] & Hitem & H).
  injection H as <- <-. exists jdr, bi, board.
  split; [done|]. split; [done|]. split; [|split; [|split; [|done]]].
  - intros Ht. rewrite Ht in Himg. unfold _check_image_exists in Himg.
    by destruct (image_by_id db _).
  - intros Ht. rewrite Ht in Hchar. by destruct (character_entry db jdr_id _).
  - intros Ht. rewrite Ht in Hitem. by destruct (List.find _ (game_items db)).
Qed.

(** X20: what [add_board_element] puts on a board.  The new element
    belongs to the board of the session; a character or a game item it
    names (by a non-zero id) is a character or an item of this very
    session, and an image it names is in the image table; the MJ then
    reads the board with the new element after the former ones; and
    the elements of the other boards are unchanged. *)
Theorem X20_add_board_element db mj jdr_id data now_board now_element db' el :
  add_board_element db mj jdr_id data now_board now_element = Ok (db', el) →
  (∀ cid, ec_character_id data = Some cid → cid ≠ 0 →
     ∃ c, c ∈ characters db ∧ Character.id c = cid ∧ Character.jdr_id c = jdr_id)
  ∧ (∀ gid, ec_game_item_id data = Some gid → gid ≠ 0 →
       ∃ g, g ∈ game_items db ∧ GameItem.id g = gid ∧ GameItem.jdr_id g = jdr_id)
  ∧ (∀ iid, ec_image_id data = Some iid → iid ≠ 0 →
       is_Some (image_by_id db (Some iid)))
  ∧ ∃ bi board board',
      board_by_jdr db jdr_id = Some (bi, board)
      ∧ BoardElement.board_id el = Board.id board
      ∧ Board.id board' = Board.id board
      ∧ Board.dimensions board' = Board.dimensions board
      ∧ get_board db' mj jdr_id = Ok (board', board_elements_of db board ++ [el])
      ∧ ∀ b, Board.id b ≠ Board.id board →
             board_elements_of db' b = board_elements_of db b.
Proof.
  intros (jdr & bi & board & Hmj & Hb & Himg & Hchar & Hitem & Hel & ->)%add_board_element_Ok.
  assert (∀ n, n ≠ 0 → id_truthy (Some n) = true) as Htruthy.
  { intros n Hn. simpl. by apply negb_true_iff, Z.eqb_neq. }
  split; [|split; [|split]].
  - intros cid Hcid Hne. rewrite Hcid in Hchar. simpl in Hchar.
    destruct (Hchar (Htruthy cid Hne)) as [[i c] Hc].
    apply list_find_Some in Hc as (Hi & [Hid Hj] & _).
    exists c. split; [by eapply list_elem_of_lookup_2 | done].
  - intros gid Hgid Hne. rewrite Hgid in Hitem. simpl in Hitem.
    destruct (Hitem (Htruthy gid Hne)) as [g Hg].
    apply find_some in Hg as [Hin Hg]. apply andb_prop in Hg as [Hid Hj].
    apply bool_decide_eq_true_1 in Hid, Hj.
    exists g. split; [by apply list_elem_of_In | done].
  - intros iid Hiid Hne. rewrite Hiid in Himg. by apply Himg, Htruthy.
  - set (board' := Board.mk (Board.id board) (Board.jdr_id board) (Board.name board)
                     (Board.background_image_id board) (Board.dimensions board)
                     now_board).
    exists bi, board, board'. split; [done|]. split; [by rewrite Hel|].
    split; [done|]. split; [done|].
    assert (BoardElement.board_id el = Board.id board) as Hbid by (by rewrite Hel).
    split.
    + destruct (proj1 (_check_is_mj_Ok _ _ _ _) Hmj) as [Hby Hmjid].
      unfold get_board.
      change (jdr_by_id _ jdr_id) with (jdr_by_id db jdr_id). rewrite Hby. simpl.
      rewrite bool_decide_eq_true_2 by done. simpl.
      pose proof (board_by_jdr_touch _ _ _ _ now_board Hb) as Hb'. fold board' in Hb'.
      unfold board_by_jdr. simpl. rewrite Hb'.
      unfold board_elements_of. simpl. rewrite List.filter_app. simpl.
      by rewrite (bool_decide_eq_true_2 _ Hbid).
    + intros b Hne. unfold board_elements_of. simpl. rewrite List.filter_app. simpl.
      rewrite bool_decide_eq_false_2 by congruence. by rewrite app_nil_r.
Qed.

(** The MJ of [play_db] puts the token of character 1 on the board at
    time 30. *)
Lemma X20_add_board_element_witness :
  ∃ c, c ∈ characters play_db ∧ Character.id c = 1 ∧ Character.jdr_id c = 1.
Proof.
  exact (proj1 (X20_add_board_element play_db user1 1 play_new_token 30 30 _ _ eq_refl)
           1 eq_refl ltac:(discriminate)).
Defined.

Lemma elem_of_delete {A} (l : list A) i x :
  x ∈ delete i l ↔ ∃ j, j ≠ i ∧ l !! j = Some x.
Proof.
  revert i. induction l as [|a l IH]; intros i; simpl.
  - split; [by intros ?%elem_of_nil | by intros (j & _ & ?)].
  - destruct i as [|i]; simpl.
    + rewrite list_elem_of_lookup. split.
      * intros [j Hj]. exists (S j). by split.
      * intros ([|j] & Hne & Hj); [done | by exists j].
    + rewrite elem_of_cons, IH. split.
      * intros [-> | (j & Hne & Hj)]; [by exists 0%nat|].
        exists (S j). split; [lia | done].
      * intros ([|j] & Hne & Hj); simpl in Hj.
        -- left. by injection Hj.
        -- right. exists j. split; [lia | done].
Qed.

(** What a successful [delete_board_element] removed. *)
Lemma delete_board_element_Ok db mj jdr_id element_id now db' :
  delete_board_element db mj jdr_id element_id now = Ok db' →
  ∃ jdr bi board i el,
    _check_is_mj db mj jdr_id = Ok jdr
    ∧ board_by_jdr db jdr_id = Some (bi, board)
    ∧ board_elements db !! i = Some el
    ∧ BoardElement.id el = element_id
    ∧ BoardElement.board_id el = Board.id board
    ∧ db' = with_board_elements
              (with_boards db
                 (<[bi := Board.mk (Board.id board) (Board.jdr_id board)
                            (Board.name board) (Board.background_image_id board)
                            (Board.dimensions board) now]> (boards db)))
              (delete i (board_elements db)).
Proof.
  unfold delete_board_element. intros (jdr & Hmj & H)%result_bind_Ok.
  destruct (board_by_jdr db jdr_id) as [[bi board]|] eqn:Hb; [|done].
  destruct (board_element_entry db board element_id) as [[i el]|] eqn:He; [|done].
  injection H as <-.
  apply list_find_Some in He as (Hi & [Hid Hbid] & _).
  by exists jdr, bi, board, i, el.
Qed.

(** X21: [delete_board_element] removes one row.  When the ids of the
    element table are distinct, the elements left are exactly the
    former ones with another id, in their order; the element is gone
    for good: deleting it again, or updating it, answers 404. *)
Theorem X21_delete_board_element db mj jdr_id element_id now db' :
  NoDup (BoardElement.id <$> board_elements db) →
  delete_board_element db mj jdr_id element_id now = Ok db' →
  (∀ e, e ∈ board_elements db'
        ↔ e ∈ board_elements db ∧ BoardElement.id e ≠ element_id)
  ∧ sublist (board_elements db') (board_elements db)
  ∧ S (length (board_elements db')) = length (board_elements db)
  ∧ (∀ now',
       delete_board_element db' mj jdr_id element_id now'
       = Raise (HTTPException 404 "Board element not found"))
  ∧ (∀ data t1 t2,
       update_board_element db' mj jdr_id element_id data t1 t2
       = Raise (HTTPException 404 "Board element not found")).
Proof.
  intros Hpk (jdr & bi & board & i & el & Hmj & Hb & Hi & Hid & Hbid & ->)%delete_board_element_Ok.
  simpl.
  assert (∀ e, e ∈ delete i (board_elements db)
               ↔ e ∈ board_elements db ∧ BoardElement.id e ≠ element_id) as Hleft.
  { intros e. rewrite elem_of_delete. split.
    - intros (j & Hne & Hj). split; [by eapply list_elem_of_lookup_2|].
      intros He. apply Hne. eapply NoDup_lookup; [exact Hpk| |].
      + by rewrite list_lookup_fmap, Hj.
      + rewrite list_lookup_fmap, Hi. simpl. congruence.
    - intros [[j Hj]%list_elem_of_lookup Hne]. exists j. split; [|done].
      intros ->. congruence. }
  set (board' := Board.mk (Board.id board) (Board.jdr_id board) (Board.name board)
                   (Board.background_image_id board) (Board.dimensions board) now).
  assert (∀ db2 : DB,
            jdrs db2 = jdrs db → boards db2 = <[bi := board']> (boards db) →
            board_elements db2 = delete i (board_elements db) →
            _check_is_mj db2 mj jdr_id = Ok jdr
            ∧ board_by_jdr db2 jdr_id = Some (bi, board')
            ∧ board_element_entry db2 board' element_id = None) as Hgone.
  { intros db2 Hj Hbs Hes. split; [|split].
    - unfold _check_is_mj, jdr_by_id. rewrite Hj. exact Hmj.
    - unfold board_by_jdr. rewrite Hbs. by apply board_by_jdr_touch.
    - unfold board_element_entry. rewrite Hes. apply list_find_None_not.
      intros e He [Heid _]. apply Hleft in He as [_ Hne]. done. }
  split; [done|]. split; [apply sublist_delete|]. split.
  { rewrite length_delete by (by eexists).
    apply lookup_lt_Some in Hi. lia. }
  split.
  - intros now'. unfold delete_board_element.
    destruct (Hgone (with_board_elements (with_boards db (<[bi := board']> (boards db)))
                       (delete i (board_elements db))) eq_refl eq_refl eq_refl)
      as (-> & -> & ->). done.
  - intros data t1 t2. unfold update_board_element.
    destruct (Hgone (with_board_elements (with_boards db (<[bi := board']> (boards db)))
                       (delete i (board_elements db))) eq_refl eq_refl eq_refl)
      as (-> & -> & ->). done.
Qed.

(** The MJ of [play_db] removes the hidden monster. *)
Lemma X21_delete_board_element_witness :
  sublist [play_sword; play_token; play_note] (board_elements play_db)
  ∧ ∃ db', delete_board_element play_db user1 1 3 40 = Ok db'
           ∧ delete_board_element db' user1 1 3 50
             = Raise (HTTPException 404 "Board element not found").
Proof.
  assert (NoDup (BoardElement.id <$> board_elements play_db)) as Hpk.
  { apply (bool_decide_unpack _). vm_compute. exact I. }
  destruct (X21_delete_board_element play_db user1 1 3 40 _ Hpk eq_refl)
    as (_ & Hsub & _ & Hagain & _).
  split; [exact Hsub|]. eexists. split; [reflexivity|]. apply Hagain.
Defined.

(** ** Validation of the board dimensions *)

Lemma check_range_Valid d key lo hi e rest d' :
  check_range d key lo hi e rest = Valid d' →
  rest = Valid d'
  ∧ ∀ x, d !! key = Some x →
         ∃ n, json_num x = Some n ∧ py_le lo n = true ∧ py_le n hi = true.
Proof.
  unfold check_range. destruct (d !! key) as [x|]; [|by intros ->].
  destruct (json_num x) as [n|] eqn:Hx; [|done].
  destruct (py_le lo n && py_le n hi) eqn:Hle; [|done].
  intros ->. split; [done|]. intros ? [= <-]. exists n.
  apply andb_prop in Hle as [? ?]. by split.
Qed.

Lemma dict_or_empty_dom (d : dict) : dom (dict_or_empty d) = dom d.
Proof.
  unfold dict_or_empty, dict_truthy. case_bool_decide as Hsize; simpl; [|done].
  apply map_size_empty_iff in Hsize as ->. done.
Qed.

Lemma dict_merge_dom (a b : dict) : dom (dict_merge a b) = dom b ∪ dom a.
Proof. unfold dict_merge. apply dom_union_L. Qed.

(** X22: what the validator of [BoardUpdate] lets through.  An
    accepted patch is returned unchanged; its keys are among the seven
    allowed ones; [width] and [height], when integers, lie in
    [100, 8192], [grid_size] in [10, 500], and a float [scale] between
    0.1 and 10.0; each of these four keys, when present, holds a
    number (an int, a bool or a float).  Merged by [update_board] into
    dimensions that carry the allowed keys (as those of a new board
    do), an accepted patch leaves exactly the allowed keys. *)
Theorem X22_validate_dimensions p p' :
  validate_dimensions (Some p) = Valid p' →
  p' = Some p
  ∧ dom p ⊆ allowed_keys
  ∧ (∀ n, p !! "width" = Some (JInt n) → 100 <= n <= 8192)
  ∧ (∀ n, p !! "height" = Some (JInt n) → 100 <= n <= 8192)
  ∧ (∀ n, p !! "grid_size" = Some (JInt n) → 10 <= n <= 500)
  ∧ (∀ f, p !! "scale" = Some (JFloat f) →
          SFleb float_tenth f = true ∧ SFleb f float_ten = true)
  ∧ (∀ k v, k ∈ ["width"; "height"; "grid_size"; "scale"] → p !! k = Some v →
            is_Some (json_num v))
  ∧ (∀ db mj jdr_id name background now db' b' i b,
       board_by_jdr db jdr_id = Some (i, b) →
       dom (Board.dimensions b) = allowed_keys →
       update_board db mj jdr_id (mkBoardUpdate name background (Some (Some p))) now
         = Ok (db', b') →
       dom (Board.dimensions b') = allowed_keys).
Proof.
  unfold validate_dimensions. case_bool_decide as Hkeys; simpl; [|done].
  destruct (check_range p "width" _ _ _ _) as [d'| |] eqn:Hw; [|done..].
  intros [= <-].
  apply check_range_Valid in Hw as [Hh Hwidth].
  apply check_range_Valid in Hh as [Hg Hheight].
  apply check_range_Valid in Hg as [Hs Hgrid].
  apply check_range_Valid in Hs as [Hd Hscale].
  injection Hd as <-.
  assert (dom p ⊆ allowed_keys) as Hsub.
  { intros k Hk. destruct (decide (k ∈ allowed_keys)) as [|Hnot]; [done|].
    assert (k ∈ dom p ∖ allowed_keys) as Hin by (by apply elem_of_difference).
    rewrite Hkeys in Hin. by apply elem_of_empty in Hin. }
  split; [done|]. split; [done|].
  split; [|split; [|split; [|split; [|split]]]].
  - intros n Hn. destruct (Hwidth _ Hn) as (? & [= <-] & Hlo & Hhi).
    simpl in Hlo, Hhi. lia.
  - intros n Hn. destruct (Hheight _ Hn) as (? & [= <-] & Hlo & Hhi).
    simpl in Hlo, Hhi. lia.
  - intros n Hn. destruct (Hgrid _ Hn) as (? & [= <-] & Hlo & Hhi).
    simpl in Hlo, Hhi. lia.
  - intros f Hf. by destruct (Hscale _ Hf) as (? & [= <-] & Hlo & Hhi).
  - intros k v Hk Hv. rewrite !elem_of_cons, elem_of_nil in Hk.
    destruct Hk as [-> | [-> | [-> | [-> | []]]]].
    + destruct (Hwidth _ Hv) as (n & -> & _). by exists n.
    + destruct (Hheight _ Hv) as (n & -> & _). by exists n.
    + destruct (Hgrid _ Hv) as (n & -> & _). by exists n.
    + destruct (Hscale _ Hv) as (n & -> & _). by exists n.
  - intros db mj jdr_id name background now db' b' i b Hb Hdom Hupd.
    destruct (update_board_merges db mj jdr_id
                (mkBoardUpdate name background (Some (Some p))) now db' b' i b p
                Hb eq_refl Hupd) as [_ ->].
    rewrite dict_merge_dom, dict_or_empty_dom, Hdom.
    apply set_eq. intros k. rewrite elem_of_union. split; [|by right].
    intros [Hk|Hk]; [by apply Hsub | done].
Qed.

(** A patch that widens the canvas and coarsens the grid. *)
Lemma X22_validate_dimensions_witness :
  dom ({[ "width" := JInt 2560; "grid_size" := JInt 64 ]} : dict) ⊆ allowed_keys
  ∧ 100 <= 2560 <= 8192.
Proof.
  assert (validate_dimensions (Some {[ "width" := JInt 2560; "grid_size" := JInt 64 ]})
          = Valid (Some {[ "width" := JInt 2560; "grid_size" := JInt 64 ]})) as Hvalid
    by (by vm_compute).
  destruct (X22_validate_dimensions _ _ Hvalid) as (_ & Hkeys & Hwidth & _).
  split; [exact Hkeys|]. by apply Hwidth.
Defined.

(** ** Keys of the JSON columns *)

Lemma merged_dom_grows (d p : dict) : dom d ⊆ dom (dict_merge (dict_or_empty d) p).
Proof.
  rewrite dict_merge_dom, dict_or_empty_dom. intros k Hk.
  apply elem_of_union. by right.
Qed.

Lemma update_board_dimensions db mj jdr_id data now db' b' i b :
  board_by_jdr db jdr_id = Some (i, b) →
  update_board db mj jdr_id data now = Ok (db', b') →
  Board.id b' = Board.id b
  ∧ Board.jdr_id b' = Board.jdr_id b
  ∧ Board.dimensions b' =
      match bu_dimensions data with
      | Some (Some p) => dict_merge (dict_or_empty (Board.dimensions b)) p
      | _ => Board.dimensions b
      end.
Proof.
  intros Hb. unfold update_board. rewrite Hb.
  intros (jdr & _ & H)%result_bind_Ok.
  apply result_bind_Ok in H as (? & _ & H).
  apply result_bind_Ok in H as (dims & Hdims & H).
  apply result_bind_Ok in H as (name & _ & H).
  injection H as <- <-. simpl. split; [done|]. split; [done|].
  destruct (bu_dimensions data) as [[p|]|]; simpl in Hdims; by simplify_eq.
Qed.

(** X23: keys of the JSON columns are never lost.  The validator of
    [BoardElementCreate] gives a position all nine default keys, with
    the caller's values winning; and no update takes a key away:
    after [update_board_element] the position and the content of the
    element have at least the keys they had, after [update_board] so
    have the dimensions of the board. *)
Theorem X23_keys_only_grow :
  (∀ v : dict,
     dom position_defaults ⊆ dom (validate_position v)
     ∧ dom v ⊆ dom (validate_position v)
     ∧ size (dom position_defaults) = 9%nat
     ∧ ∀ k, validate_position v !! k = or_else (v !! k) (position_defaults !! k))
  ∧ (∀ db mj jdr_id element_id data t1 t2 db' el' bi board i el,
       board_by_jdr db jdr_id = Some (bi, board) →
       board_element_entry db board element_id = Some (i, el) →
       update_board_element db mj jdr_id element_id data t1 t2 = Ok (db', el') →
       dom (BoardElement.position el) ⊆ dom (BoardElement.position el')
       ∧ dom (BoardElement.content el) ⊆ dom (BoardElement.content el'))
  ∧ (∀ db mj jdr_id data now db' b' i b,
       board_by_jdr db jdr_id = Some (i, b) →
       update_board db mj jdr_id data now = Ok (db', b') →
       dom (Board.dimensions b) ⊆ dom (Board.dimensions b')).
Proof.
  split; [|split].
  - intros v. unfold validate_position. rewrite dict_merge_dom.
    split; [|split; [|split]].
    + intros k Hk. apply elem_of_union. by right.
    + intros k Hk. apply elem_of_union. by left.
    + by vm_compute.
    + intros k. apply dict_merge_lookup.
  - intros db mj jdr_id element_id data t1 t2 db' el' bi board i el Hb He Hupd.
    destruct (update_board_element_merges _ _ _ _ _ _ _ _ _ _ _ _ _ Hb He Hupd)
      as (_ & -> & ->).
    split.
    + destruct (eu_position data) as [[p|]|]; [apply merged_dom_grows|done..].
    + destruct (eu_content data) as [[p|]|]; [apply merged_dom_grows|done..].
  - intros db mj jdr_id data now db' b' i b Hb Hupd.
    destruct (update_board_dimensions _ _ _ _ _ _ _ _ _ Hb Hupd) as (_ & _ & ->).
    destruct (bu_dimensions data) as [[p|]|]; [apply merged_dom_grows|done..].
Qed.

(** ** Characters *)

(** X24: who may change a character through [update_character].  On
    the player's path the owner alone passes (403 "Not your character"
    for anybody else); the owner can set the gold of the character to
    any value the schema of the route lets through (a float not below
    zero, so the gold stays non-negative), without the MJ, and more
    generally every patch of the owner that changes no avatar and
    gives no null to a column that rejects one is accepted.  On the
    MJ's path the MJ of the character's session alone passes.  After
    a successful update the name and the gold are the given values
    where the patch gives one and the former ones where it gives none,
    and the character has the id, the session and the owner it had. *)
Theorem X24_update_character db user character_id i c :
  character_by_pk db character_id = Some (i, c) →
  (Character.owner_id c = User.id user →
   ∀ g, CharacterUpdate_gold_ok g = true →
        ∃ db' c',
          update_character db user character_id (gold_patch g) false = Ok (db', c')
          ∧ Character.gold c' = g
          ∧ SFltb (Character.gold c') float_zero = false
          ∧ Character.name c' = Character.name c
          ∧ characters db' = <[i := c']> (characters db))
  ∧ (Character.owner_id c ≠ User.id user →
     ∀ data, update_character db user character_id data false
             = Raise (HTTPException 403 "Not your character"))
  ∧ (∀ jdr data,
       jdr_by_id db (Character.jdr_id c) = Some jdr →
       JDR.mj_id jdr ≠ Some (User.id user) →
       update_character db user character_id data true
       = Raise (HTTPException HTTP_403_FORBIDDEN "Only the MJ can perform this action"))
  ∧ (∀ data is_mj db' c',
       update_character db user character_id data is_mj = Ok (db', c') →
       Character.id c' = Character.id c
       ∧ Character.jdr_id c' = Character.jdr_id c
       ∧ Character.owner_id c' = Character.owner_id c
       ∧ (if is_mj
          then ∃ jdr, _check_is_mj db user (Character.jdr_id c) = Ok jdr
          else Character.owner_id c = User.id user)
       ∧ patched (cu_name data) (Character.name c) (Character.name c')
       ∧ patched (cu_gold data) (Character.gold c) (Character.gold c')
       ∧ characters db' = <[i := c']> (characters db))
  ∧ (Character.owner_id c = User.id user →
     ∀ data,
       cu_avatar_image_id data = None →
       cu_name data ≠ Some None → cu_gold data ≠ Some None →
       cu_other_required_null data = false →
       ∃ db' c', update_character db user character_id data false = Ok (db', c')).
Proof.
  intros Hc. split; [|split; [|split; [|split]]].
  - intros Howner g Hg. unfold update_character. rewrite Hc. simpl.
    rewrite bool_decide_eq_true_2 by done. simpl.
    eexists _, _. split; [reflexivity|]. simpl. split; [done|]. split; [|done].
    unfold CharacterUpdate_gold_ok in Hg.
    destruct g as [s|s| |s m e]; try done; by destruct s.
  - intros Hne data. unfold update_character. rewrite Hc. simpl.
    by rewrite bool_decide_eq_false_2.
  - intros jdr data Hjdr Hmj. unfold update_character. rewrite Hc. simpl.
    unfold _check_is_mj. rewrite Hjdr. simpl.
    by rewrite bool_decide_eq_false_2.
  - intros data is_mj db' c'. unfold update_character. rewrite Hc.
    destruct (negb is_mj && _) eqn:Hguard; [done|].
    intros (? & Hmj & H)%result_bind_Ok.
    apply result_bind_Ok in H as (? & _ & H).
    apply result_bind_Ok in H as (name & Hname & H).
    apply result_bind_Ok in H as (gold & Hgold & H).
    apply result_bind_Ok in H as (? & _ & H).
    injection H as <- <-. simpl. split; [done|]. split; [done|]. split; [done|].
    split; [|split; [|split; [|done]]].
    + destruct is_mj; simpl in *.
      * destruct (_check_is_mj db user (Character.jdr_id c)) as [jdr|];
          [by exists jdr|done].
      * apply negb_false_iff in Hguard. by apply bool_decide_eq_true_1 in Hguard.
    + destruct (cu_name data) as [[v|]|]; simpl in *; by simplify_eq.
    + destruct (cu_gold data) as [[v|]|]; simpl in *; by simplify_eq.
  - intros Howner data Himg Hn Hg Hother. unfold update_character. rewrite Hc. simpl.
    rewrite bool_decide_eq_true_2 by done. simpl. rewrite Himg, Hother. simpl.
    destruct (cu_name data) as [[n|]|]; [|done|];
      (destruct (cu_gold data) as [[g|]|]; [|done|]); simpl; by eexists _, _.
Qed.

(** User 2, the owner of the character of [play_db], gives it a
    thousand gold pieces. *)
Lemma X24_update_character_witness :
  CharacterUpdate_gold_ok (float_of_Z 1000) = true
  ∧ ∃ db' c',
      update_character play_db user2 1 (gold_patch (float_of_Z 1000)) false
      = Ok (db', c')
      ∧ Character.gold c' = float_of_Z 1000
      ∧ SFltb (Character.gold c') float_zero = false
      ∧ Character.name c' = "Thorin"
      ∧ characters db' = [c'].
Proof.
  split; [reflexivity|].
  exact (proj1 (X24_update_character play_db user2 1 0%nat play_character eq_refl)
           eq_refl (float_of_Z 1000) eq_refl).
Defined.

(** ** Inventories *)

Lemma list_find_insert_irrelevant {A} (P : A → Prop) `{∀ x, Decision (P x)}
    (l : list A) i x x' :
  l !! i = Some x → ¬ P x → ¬ P x' →
  list_find P (<[i := x']> l) = list_find P l.
Proof.
  revert i. induction l as [|a l IH]; intros [|i] Hi Hx Hx'; simpl in *; try done.
  - injection Hi as ->. by rewrite !decide_False.
  - destruct (decide (P a)); [done|]. by rewrite (IH i).
Qed.

Lemma list_find_snoc_irrelevant {A} (P : A → Prop) `{∀ x, Decision (P x)}
    (l : list A) x :
  ¬ P x → list_find P (l ++ [x]) = list_find P l.
Proof.
  intros Hx. induction l as [|a l IH]; simpl.
  - by rewrite decide_False.
  - destruct (decide (P a)); [done|]. by rewrite IH.
Qed.

(** What a successful [give_item_to_character] wrote. *)
Lemma give_item_to_character_Ok db mj jdr_id data db' row :
  give_item_to_character db mj jdr_id data = Ok (db', row) →
  (∃ c, c ∈ characters db ∧ Character.id c = give_character_id data
        ∧ Character.jdr_id c = jdr_id)
  ∧ (∃ g, g ∈ game_items db ∧ GameItem.id g = give_game_item_id data
          ∧ GameItem.jdr_id g = jdr_id)
  ∧ CharacterInventory.character_id row = give_character_id data
  ∧ CharacterInventory.game_item_id row = give_game_item_id data
  ∧ ((∃ i existing,
        inventory_entry db (give_character_id data) (give_game_item_id data)
          = Some (i, existing)
        ∧ CharacterInventory.id row = CharacterInventory.id existing
        ∧ CharacterInventory.quantity row
          = CharacterInventory.quantity existing + give_quantity data
        ∧ character_inventory db' = <[i := row]> (character_inventory db))
     ∨ (inventory_entry db (give_character_id data) (give_game_item_id data) = None
        ∧ CharacterInventory.id row
          = next_id (CharacterInventory.id <$> character_inventory db)
        ∧ CharacterInventory.quantity row = give_quantity data
        ∧ character_inventory db' = character_inventory db ++ [row])).
Proof.
  unfold give_item_to_character. intros (jdr & _ & H)%result_bind_Ok.
  destruct (List.find _ (characters db)) as [c|] eqn:Hc; [|done].
  destruct (List.find _ (game_items db)) as [g|] eqn:Hg; [|done].
  apply find_some in Hc as [Hcin Hc]. apply andb_prop in Hc as [Hcid Hcj].
  apply find_some in Hg as [Hgin Hg]. apply andb_prop in Hg as [Hgid Hgj].
  apply bool_decide_eq_true_1 in Hcid, Hcj, Hgid, Hgj.
  split; [exists c; by rewrite list_elem_of_In|].
  split; [exists g; by rewrite list_elem_of_In|].
  destruct (inventory_entry db _ _) as [[i existing]|] eqn:He.
  - injection H as <- <-. simpl.
    destruct (proj1 (list_find_Some _ _ _ _) He) as (_ & [Hec Heg] & _).
    split; [done|]. split; [done|]. left. by exists i, existing.
  - injection H as <- <-. simpl. split; [done|]. split; [done|]. by right.
Qed.

(** X25: the inventory as a quantity per character and item.  A
    successful [give_item_to_character] is given a character and an
    item of the MJ's session; it raises the quantity the character
    holds of the item by the quantity given, changes no other holding,
    and keeps the inventory at one row per character and item, with
    distinct ids. *)
Theorem X25_give_item_holdings db mj jdr_id data db' row :
  give_item_to_character db mj jdr_id data = Ok (db', row) →
  (∃ c, c ∈ characters db ∧ Character.id c = give_character_id data
        ∧ Character.jdr_id c = jdr_id)
  ∧ (∃ g, g ∈ game_items db ∧ GameItem.id g = give_game_item_id data
          ∧ GameItem.jdr_id g = jdr_id)
  ∧ held db' (give_character_id data) (give_game_item_id data)
    = held db (give_character_id data) (give_game_item_id data) + give_quantity data
  ∧ (∀ character_id game_item_id,
       (character_id, game_item_id) ≠ (give_character_id data, give_game_item_id data) →
       held db' character_id game_item_id = held db character_id game_item_id)
  ∧ (inventory_ok db → inventory_ok db').
Proof.
  intros (Hc & Hg & Hrc & Hrg & Hcase)%give_item_to_character_Ok.
  split; [done|]. split; [done|].
  destruct Hcase as [(i & existing & He & Hid & Hq & Hrows) | (He & Hid & Hq & Hrows)].
  - destruct (proj1 (list_find_Some _ _ _ _) He) as (Hi & [Hec Heg] & _).
    split; [|split].
    + unfold held, inventory_entry. rewrite Hrows.
      rewrite (list_find_insert_same _ _ _ existing row) by done.
      unfold inventory_entry in He. rewrite He. simpl. lia.
    + intros cid gid Hne. unfold held, inventory_entry. rewrite Hrows.
      rewrite (list_find_insert_irrelevant _ _ _ existing); [done|done|..];
        intros [? ?]; apply Hne; congruence.
    + intros [Hids Hpairs]. unfold inventory_ok. rewrite Hrows.
      rewrite !(fmap_insert_same _ _ _ existing); [done|done|..].
      * simpl. congruence.
      * done.
      * done.
  - split; [|split].
    + unfold held, inventory_entry. rewrite Hrows.
      rewrite (list_find_snoc_fresh _ (character_inventory db) row); cycle 1.
      { intros y Hy HP. apply list_find_None in He. rewrite Forall_forall in He.
        by apply (He y Hy). }
      { done. }
      unfold inventory_entry in He. rewrite He. simpl. lia.
    + intros cid gid Hne. unfold held, inventory_entry. rewrite Hrows.
      rewrite list_find_snoc_irrelevant; [done|].
      intros [? ?]. apply Hne. congruence.
    + intros [Hids Hpairs]. unfold inventory_ok. rewrite Hrows, !fmap_app. simpl.
      split; apply NoDup_snoc_fresh; try done.
      * rewrite Hid. apply next_id_not_elem.
      * intros (y & Hy & Hin)%list_elem_of_fmap.
        apply list_find_None in He. rewrite Forall_forall in He.
        apply (He y Hin). injection Hy as Hyc Hyg. split; congruence.
Qed.

(** The MJ of [play_db] gives character 1 two more potions (item 2),
    of which the character holds three. *)
Lemma X25_give_item_holdings_witness :
  held play_db 1 2 = 3
  ∧ held (with_character_inventory play_db [CharacterInventory.mk 1 1 2 5 None]) 1 2
    = 3 + 2.
Proof.
  split; [reflexivity|].
  exact (proj1 (proj2 (proj2
           (X25_give_item_holdings play_db user1 1 (mkGiveItemRequest 2 1 2 None)
              _ _ eq_refl)))).
Defined.

(** ** Items and characters of a session *)

Lemma id_truthy_nonzero n : n ≠ 0 → id_truthy (Some n) = true.
Proof. intros Hn. simpl. by apply negb_true_iff, Z.eqb_neq. Qed.

(** What a successful [create_game_item] went through. *)
Lemma create_game_item_Ok db mj jdr_id data db' g :
  create_game_item db mj jdr_id data = Ok (db', g) →
  (∃ jdr, _check_is_mj db mj jdr_id = Ok jdr)
  ∧ (id_truthy (gc_custom_image_id data) = true →
     is_Some (image_by_id db (Some (default 0 (gc_custom_image_id data)))))
  ∧ (id_truthy (gc_template_id data) = true →
     is_Some (template_by_id db (gc_template_id data)))
  ∧ g = GameItem.mk (next_id (GameItem.id <$> game_items db)) jdr_id
          (gc_template_id data) (gc_custom_name data) (gc_custom_image_id data)
          (gc_quantity data)
  ∧ db' = with_game_items db (game_items db ++ [g]).
Proof.
  unfold create_game_item. intros (jdr & Hmj & H)%result_bind_Ok.
  apply result_bind_Ok in H as ([] & Himg & H).
  apply result_bind_Ok in H as ([] & Htpl & H).
  injection H as <- <-. split; [by exists jdr|].
  split; [|split; [|done]].
  - intros Ht. rewrite Ht in Himg. unfold _check_image_exists in Himg.
    by destruct (image_by_id db _).
  - intros Ht. rewrite Ht in Htpl. by destruct (template_by_id db _).
Qed.

(** X26: an item made by [create_game_item].  It belongs to the MJ's
    session.  With a non-empty custom name it is displayed under that
    name; without one and made from a template, under the name of the
    template, never as "Unknown".  With a custom image its url is the
    url of that image.  And the MJ can give it at once to any
    character of the session. *)
Theorem X26_create_game_item db mj jdr_id data db' g :
  create_game_item db mj jdr_id data = Ok (db', g) →
  GameItem.jdr_id g = jdr_id
  ∧ (∃ jdr, _check_is_mj db mj jdr_id = Ok jdr)
  ∧ (∀ n, gc_custom_name data = Some n → n ≠ EmptyString →
          GameItem_display_name db' g = n)
  ∧ (∀ tid, gc_template_id data = Some tid → tid ≠ 0 →
            str_truthy (gc_custom_name data) = false →
            ∃ t, t ∈ item_templates db ∧ ItemTemplate.id t = tid
                 ∧ GameItem_display_name db' g = ItemTemplate.name t)
  ∧ (∀ iid, gc_custom_image_id data = Some iid → iid ≠ 0 →
            ∃ img, img ∈ image_assets db ∧ ImageAsset.id img = iid
                   ∧ GameItem_image_url db' g = Some (ImageAsset.url img))
  ∧ (∀ c quantity notes,
       c ∈ characters db → Character.jdr_id c = jdr_id →
       ∃ db'' row,
         give_item_to_character db' mj jdr_id
           (mkGiveItemRequest (GameItem.id g) (Character.id c) quantity notes)
         = Ok (db'', row)
         ∧ CharacterInventory.game_item_id row = GameItem.id g
         ∧ CharacterInventory.character_id row = Character.id c).
Proof.
  intros ([jdr Hmj] & Himg & Htpl & Hg & ->)%create_game_item_Ok.
  split; [by rewrite Hg|]. split; [by exists jdr|].
  split; [|split; [|split]].
  - intros n Hn Hne. unfold GameItem_display_name. rewrite Hg. simpl.
    rewrite Hn. simpl. by rewrite bool_decide_eq_false_2.
  - intros tid Htid Hne Hname. rewrite Htid in Htpl.
    destruct (Htpl (id_truthy_nonzero _ Hne)) as [t Ht].
    exists t. unfold template_by_id in Ht. simpl in Ht.
    destruct (find_some _ _ Ht) as [Hin Hid%bool_decide_eq_true_1].
    split; [by apply list_elem_of_In|]. split; [done|].
    unfold GameItem_display_name. rewrite Hg. simpl. rewrite Hname, Htid.
    unfold template_by_id. simpl. by rewrite Ht.
  - intros iid Hiid Hne. rewrite Hiid in Himg. simpl in Himg.
    destruct (Himg (id_truthy_nonzero _ Hne)) as [img Hi].
    exists img. unfold image_by_id in Hi. simpl in Hi.
    destruct (find_some _ _ Hi) as [Hin Hid%bool_decide_eq_true_1].
    split; [by apply list_elem_of_In|]. split; [done|].
    unfold GameItem_image_url. rewrite Hg. simpl. rewrite Hiid.
    unfold image_by_id. simpl. by rewrite Hi.
  - intros c quantity notes Hc Hcj. unfold give_item_to_character.
    change (_check_is_mj _ mj jdr_id) with (_check_is_mj db mj jdr_id).
    rewrite Hmj. simpl.
    destruct (List.find _ (characters db)) as [c'|] eqn:Hfc.
    2:{ apply list_elem_of_In in Hc.
        pose proof (find_none _ _ Hfc c Hc) as Hn. simpl in Hn.
        by rewrite !bool_decide_eq_true_2 in Hn. }
    rewrite (find_snoc_last _ (game_items db) g); cycle 1.
    { intros y Hy. rewrite Hg. simpl.
      rewrite (bool_decide_eq_false_2 (GameItem.id y = _)); [done|].
      by apply fresh_key_not_in. }
    { rewrite Hg. simpl. by rewrite !bool_decide_eq_true_2. }
    destruct (inventory_entry _ _ _) as [[i existing]|] eqn:He.
    + eexists _, _. split; [reflexivity|]. simpl.
      by apply list_find_Some in He as (_ & [? ?] & _).
    + by eexists _, _.
Qed.

(** The MJ of [play_db] makes a shield from template 1 and gives it to
    character 1. *)
Lemma X26_create_game_item_witness :
  ∃ t, t ∈ item_templates play_db ∧ ItemTemplate.id t = 1
       ∧ GameItem_display_name
           (with_game_items play_db
              (game_items play_db ++ [GameItem.mk 3 1 (Some 1) None None 1]))
           (GameItem.mk 3 1 (Some 1) None None 1)
         = ItemTemplate.name t.
Proof.
  exact (proj1 (proj2 (proj2 (proj2
           (X26_create_game_item play_db user1 1
              (mkGameItemCreate (Some 1) None None 1) _ _ eq_refl))))
           1 eq_refl ltac:(discriminate) eq_refl).
Defined.

(** What a successful [create_character] went through. *)
Lemma create_character_Ok db user jdr_id data db' c :
  create_character db user jdr_id data = Ok (db', c) →
  (∃ m, _check_is_player db (User.id user) jdr_id = Ok m)
  ∧ (id_truthy (cc_avatar_image_id data) = true →
     is_Some (image_by_id db (Some (default 0 (cc_avatar_image_id data)))))
  ∧ c = Character.mk (next_id (Character.id <$> characters db)) jdr_id (User.id user)
          (cc_name data) (cc_avatar_image_id data) (cc_gold data)
  ∧ db' = with_characters db (characters db ++ [c]).
Proof.
  unfold create_character. intros (m & Hm & H)%result_bind_Ok.
  apply result_bind_Ok in H as ([] & Himg & H).
  injection H as <- <-. split; [by exists m|]. split; [|done].
  intros Ht. rewrite Ht in Himg. unfold _check_image_exists in Himg.
  by destruct (image_by_id db _).
Qed.

(** X27: a character made by [create_character].  Its maker is an
    active player of the session and its owner; the character belongs
    to the session, under a fresh id; an avatar it names is in the
    image table.  In the session it is listed by [get_jdr_characters]
    among characters of that session only; its owner can update it at
    once; and the MJ of the session can change its gold. *)
Theorem X27_create_character db user jdr_id data db' c :
  create_character db user jdr_id data = Ok (db', c) →
  (∃ m, _check_is_player db (User.id user) jdr_id = Ok m)
  ∧ (Character.owner_id c = User.id user
     ∧ Character.jdr_id c = jdr_id
     ∧ Character.id c ∉ (Character.id <$> characters db))
  ∧ (∀ iid, cc_avatar_image_id data = Some iid → iid ≠ 0 →
            is_Some (image_by_id db (Some iid)))
  ∧ (is_Some (jdr_by_id db jdr_id) →
     ∃ l, get_jdr_characters db' user jdr_id = Ok l
          ∧ c ∈ l ∧ ∀ x, x ∈ l → Character.jdr_id x = jdr_id)
  ∧ (∀ g, ∃ db'' c',
       update_character db' user (Character.id c) (gold_patch g) false = Ok (db'', c')
       ∧ Character.gold c' = g)
  ∧ (∀ mj jdr amount,
       _check_is_mj db mj jdr_id = Ok jdr →
       ∃ db'' c',
         update_character_gold db' mj jdr_id (Character.id c) amount = Ok (db'', c')
         ∧ Character.id c' = Character.id c).
Proof.
  intros ([m Hm] & Himg & Hc & ->)%create_character_Ok.
  assert (Character.owner_id c = User.id user ∧ Character.jdr_id c = jdr_id
          ∧ Character.id c = next_id (Character.id <$> characters db))
    as (Hco & Hcj & Hcid) by (by rewrite Hc).
  clear Hc.
  assert (∀ y, y ∈ characters db → Character.id y ≠ Character.id c) as Hfresh.
  { intros y Hy. rewrite Hcid. by apply fresh_key_not_in. }
  split; [by exists m|]. split.
  { split; [done|]. split; [done|]. rewrite Hcid. apply next_id_not_elem. }
  split; [|split; [|split]].
  - intros iid Hiid Hne. rewrite Hiid in Himg. by apply Himg, id_truthy_nonzero.
  - intros [jdr Hjdr]. unfold get_jdr_characters.
    change (jdr_by_id _ jdr_id) with (jdr_by_id db jdr_id). rewrite Hjdr.
    change (_check_is_player _ (User.id user) jdr_id)
      with (_check_is_player db (User.id user) jdr_id).
    rewrite Hm. destruct (negb _); simpl.
    + eexists. split; [reflexivity|]. split.
      * apply filter_elem. split; [|by apply bool_decide_eq_true_2].
        apply elem_of_app. right. apply list_elem_of_here.
      * intros x [_ Hx]%filter_elem. by apply bool_decide_eq_true_1 in Hx.
    + eexists. split; [reflexivity|]. split.
      * apply filter_elem. split; [|by apply bool_decide_eq_true_2].
        apply elem_of_app. right. apply list_elem_of_here.
      * intros x [_ Hx]%filter_elem. by apply bool_decide_eq_true_1 in Hx.
  - intros g. unfold update_character, character_by_pk. simpl.
    rewrite (list_find_snoc_fresh _ (characters db) c); [|by apply Hfresh|done].
    simpl. rewrite bool_decide_eq_true_2 by done. simpl. by eexists _, _.
  - intros mj jdr amount Hmj. unfold update_character_gold.
    change (_check_is_mj _ mj jdr_id) with (_check_is_mj db mj jdr_id).
    rewrite Hmj. simpl. unfold character_entry. simpl.
    rewrite (list_find_snoc_fresh _ (characters db) c).
    + by eexists _, _.
    + intros y Hy [Hyid _]. by apply (Hfresh y).
    + done.
Qed.

(** User 2, the player of [play_db], makes a second character. *)
Lemma X27_create_character_witness :
  ∃ l, get_jdr_characters
         (with_characters play_db
            [play_character; Character.mk 2 1 2 "Balin" None (float_of_Z 5)])
         user2 1
       = Ok l
       ∧ Character.mk 2 1 2 "Balin" None (float_of_Z 5) ∈ l
       ∧ ∀ x, x ∈ l → Character.jdr_id x = 1.
Proof.
  refine (proj1 (proj2 (proj2 (proj2
            (X27_create_character play_db user2 1
               (mkCharacterCreate "Balin" None (float_of_Z 5)) _ _ eq_refl)))) _).
  by eexists.
Defined.
